(** * IMDb top-chart scraper: extraction, resilience and persistence

    A shallow embedding of the Scrapy project [imdb_scraper]: the spider
    [spiders/imdb_top_bs.py], the downloader middlewares [middlewares.py]
    and the item pipelines [pipelines.py], followed by the properties of
    the specification that concern them. *)

From Stdlib Require Import ZArith Ascii String Lia Sorted.
From stdpp Require Import base option list strings pretty gmap.

(** ** Python primitives used by the project *)

Module Py.

(** A Python [str] whose code points lie below 256, one [ascii] per code
    point.  In that range the regular-expression class [\d] (Unicode
    category Nd) is exactly ['0'..'9'], which is also what [int()]
    accepts as a digit. *)
Definition is_digit (c : ascii) : bool :=
  ((48 <=? nat_of_ascii c) && (nat_of_ascii c <=? 57))%nat.

Definition digit_value (c : ascii) : Z := Z.of_nat (nat_of_ascii c) - 48.

(** The number that a string of decimal digits writes (leading zeros
    allowed).  This is the value that [int(s)] gives when it accepts
    the string: see [int_of_digits] below for the function itself. *)
Fixpoint int_acc (acc : Z) (s : string) : Z :=
  match s with
  | EmptyString => acc
  | String c s' => int_acc (acc * 10 + digit_value c) s'
  end.

Definition int (s : string) : Z := int_acc 0 s.

(** The longest prefix of digits of [s], and what follows it. *)
Fixpoint digits_run (s : string) : string * string :=
  match s with
  | String c s' =>
      if is_digit c
      then let '(d, r) := digits_run s' in (String c d, r)
      else (EmptyString, s)
  | EmptyString => (EmptyString, EmptyString)
  end.

(** The pattern [(\d+)X] tried at the start of [s]: the greedy [\d+]
    takes the whole run of digits, and [X] must come next.  The result
    is group 1. *)
Definition match_here (X : ascii) (s : string) : option string :=
  match digits_run s with
  | (String d ds, String c _) =>
      if Ascii.eqb c X then Some (String d ds) else None
  | _ => None
  end.

(** [re.search(r"(\d+)X", s)]: the match at the leftmost position where
    the pattern matches; the result is [m.group(1)], [None] when there
    is no match. *)
Fixpoint re_search_digits (X : ascii) (s : string) : option string :=
  match match_here X s with
  | Some g => Some g
  | None =>
      match s with
      | String _ s' => re_search_digits X s'
      | EmptyString => None
      end
  end.

(** Characters removed by [str.strip()] (those with [str.isspace]). *)
Definition is_space (c : ascii) : bool :=
  let n := nat_of_ascii c in
  (((9 <=? n) && (n <=? 13)) || ((28 <=? n) && (n <=? 32))
   || (n =? 133) || (n =? 160))%nat.

Fixpoint lstrip (s : string) : string :=
  match s with
  | String c s' => if is_space c then lstrip s' else s
  | EmptyString => EmptyString
  end.

Fixpoint rstrip (s : string) : string :=
  match s with
  | String c s' =>
      match rstrip s' with
      | EmptyString => if is_space c then EmptyString else String c EmptyString
      | r => String c r
      end
  | EmptyString => EmptyString
  end.

Definition strip (s : string) : string := rstrip (lstrip s).

(** [enumerate(l, start)] *)
Fixpoint enumerate {A} (start : Z) (l : list A) : list (Z * A) :=
  match l with
  | [] => []
  | x :: l' => (start, x) :: enumerate (start + 1) l'
  end.

(** Declarative reading of a regular-expression match of [(\d+)X]:
    [s = pre ++ g ++ X ++ post] with [g] a non-empty string of digits. *)
Fixpoint all_digits (g : string) : bool :=
  match g with
  | EmptyString => true
  | String c g' => is_digit c && all_digits g'
  end.

Definition matches_at (X : ascii) (s pre g post : string) : Prop :=
  s = String.append pre (String.append g (String X post))
  /\ g <> EmptyString /\ all_digits g = true.

(** [g] is group 1 of the leftmost match; at one starting position the
    greedy quantifier prefers the longest [g]. *)
Definition leftmost_match (X : ascii) (s g : string) : Prop :=
  exists pre post,
    matches_at X s pre g post
    /\ forall pre' g' post',
         matches_at X s pre' g' post' ->
         (String.length pre < String.length pre')%nat
         \/ (String.length pre = String.length pre'
             /\ (String.length g' <= String.length g)%nat).

Definition no_match (X : ascii) (s : string) : Prop :=
  forall pre g post, ~ matches_at X s pre g post.

(** The number contributed by the component [X] of a duration token:
    the value of the matched digits, or 0 when the component is not
    matched. *)
Definition component (X : ascii) (s : string) (n : Z) : Prop :=
  (exists g, leftmost_match X s g /\ n = int g)
  \/ (no_match X s /\ n = 0%Z).

(** What the component [X] contributes to a total, read off the
    search. *)
Definition contribution (X : ascii) (s : string) : Z :=
  match re_search_digits X s with
  | Some g => int g
  | None => 0%Z
  end.

(** [k in s] for two strings: [k] occurs in [s]. *)
Fixpoint str_contains (k s : string) : bool :=
  String.prefix k s
  || match s with
     | String _ s' => str_contains k s'
     | EmptyString => false
     end.

(** *** Exceptions *)

Inductive exn : Set :=
  | KeyError (key : string)
  | TypeError
  | ValueError
  | AttributeError
  | IndexError
  | OverflowError
  | JSONDecodeError
  | FakeUserAgentError
  | TimeoutError
  | TCPTimedOutError
  | ConnectionRefusedError
  | ConnectionLost
  | IntegrityError
  | DataError.

(** A computation that returns a value or raises. *)
Inductive result (A : Type) : Type :=
  | Ok (a : A)
  | Raise (e : exn).
Arguments Ok {A} a.
Arguments Raise {A} e.

#[export] Instance result_ret : MRet result := fun A a => Ok a.
#[export] Instance result_bind : MBind result := fun A B k m =>
  match m with
  | Ok a => k a
  | Raise e => Raise e
  end.

#[export] Instance result_fmap : FMap result := fun A B f m =>
  match m with
  | Ok a => Ok (f a)
  | Raise e => Raise e
  end.

(** [sys.int_info.default_max_str_digits]: the number of digits above
    which [int()] refuses a string, unless the interpreter is started
    with another limit (CPython 3.11 on, and the security releases of
    3.7 to 3.10). *)
Definition max_str_digits : Z := 4300.

(** [int(s)] for a string of decimal digits: its value, or a
    [ValueError] when it has more digits than the limit (leading zeros
    count). *)
Definition int_of_digits (s : string) : result Z :=
  if (Z.of_nat (String.length s) <=? max_str_digits)%Z then Ok (int s)
  else Raise ValueError.

(** What the component [X] of a duration token contributes once
    [int] has converted the digits matched. *)
Definition converted (X : ascii) (s : string) : result Z :=
  match re_search_digits X s with
  | Some g => int_of_digits g
  | None => Ok 0%Z
  end.

(** ["c" * n] *)
Definition str_mul (c : ascii) (n : nat) : string :=
  string_of_list_ascii (replicate n c).

(** [random.choice(seq)], the draw of the generator made explicit. *)
Definition random_choice {A} (draw : nat) (seq : list A) : result A :=
  match seq !! (draw `mod` length seq)%nat with
  | Some x => Ok x
  | None => Raise IndexError
  end.

(** *** Floats and values

    Floating-point numbers are carried around, never computed with;
    their type and the conversions of the language to it are left
    open. *)
Class PyFloat : Type := {
  float : Type;
  (** [float(n)] for an integer; [OverflowError] when too large *)
  float_of_int : Z -> result float;
  (** [float(s)] for a string; [ValueError] when not a number *)
  float_of_str : string -> result float;
  (** [bool(f)]: false for a zero *)
  float_bool : float -> bool;
}.

Section Values.
Context `{PyFloat}.

(** The values that [json.loads] produces, which are also the values
    stored in [Request.meta]. *)
#[warnings="-register-all"]
Inductive value : Type :=
  | VNone
  | VBool (b : bool)
  | VInt (n : Z)
  | VFloat (f : float)
  | VStr (s : string)
  | VList (l : list value)
  | VDict (d : gmap string value).

(** [bool(v)]: [None], [False], a zero and what is empty are false. *)
Definition truthy (v : value) : bool :=
  match v with
  | VNone => false
  | VBool b => b
  | VInt n => negb (n =? 0)%Z
  | VFloat f => float_bool f
  | VStr s => negb (String.eqb s EmptyString)
  | VList l => if l is [] then false else true
  | VDict d => negb (bool_decide (d = ∅))
  end.

(** [v[k]] for a string key [k] *)
Definition getitem (v : value) (k : string) : result value :=
  match v with
  | VDict d =>
      match d !! k with
      | Some x => Ok x
      | None => Raise (KeyError k)
      end
  | _ => Raise TypeError
  end.

Definition is_str (k : string) (v : value) : bool :=
  match v with
  | VStr s => String.eqb s k
  | _ => false
  end.

(** [k in v] for a string [k] *)
Definition contains (k : string) (v : value) : result bool :=
  match v with
  | VDict d => Ok (bool_decide (is_Some (d !! k)))
  | VList l => Ok (existsb (is_str k) l)
  | VStr s => Ok (str_contains k s)
  | _ => Raise TypeError
  end.

(** [v.get(k)] *)
Definition get (v : value) (k : string) : result value :=
  match v with
  | VDict d => Ok (default VNone (d !! k))
  | _ => Raise AttributeError
  end.

(** What a slice of a value can be, and its elements in order. *)
Inductive sequence : Type :=
  | SList (l : list value)
  | SStr (s : string).

Definition prefix_str (n : nat) (s : string) : string :=
  String.substring 0 (Nat.min n (String.length s)) s.

(** [v[:n]]; on a dict the subscript raises ([TypeError], and
    [KeyError] from Python 3.12 on). *)
Definition slice_to (n : nat) (v : value) : result sequence :=
  match v with
  | VList l => Ok (SList (take n l))
  | VStr s => Ok (SStr (prefix_str n s))
  | _ => Raise TypeError
  end.

(** The elements a [for] loop visits. *)
Definition elements (q : sequence) : list value :=
  match q with
  | SList l => l
  | SStr s => (fun c => VStr (String c EmptyString)) <$> list_ascii_of_string s
  end.

(** [float(v)] *)
Definition to_float (v : value) : result float :=
  match v with
  | VFloat f => Ok f
  | VInt n => float_of_int n
  | VBool b => float_of_int (if b then 1 else 0)
  | VStr s => float_of_str s
  | _ => Raise TypeError
  end.

End Values.

End Py.

Import Py.

(** ** The libraries the project is written against

    Only what the project uses of them: the parsed document answers the
    queries the spider makes, a request carries its [meta] and headers. *)

Module Bs4.

(** A [<script>] element: its [type] attribute and its [.string]. *)
Record ScriptTag : Set := {
  script_type : option string;
  script_string : option string;
}.

(** A cast item: the [.text] of its first
    [<a data-testid="title-cast-item__actor">], if it has one. *)
Record CastItem : Set := {
  actor_link : option string;
}.

(** A parsed document: its [<script>] elements in document order, and
    the [div data-testid="title-cast-item"] elements, in document
    order, of its first [<section data-testid="title-cast">], if there
    is such a section. *)
Record BeautifulSoup : Set := {
  scripts : list ScriptTag;
  title_cast : option (list CastItem);
}.

End Bs4.

Module FakeUseragent.

(** A [UserAgent] object: its [random] property, the draw of the
    generator made explicit. *)
Record UserAgent : Set := {
  random : nat -> result string;
}.

End FakeUseragent.

Module Scrapy.
Section WithFloat.
Context `{PyFloat}.

Inductive Callback : Set := parse_cb | parse_movie_cb.

Record Request : Type := {
  url : string;
  callback : Callback;
  meta : gmap string value;
  headers : gmap string string;
  priority : Z;
  dont_filter : bool;
}.

Record Response : Type := {
  response_url : string;
  status : Z;
  (** [BeautifulSoup(response.text, "lxml")] *)
  soup : Bs4.BeautifulSoup;
  response_meta : gmap string value;
}.

(** [Settings], the entries read by the middlewares. *)
Record Settings : Set := {
  RETRY_TIMES : Z;
  RETRY_PRIORITY_ADJUST : Z;
  PROXIES : list string;
}.

(** The URL given to [follow], as [urljoin] reads it: a string is
    joined to the base; for another value that is false ([0], [False],
    an empty list or dict) [urljoin] returns the base, as it does for
    the empty string; another value that is no string is a
    [TypeError]; no URL is a [ValueError]. *)
Definition url_text (url : value) : result string :=
  match url with
  | VNone => Raise ValueError
  | VStr u => Ok u
  | _ => if truthy url then Raise TypeError else Ok EmptyString
  end.

(** [response.follow(url, callback, meta=..., headers=...)]: the URL
    is resolved against the response's ([urljoin], which also stands
    for the validation of the URL by [Request]). *)
Definition follow (urljoin : string -> string -> result string)
    (response : Response) (url : value) (cb : Callback)
    (meta : gmap string value) (headers : gmap string string)
  : result Request :=
  u ← url_text url;
  target ← urljoin (response_url response) u;
  Ok {| url := target; callback := cb; meta := meta;
        headers := headers; priority := 0; dont_filter := false |}.

(** [request.meta.get(key, dflt)] where an integer is added to or
    compared: a value that is no number is a [TypeError] (a float,
    which Python would add and compare, is not modelled and is taken
    for one too). *)
Definition meta_int (request : Request) (key : string) (dflt : Z)
  : result Z :=
  match meta request !! key with
  | None => Ok dflt
  | Some (VInt n) => Ok n
  | Some (VBool b) => Ok (if b then 1 else 0)%Z
  | Some _ => Raise TypeError
  end.

(** An entry of [meta] that stands in for a setting: when the key is
    absent, and when its value is [None], the setting is taken. *)
Definition meta_or_setting (request : Request) (key : string) (setting : Z)
  : result Z :=
  match meta request !! key with
  | None | Some VNone => Ok setting
  | Some _ => meta_int request key setting
  end.

(** [get_retry_request], which [RetryMiddleware._retry] calls: while
    the budget lasts, a copy of the request with its count of retries
    raised, not filtered as a duplicate, and its priority adjusted;
    nothing once the budget is spent.  The count is read first, then
    the budget; the adjustment is read only for a request that is sent
    again. *)
Definition get_retry_request (request : Request)
    (max_retry_times priority_adjust : result Z)
  : result (option Request) :=
  n ← meta_int request "retry_times" 0;
  let retry_times := (n + 1)%Z in
  max_retry_times ← max_retry_times;
  if (retry_times <=? max_retry_times)%Z then
    priority_adjust ← priority_adjust;
    Ok (Some {| url := url request; callback := callback request;
                meta := <["retry_times" := VInt retry_times]> (meta request);
                headers := headers request;
                priority := priority request + priority_adjust;
                dont_filter := true |})
  else Ok None.

End WithFloat.
End Scrapy.

(** ** What the project reports

    The calls to [logger] (and one [print]) of the project, as events. *)

Module Logging.

Inductive Level : Set := STDOUT | INFO | WARNING | ERROR.

Inductive Event : Set :=
  | ItemListNotFound                     (* spider: no ItemList JSON-LD block *)
  | InvalidJsonLd                        (* spider: the block is not JSON *)
  | FakeUseragentFailed (e : exn)        (* the basic list is used instead *)
  | ProxiesEmpty                         (* the scraper runs without proxy *)
  | AssigningProxy (proxy : string)      (* printed *)
  | NewPublicIp (ip proxy : string)
  | ProxyChanged (proxy : string)
  | ProxyFailed (proxy : option string) (e : exn)
  | MovieInsertError (e : exn)
  | ActorInsertError (e : exn)
  | MovieNotFound (movie_title : option string).

Definition level (ev : Event) : Level :=
  match ev with
  | ItemListNotFound | InvalidJsonLd => ERROR
  | FakeUseragentFailed _ | ProxiesEmpty | ProxyFailed _ _ => WARNING
  | AssigningProxy _ => STDOUT
  | NewPublicIp _ _ | ProxyChanged _ => INFO
  | MovieInsertError _ | ActorInsertError _ => ERROR
  | MovieNotFound _ => WARNING
  end.

End Logging.

(** ** The spider, [spiders/imdb_top_bs.py] *)

Module ImdbTopBsSpider.

(** [_iso_to_minutes]: 'PT2H22M' to minutes; [None] when there is no
    ISO value.  The two calls of [int] may raise. *)
Definition _iso_to_minutes (iso_val : option string) : result (option Z) :=
  match iso_val with
  | None | Some EmptyString => Ok None
  | Some iso_val =>
      let hrs := Py.re_search_digits "H" iso_val in
      let mins := Py.re_search_digits "M" iso_val in
      let total := 0%Z in
      total ←
        match hrs with
        | Some g => n ← Py.int_of_digits g; Ok (total + n * 60)%Z
        | None => Ok total
        end;
      total ←
        match mins with
        | Some g => n ← Py.int_of_digits g; Ok (total + n)%Z
        | None => Ok total
        end;
      Ok (if (total =? 0)%Z then None else Some total)
  end.

(** The dict that [_extract_actors] builds for an actor. *)
Record actor : Set := {
  movie_title : string;
  actor_name : string;
  position_order : Z;
}.

(** [_extract_actors]: the list of dicts of the first 3 actors. *)
Definition _extract_actors (soup : Bs4.BeautifulSoup) (movie_title : string)
  : list actor :=
  let actors := [] in
  match Bs4.title_cast soup with
  | Some cast_items =>
      foldl
        (fun actors '(pos, div) =>
           match Bs4.actor_link div with
           | Some a_text =>
               actors ++ [ {| movie_title := movie_title;
                              actor_name := strip a_text;
                              position_order := pos |} ]
           | None => actors
           end)
        actors
        (enumerate 1 (take 3 cast_items))  (* only the first 3 actors *)
  | None => actors
  end.

Section Parse.
Context `{PyFloat}.
(** [json.loads]; no value is a [JSONDecodeError] *)
Variable json_loads : string -> option value.
Variable urljoin : string -> string -> result string.

(** What running the generator [parse] to its end gives: the requests
    yielded, in order, what was logged, and the exception that ended
    it, if one did. *)
Record Crawl : Type := {
  requests : list Scrapy.Request;
  logged : list Logging.Event;
  raised : option exn;
}.

(** The filter of [soup.find("script", type="application/ld+json",
    string=lambda t: t and "ItemList" in t)] *)
Definition is_item_list (tag : Bs4.ScriptTag) : bool :=
  bool_decide (Bs4.script_type tag = Some "application/ld+json"%string)
  && match Bs4.script_string tag with
     | Some t => negb (String.eqb t EmptyString) && str_contains "ItemList" t
     | None => false
     end.

(** The body of the loop: the request for the detail of one movie.
    [user_agent] is the outcome of [UserAgent()] there. *)
Definition detail_request (response : Scrapy.Response) (elem : value)
    (user_agent : result FakeUseragent.UserAgent) (draw : nat)
  : result Scrapy.Request :=
  movie ← getitem elem "item";
  title ← getitem movie "name";
  has_rating ← contains "aggregateRating" movie;
  rating ← (if has_rating : bool then
              aggregate ← getitem movie "aggregateRating";
              rating_value ← getitem aggregate "ratingValue";
              f ← to_float rating_value;
              Ok (VFloat f)
            else Ok VNone);
  duration_iso ← get movie "duration";
  let meta : gmap string value :=
    <["title" := title]> (<["rating" := rating]>
      (<["duration_iso" := duration_iso]> ∅)) in
  movie_url ← getitem movie "url";
  ua ← user_agent;
  ua_random ← FakeUseragent.random ua draw;
  Scrapy.follow urljoin response movie_url Scrapy.parse_movie_cb meta
    (<["User-Agent" := ua_random]> ∅).

(** The loop over the items, from its [i]-th turn on: it stops at the
    first exception, after the requests already yielded. *)
Fixpoint detail_requests (response : Scrapy.Response)
    (user_agent : nat -> result FakeUseragent.UserAgent)
    (draw : nat -> nat) (i : nat) (items : list value)
  : list Scrapy.Request * option exn :=
  match items with
  | [] => ([], None)
  | elem :: items' =>
      match detail_request response elem (user_agent i) (draw i) with
      | Ok request =>
          let '(rs, e) :=
            detail_requests response user_agent draw (S i) items' in
          (request :: rs, e)
      | Raise e => ([], Some e)
      end
  end.

(** An entry of the listing as the index page documents it: its
    ["item"] is an object with a name, a URL that is a string, which
    resolves against the page's, and, when it has an aggregate rating,
    a rating value that [float] accepts. *)
Definition listed (response : Scrapy.Response) (elem : value) : Prop :=
  exists movie : gmap string value,
    getitem elem "item" = Ok (VDict movie)
    /\ is_Some (movie !! "name")
    /\ (exists u target,
          movie !! "url" = Some (VStr u)
          /\ urljoin (Scrapy.response_url response) u = Ok target)
    /\ (forall aggregate, movie !! "aggregateRating" = Some aggregate ->
          exists rating_value f,
            getitem aggregate "ratingValue" = Ok rating_value
            /\ to_float rating_value = Ok f).

(** [parse]: the list of movies.  [user_agent i] is the outcome of
    the call [UserAgent()] in turn [i] of the loop. *)
Definition parse (response : Scrapy.Response)
    (user_agent : nat -> result FakeUseragent.UserAgent)
    (draw : nat -> nat) : Crawl :=
  match List.find is_item_list (Bs4.scripts (Scrapy.soup response)) with
  | None =>
      {| requests := []; logged := [Logging.ItemListNotFound];
         raised := None |}
  | Some script_tag =>
      match Bs4.script_string script_tag with
      | None => {| requests := []; logged := []; raised := Some TypeError |}
      | Some text =>
          match json_loads text with
          | None =>
              {| requests := []; logged := [Logging.InvalidJsonLd];
                 raised := None |}
          | Some document =>
              (* only the top 50 *)
              match getitem document "itemListElement" ≫= slice_to 50 with
              | Raise e =>
                  {| requests := []; logged := []; raised := Some e |}
              | Ok items =>
                  let '(rs, e) :=
                    detail_requests response user_agent draw 0
                      (elements items) in
                  {| requests := rs; logged := []; raised := e |}
              end
          end
      end
  end.

End Parse.

End ImdbTopBsSpider.

(** ** The downloader middlewares, [middlewares.py] *)

Module RandomUserAgentMiddleware.
Section WithFloat.
Context `{PyFloat}.

(** [fallback_agents] exists only when [UserAgent()] failed. *)
Record t : Set := {
  ua : option FakeUseragent.UserAgent;
  fallback_agents : option (list string);
}.

Definition basic_list : list string :=
  [ "Mozilla/5.0 (Windows NT 10.0; Win64; x64) AppleWebKit/537.36 (KHTML, like Gecko) Chrome/115.0.0.0 Safari/537.36";
    "Mozilla/5.0 (X11; Linux x86_64) AppleWebKit/537.36 (KHTML, like Gecko) Chrome/114.0.5735.198 Safari/537.36";
    "Mozilla/5.0 (Macintosh; Intel Mac OS X 10_15_7) AppleWebKit/605.1.15 (KHTML, like Gecko) Version/14.1 Safari/605.1.15";
    "Mozilla/5.0 (Windows NT 10.0; Win64; x64; rv:115.0) Gecko/20100101 Firefox/115.0" ]%string.

(** [__init__]; [user_agent] is the outcome of [UserAgent()]. *)
Definition __init__ (user_agent : result FakeUseragent.UserAgent)
  : t * list Logging.Event :=
  match user_agent with
  | Ok u => ({| ua := Some u; fallback_agents := None |}, [])
  | Raise exc =>
      ({| ua := None; fallback_agents := Some basic_list |},
       [Logging.FakeUseragentFailed exc])
  end.

(** [request.headers.setdefault(name, v)] *)
Definition setdefault_header (name v : string) (request : Scrapy.Request)
  : Scrapy.Request :=
  match Scrapy.headers request !! name with
  | Some _ => request
  | None =>
      {| Scrapy.url := Scrapy.url request;
         Scrapy.callback := Scrapy.callback request;
         Scrapy.meta := Scrapy.meta request;
         Scrapy.headers := <[name := v]> (Scrapy.headers request);
         Scrapy.priority := Scrapy.priority request;
         Scrapy.dont_filter := Scrapy.dont_filter request |}
  end.

(** [process_request]: a random User-Agent for each request. *)
Definition process_request (self : t) (request : Scrapy.Request)
    (draw : nat) : result Scrapy.Request :=
  agent ← match ua self with
          | Some u => FakeUseragent.random u draw
          | None =>
              match fallback_agents self with
              | Some agents => random_choice draw agents
              | None => Raise AttributeError
              end
          end;
  Ok (setdefault_header "User-Agent" agent request).

End WithFloat.
End RandomUserAgentMiddleware.

Module MixedProxyMiddleware.
Section WithFloat.
Context `{PyFloat}.

(** The middleware extends Scrapy's [RetryMiddleware], whose
    [__init__] reads the budget of retries from the settings. *)
Record t : Set := {
  max_retry_times : Z;
  priority_adjust : Z;
  proxies : list string;
  current_proxy : option string;
}.

Definition __init__ (settings : Scrapy.Settings)
  : t * list Logging.Event :=
  ({| max_retry_times := Scrapy.RETRY_TIMES settings;
      priority_adjust := Scrapy.RETRY_PRIORITY_ADJUST settings;
      proxies := Scrapy.PROXIES settings;
      current_proxy := None |},
   if Scrapy.PROXIES settings is [] then [Logging.ProxiesEmpty] else []).

Definition _choose_proxy (self : t) (draw : nat) : result (option string) :=
  match proxies self with
  | [] => Ok None
  | _ => Some <$> random_choice draw (proxies self)
  end.

Definition set_meta (key : string) (v : value) (request : Scrapy.Request)
  : Scrapy.Request :=
  {| Scrapy.url := Scrapy.url request;
     Scrapy.callback := Scrapy.callback request;
     Scrapy.meta := <[key := v]> (Scrapy.meta request);
     Scrapy.headers := Scrapy.headers request;
     Scrapy.priority := Scrapy.priority request;
     Scrapy.dont_filter := Scrapy.dont_filter request |}.

(** [_set_proxy]; [public_ip] is the outcome of the lookup of the
    public address, made only when the proxy changes. *)
Definition _set_proxy (self : t) (request : Scrapy.Request) (draw : nat)
    (public_ip : result string)
  : result (t * Scrapy.Request * list Logging.Event) :=
  proxy ← _choose_proxy self draw;
  match proxy with
  | Some proxy =>
      if String.eqb proxy EmptyString then Ok (self, request, [])
      else
        let request := set_meta "proxy" (VStr proxy) request in
        if bool_decide (Some proxy = current_proxy self)
        then Ok (self, request, [Logging.AssigningProxy proxy])
        else
          Ok ({| max_retry_times := max_retry_times self;
                 priority_adjust := priority_adjust self;
                 proxies := proxies self;
                 current_proxy := Some proxy |},
              request,
              [ Logging.AssigningProxy proxy;
                match public_ip with
                | Ok ip => Logging.NewPublicIp ip proxy
                | Raise _ => Logging.ProxyChanged proxy
                end ])
  | None => Ok (self, request, [])
  end.

Definition process_request (self : t) (request : Scrapy.Request)
    (draw : nat) (public_ip : result string)
  : result (t * Scrapy.Request * list Logging.Event) :=
  match Scrapy.meta request !! "proxy" with
  | None => _set_proxy self request draw public_ip
  | Some _ => Ok (self, request, [])
  end.

Definition is_connection_failure (exception : exn) : bool :=
  match exception with
  | TimeoutError | TCPTimedOutError | ConnectionRefusedError => true
  | _ => false
  end.

(** [request.meta.get("proxy")], when it is a string *)
Definition meta_proxy (request : Scrapy.Request) : option string :=
  match Scrapy.meta request !! "proxy" with
  | Some (VStr p) => Some p
  | _ => None
  end.

(** [process_exception]: on a failure of the connection, another
    proxy is drawn and the request is returned to be sent again. *)
Definition process_exception (self : t) (request : Scrapy.Request)
    (exception : exn) (draw : nat) (public_ip : result string)
  : result (t * option Scrapy.Request * list Logging.Event) :=
  if is_connection_failure exception then
    '(self', request', events) ← _set_proxy self request draw public_ip;
    Ok (self', Some request',
        Logging.ProxyFailed (meta_proxy request) exception :: events)
  else Ok (self, None, []).

(** [RetryMiddleware._retry], inherited from Scrapy. *)
Definition _retry (self : t) (request : Scrapy.Request)
  : result (option Scrapy.Request) :=
  let max_retry_times :=
    Scrapy.meta_or_setting request "max_retry_times" (max_retry_times self) in
  let priority_adjust :=
    Scrapy.meta_or_setting request "priority_adjust" (priority_adjust self) in
  Scrapy.get_retry_request request max_retry_times priority_adjust.

(** [process_response]: what goes on, the request to send again or
    the response. *)
Definition process_response (self : t) (request : Scrapy.Request)
    (response : Scrapy.Response)
  : result (Scrapy.Request + Scrapy.Response) :=
  if bool_decide (Scrapy.status response = 403%Z
                  \/ Scrapy.status response = 429%Z)
  then
    retried ← _retry self request;
    match retried with
    | Some request' => Ok (inl request')
    | None => Ok (inr response)
    end
  else Ok (inr response).

End WithFloat.
End MixedProxyMiddleware.

(** ** The items, [items.py] *)

Module Items.
Section WithFloat.
Context `{PyFloat}.

(** A field holds a value of its declared type or [None] (which is
    also what [item.get] gives for a field that was not set). *)
Record MovieItem : Type := {
  title : option string;
  year : option Z;
  rating : option float;
  duration : option Z;
  metascore : option Z;
}.

Record ActorItem : Set := {
  movie_title : option string;
  actor_name : option string;
  position_order : option Z;
}.

Inductive Item : Type :=
  | Movie (item : MovieItem)
  | Actor (item : ActorItem).

End WithFloat.
End Items.

(** ** The pipelines, [pipelines.py] *)

Module CsvExportPipeline.
Section WithFloat.
Context `{PyFloat}.

(** A value handed to the writer; how [csv] prints it is not
    modelled. *)
Inductive cell : Type :=
  | CNone
  | CInt (n : Z)
  | CFloat (f : float)
  | CStr (s : string).

Definition cell_of {A} (f : A -> cell) (v : option A) : cell :=
  match v with
  | Some a => f a
  | None => CNone
  end.

(** A file opened for writing: the rows written so far. *)
Record File : Type := {
  rows : list (list cell);
  closed : bool;
}.

Record DictWriter : Set := {
  fieldnames : list string;
}.

(** [movie_writer] writes to [movie_file], [actor_writer] to
    [actor_file]. *)
Record t : Type := {
  base_path : string;
  movie_file : option File;
  actor_file : option File;
  movie_writer : option DictWriter;
  actor_writer : option DictWriter;
}.

Definition __init__ (base_path : string) : t :=
  {| base_path := base_path; movie_file := None; actor_file := None;
     movie_writer := None; actor_writer := None |}.

Definition movie_fields : list string :=
  ["title"; "year"; "rating"; "duration"; "metascore"]%string.
Definition actor_fields : list string :=
  ["movie_title"; "actor_name"; "position_order"]%string.

(** [open_spider]: both files are created anew (mode ["w"]) and get
    their header.  The file system is taken to allow it. *)
Definition open_spider (self : t) : t :=
  {| base_path := base_path self;
     movie_file := Some {| rows := [CStr <$> movie_fields]; closed := false |};
     actor_file := Some {| rows := [CStr <$> actor_fields]; closed := false |};
     movie_writer := Some {| fieldnames := movie_fields |};
     actor_writer := Some {| fieldnames := actor_fields |} |}.

Definition close (file : File) : File :=
  {| rows := rows file; closed := true |}.

Definition close_spider (self : t) : t :=
  {| base_path := base_path self;
     movie_file := close <$> movie_file self;
     actor_file := close <$> actor_file self;
     movie_writer := movie_writer self;
     actor_writer := actor_writer self |}.

(** The dict given to [writerow], as it is written: its keys are
    distinct. *)
Definition rowdict_get (rowdict : list (string * cell)) (k : string)
  : option cell :=
  snd <$> List.find (λ entry, String.eqb entry.1 k) rowdict.

(** [writer.writerow(rowdict)] on the file of the writer: one more
    row, the fields in the order of [fieldnames]; a key that is not a
    field name, or a closed file, is a [ValueError]. *)
Definition writerow (writer : DictWriter) (rowdict : list (string * cell))
    (file : option File) : result (option File) :=
  match file with
  | Some f =>
      if closed f then Raise ValueError
      else if forallb
                (λ entry, existsb (String.eqb entry.1) (fieldnames writer))
                rowdict
      then
        Ok (Some {| rows := rows f
                      ++ [(λ k, default (CStr EmptyString)
                                  (rowdict_get rowdict k))
                            <$> fieldnames writer];
                    closed := false |})
      else Raise ValueError
  | None => Raise AttributeError
  end.

Definition process_item (self : t) (item : Items.Item) : result t :=
  match item, movie_writer self, actor_writer self with
  | Items.Movie item, Some writer, _ =>
      file ← writerow writer
               [ ("title", cell_of CStr (Items.title item));
                 ("year", cell_of CInt (Items.year item));
                 ("rating", cell_of CFloat (Items.rating item));
                 ("duration", cell_of CInt (Items.duration item));
                 ("metascore", cell_of CInt (Items.metascore item)) ]%string
               (movie_file self);
      Ok {| base_path := base_path self;
            movie_file := file; actor_file := actor_file self;
            movie_writer := movie_writer self;
            actor_writer := actor_writer self |}
  | Items.Actor item, _, Some writer =>
      file ← writerow writer
               [ ("movie_title", cell_of CStr (Items.movie_title item));
                 ("actor_name", cell_of CStr (Items.actor_name item));
                 ("position_order",
                  cell_of CInt (Items.position_order item)) ]%string
               (actor_file self);
      Ok {| base_path := base_path self;
            movie_file := movie_file self; actor_file := file;
            movie_writer := movie_writer self;
            actor_writer := actor_writer self |}
  | _, _, _ => Ok self
  end.

(** What the sink has persisted: the rows of its two files. *)
Definition persisted (self : t) : list (list cell) * list (list cell) :=
  (default [] (rows <$> movie_file self),
   default [] (rows <$> actor_file self)).

End WithFloat.
End CsvExportPipeline.

(** PostgreSQL, as the pipeline uses it through SQLAlchemy. *)
Module Postgresql.

(** What is left open of the database.  The column types
    [NUMERIC(3,1)], filled from a float, and [VARCHAR(255)]: a value
    that does not fit is an error ([DataError]).  And the row that a
    query without [ORDER BY] returns first: [first_row ids] is its
    place among the rows that match, whose [id]s are [ids] in the order
    of their insertion. *)
Class Types `{PyFloat} : Type := {
  numeric : Type;
  numeric_3_1 : float -> result numeric;
  varchar_255 : string -> result string;
  first_row : list Z -> nat;
}.

(** [INTEGER] *)
Definition integer (n : Z) : result Z :=
  if ((-2147483648 <=? n) && (n <=? 2147483647))%Z then Ok n
  else Raise DataError.

(** A nullable column: [None] is stored as NULL. *)
Definition nullable {A B} (conv : A -> result B) (v : option A)
  : result (option B) :=
  match v with
  | Some a => Some <$> conv a
  | None => Ok None
  end.

(** A column declared [nullable=False]: NULL violates the constraint
    ([IntegrityError]). *)
Definition not_null {A} (v : option A) : result A :=
  match v with
  | Some a => Ok a
  | None => Raise IntegrityError
  end.

(** [.first()] on the rows that a query without [ORDER BY] matched. *)
Definition first `{Types} {A} (id : A -> Z) (matched : list A) : option A :=
  matched !! (first_row (id <$> matched) `mod` length matched)%nat.

End Postgresql.

(** The rows of table [peliculas]. *)
Module peliculas.
Section WithTypes.
Context `{Postgresql.Types}.

Record row : Type := {
  id : Z;
  titulo : string;
  anio : option Z;
  calificacion : option Postgresql.numeric;
  duracion : option Z;
  metascore : option Z;
}.

(** The unique constraint [uq_pelicula_unique] on ([titulo], [anio]):
    two rows collide when both columns are equal; a NULL is equal to
    nothing, not even to another NULL. *)
Definition same_key (r r' : row) : bool :=
  String.eqb (titulo r) (titulo r')
  && match anio r, anio r' with
     | Some a, Some a' => (a =? a')%Z
     | _, _ => false
     end.

End WithTypes.
End peliculas.

(** The rows of table [actores]. *)
Module actores.

Record row : Set := {
  id : Z;
  pelicula_id : option Z;
  nombre : string;
  posicion_orden : option Z;
}.

End actores.

Module PostgresPipeline.
Section WithTypes.
Context `{Postgresql.Types}.

Record Database : Type := {
  movies_table : list peliculas.row;
  actors_table : list actores.row;
}.

(** The pipeline with the database behind it: what is committed,
    what the open session sees (the committed rows and its own
    changes since the last commit or rollback), and the sequences of
    the two [id] columns, which no rollback rewinds. *)
Record t : Type := {
  committed : Database;
  session : Database;
  peliculas_id_seq : Z;
  actores_id_seq : Z;
}.

Definition rollback (self : t) : t :=
  {| committed := committed self; session := committed self;
     peliculas_id_seq := peliculas_id_seq self;
     actores_id_seq := actores_id_seq self |}.

Definition commit (self : t) : t :=
  {| committed := session self; session := session self;
     peliculas_id_seq := peliculas_id_seq self;
     actores_id_seq := actores_id_seq self |}.

Definition open_spider (self : t) : t := rollback self.

Definition close_spider (self : t) : t := commit self.

(** The values of the statement, converted to the types of their
    columns; a value that does not fit its column is refused
    ([DataError]) before the statement does anything. *)
Definition movie_values (item : Items.MovieItem)
  : result (option string * option Z * option Postgresql.numeric
            * option Z * option Z) :=
  titulo ← Postgresql.nullable Postgresql.varchar_255 (Items.title item);
  anio ← Postgresql.nullable Postgresql.integer (Items.year item);
  calificacion ←
    Postgresql.nullable Postgresql.numeric_3_1 (Items.rating item);
  duracion ← Postgresql.nullable Postgresql.integer (Items.duration item);
  metascore ← Postgresql.nullable Postgresql.integer (Items.metascore item);
  Ok (titulo, anio, calificacion, duracion, metascore).

(** The row made of these values and of the [id] drawn for it, which
    the constraints of the table are checked on: [titulo] is not
    nullable. *)
Definition movie_row (item : Items.MovieItem) (id : Z)
  : result peliculas.row :=
  '(titulo, anio, calificacion, duracion, metascore) ← movie_values item;
  titulo ← Postgresql.not_null titulo;
  Ok {| peliculas.id := id;
        peliculas.titulo := titulo; peliculas.anio := anio;
        peliculas.calificacion := calificacion;
        peliculas.duracion := duracion;
        peliculas.metascore := metascore |}.

(** [pg_insert(movies_table).values(...)
      .on_conflict_do_nothing(index_elements=["titulo", "anio"])]:
    once the values are converted the [id] is drawn, so the sequence
    advances whatever follows; then the row is checked, and added
    unless a row with the same key is there.  The result is the row
    count. *)
Definition insert_movie (item : Items.MovieItem) (self : t)
  : t * result Z :=
  match movie_values item with
  | Raise exc => (self, Raise exc)
  | Ok _ =>
      let drawn := (peliculas_id_seq self + 1)%Z in
      match movie_row item (peliculas_id_seq self) with
      | Raise exc =>
          ({| committed := committed self; session := session self;
              peliculas_id_seq := drawn;
              actores_id_seq := actores_id_seq self |}, Raise exc)
      | Ok new =>
          if existsb (peliculas.same_key new) (movies_table (session self))
          then
            ({| committed := committed self; session := session self;
                peliculas_id_seq := drawn;
                actores_id_seq := actores_id_seq self |}, Ok 0%Z)
          else
            ({| committed := committed self;
                session :=
                  {| movies_table := movies_table (session self) ++ [new];
                     actors_table := actors_table (session self) |};
                peliculas_id_seq := drawn;
                actores_id_seq := actores_id_seq self |}, Ok 1%Z)
      end
  end.

(** [_insert_movie] *)
Definition _insert_movie (self : t) (item : Items.MovieItem)
  : t * list Logging.Event :=
  match insert_movie item self with
  | (self, Ok rowcount) =>
      (* rowcount 0: the movie is already there; nothing is done *)
      (self, [])
  | (self, Raise exc) => (rollback self, [Logging.MovieInsertError exc])
  end.

(** [select(movies_table.c.id).where(movies_table.c.titulo ==
    movie_title)] and [.first()]: the [id] of one of the rows with
    that title, which one being up to the database; [== None] is
    [IS NULL], which no row satisfies.  The connection is taken to
    hold and the driver to accept the title. *)
Definition select_movie_id (movie_title : option string) (self : t)
  : option Z :=
  match movie_title with
  | Some movie_title =>
      peliculas.id <$>
        Postgresql.first peliculas.id
          (List.filter (λ r, String.eqb (peliculas.titulo r) movie_title)
             (movies_table (session self)))
  | None => None
  end.

(** The values of the statement, converted to the types of their
    columns. *)
Definition actor_values (pelicula_id : Z) (item : Items.ActorItem)
  : result (Z * option string * option Z) :=
  pelicula ← Postgresql.integer pelicula_id;
  nombre ← Postgresql.nullable Postgresql.varchar_255 (Items.actor_name item);
  posicion_orden ←
    Postgresql.nullable Postgresql.integer (Items.position_order item);
  Ok (pelicula, nombre, posicion_orden).

(** The row made of them and of the [id] drawn for it; [nombre] is not
    nullable. *)
Definition actor_row (pelicula_id : Z) (item : Items.ActorItem) (id : Z)
  : result actores.row :=
  '(pelicula, nombre, posicion_orden) ← actor_values pelicula_id item;
  nombre ← Postgresql.not_null nombre;
  Ok {| actores.id := id;
        actores.pelicula_id := Some pelicula;
        actores.nombre := nombre;
        actores.posicion_orden := posicion_orden |}.

(** [sa.insert(actors_table).values(...)] *)
Definition insert_actor (pelicula_id : Z) (item : Items.ActorItem)
    (self : t) : t * result Z :=
  match actor_values pelicula_id item with
  | Raise exc => (self, Raise exc)
  | Ok _ =>
      let drawn := (actores_id_seq self + 1)%Z in
      match actor_row pelicula_id item (actores_id_seq self) with
      | Raise exc =>
          ({| committed := committed self; session := session self;
              peliculas_id_seq := peliculas_id_seq self;
              actores_id_seq := drawn |}, Raise exc)
      | Ok new =>
          if existsb (λ r, (peliculas.id r =? pelicula_id)%Z)
               (movies_table (session self))
          then
            ({| committed := committed self;
                session :=
                  {| movies_table := movies_table (session self);
                     actors_table := actors_table (session self) ++ [new] |};
                peliculas_id_seq := peliculas_id_seq self;
                actores_id_seq := drawn |}, Ok 1%Z)
          else
            (* the foreign key on [peliculas.id] *)
            ({| committed := committed self; session := session self;
                peliculas_id_seq := peliculas_id_seq self;
                actores_id_seq := drawn |}, Raise IntegrityError)
      end
  end.

(** [_insert_actor] *)
Definition _insert_actor (self : t) (item : Items.ActorItem)
  : t * list Logging.Event :=
  let movie_title := Items.movie_title item in
  match select_movie_id movie_title self with
  | None => (self, [Logging.MovieNotFound movie_title])
  | Some pelicula_id =>
      match insert_actor pelicula_id item self with
      | (self, Ok _) => (self, [])
      | (self, Raise exc) =>
          (rollback self, [Logging.ActorInsertError exc])
      end
  end.

Definition process_item (self : t) (item : Items.Item)
  : t * list Logging.Event :=
  match item with
  | Items.Movie item => _insert_movie self item
  | Items.Actor item => _insert_actor self item
  end.

(** The rows of [peliculas] that carry the natural key of an item. *)
Definition has_key (titulo : option string) (anio : option Z)
    (r : peliculas.row) : bool :=
  bool_decide (Some (peliculas.titulo r) = titulo
               /\ peliculas.anio r = anio).

Definition rows_with_key (titulo : option string) (anio : option Z)
    (self : t) : list peliculas.row :=
  List.filter (has_key titulo anio) (movies_table (session self)).

End WithTypes.
End PostgresPipeline.

(** ** A small instance, for examples

    Ratings with one decimal, counted in tenths (93 stands for 9.3);
    titles of at most 255 characters are stored as they are; of the
    rows that match a query the oldest comes first. *)

Module Tenths.

#[export] Instance py_float : PyFloat := {|
  float := Z;
  float_of_int n := Ok (10 * n)%Z;
  float_of_str s :=
    if all_digits s && negb (String.eqb s EmptyString)
    then Ok (10 * int s)%Z else Raise ValueError;
  float_bool f := negb (f =? 0)%Z;
|}.

#[export] Instance pg_types : Postgresql.Types := {|
  Postgresql.numeric := Z;
  Postgresql.numeric_3_1 f :=
    if ((-1000 <? f) && (f <? 1000))%Z then Ok f else Raise DataError;
  Postgresql.varchar_255 s :=
    if (String.length s <=? 255)%nat then Ok s else Raise DataError;
  Postgresql.first_row ids := 0%nat;
|}.

(** A detail page whose second cast item has no actor link. *)
Definition unnamed_second : Bs4.BeautifulSoup :=
  {| Bs4.scripts := [];
     Bs4.title_cast :=
       Some [ {| Bs4.actor_link := Some " Tim Robbins "%string |};
              {| Bs4.actor_link := None |};
              {| Bs4.actor_link := Some "Bob Gunton"%string |};
              {| Bs4.actor_link := Some "William Sadler"%string |} ] |}.

(** A detail page whose cast items all name their actor. *)
Definition all_named : Bs4.BeautifulSoup :=
  {| Bs4.scripts := [];
     Bs4.title_cast :=
       Some [ {| Bs4.actor_link := Some "Tim Robbins"%string |};
              {| Bs4.actor_link := Some "Morgan Freeman"%string |};
              {| Bs4.actor_link := Some "Bob Gunton"%string |};
              {| Bs4.actor_link := Some "William Sadler"%string |} ] |}.

Definition movie (k : nat) : value :=
  VDict (<["name" := VStr ("Movie " +:+ pretty k)]>
        (<["url" := VStr ("/title/tt" +:+ pretty k +:+ "/")]>
        (<["duration" := VStr "PT2H22M"]>
        (<["aggregateRating" := VDict {[ "ratingValue" := VFloat 93%Z ]}]>
           ∅)))).

(** The listing of the first [n] movies. *)
Definition chart (n : nat) : value :=
  VDict (<["@type" := VStr "ItemList"]>
        (<["itemListElement" :=
             VList ((λ k, VDict {[ "item" := movie k ]}) <$> seq 1 n)]> ∅)).

(** A listing of three movies of which the second has no name. *)
Definition chart_nameless_second : value :=
  VDict (<["@type" := VStr "ItemList"]>
        (<["itemListElement" :=
             VList [ VDict {[ "item" := movie 1 ]};
                     VDict {[ "item" :=
                                VDict {[ "url" := VStr "/title/tt2/" ]} ]};
                     VDict {[ "item" := movie 3 ]} ]]> ∅)).

(** A stand-in for [json.loads] that knows the texts of the examples:
    ["ItemList 60"] stands for the JSON text of [chart 60],
    ["ItemList none"] for that of an object without listing,
    ["ItemList nameless"] for that of [chart_nameless_second]. *)
Definition json_loads (text : string) : option value :=
  if String.eqb text "ItemList 60" then Some (chart 60)
  else if String.eqb text "ItemList 2" then Some (chart 2)
  else if String.eqb text "ItemList none" then Some (VDict ∅)
  else if String.eqb text "ItemList nameless" then Some chart_nameless_second
  else None.

Definition urljoin (base u : string) : result string :=
  Ok ("https://www.imdb.com" +:+ u).

(** An index page with the given text in its JSON-LD block. *)
Definition index_page (text : string) : Scrapy.Response :=
  {| Scrapy.response_url := "https://www.imdb.com/chart/top/";
     Scrapy.status := 200;
     Scrapy.soup :=
       {| Bs4.scripts :=
            [ {| Bs4.script_type := Some "text/javascript"%string;
                 Bs4.script_string := None |};
              {| Bs4.script_type := Some "application/ld+json"%string;
                 Bs4.script_string := Some text |} ];
          Bs4.title_cast := None |};
     Scrapy.response_meta := ∅ |}.

(** An index page without JSON-LD block. *)
Definition bare_page : Scrapy.Response :=
  {| Scrapy.response_url := "https://www.imdb.com/chart/top/";
     Scrapy.status := 200;
     Scrapy.soup :=
       {| Bs4.scripts :=
            [ {| Bs4.script_type := Some "text/javascript"%string;
                 Bs4.script_string := Some "var ItemList = 1;"%string |} ];
          Bs4.title_cast := None |};
     Scrapy.response_meta := ∅ |}.

Definition proxy_1 : string := "http://45.79.178.208:3128".
Definition proxy_2 : string := "socks5://47.251.43.115:1080".

(** The settings of the project, with two proxies configured. *)
Definition settings : Scrapy.Settings :=
  {| Scrapy.RETRY_TIMES := 5;
     Scrapy.RETRY_PRIORITY_ADJUST := -1;
     Scrapy.PROXIES := [proxy_1; proxy_2] |}.

(** A request for a detail page that went out through [proxy_1]. *)
Definition routed_request : Scrapy.Request :=
  {| Scrapy.url := "https://www.imdb.com/title/tt0111161/";
     Scrapy.callback := Scrapy.parse_movie_cb;
     Scrapy.meta := {[ "proxy" := VStr proxy_1 ]};
     Scrapy.headers := ∅;
     Scrapy.priority := 0;
     Scrapy.dont_filter := false |}.

Definition blocked (code : Z) : Scrapy.Response :=
  {| Scrapy.response_url := "https://www.imdb.com/title/tt0111161/";
     Scrapy.status := code;
     Scrapy.soup := {| Bs4.scripts := []; Bs4.title_cast := None |};
     Scrapy.response_meta := {[ "proxy" := VStr proxy_1 ]} |}.

(** A database with its two tables empty. *)
Definition empty : PostgresPipeline.t :=
  let nothing :=
    {| PostgresPipeline.movies_table := [];
       PostgresPipeline.actors_table := [] |} in
  {| PostgresPipeline.committed := nothing;
     PostgresPipeline.session := nothing;
     PostgresPipeline.peliculas_id_seq := 1;
     PostgresPipeline.actores_id_seq := 1 |}.

(** A movie whose detail page showed no release date. *)
Definition heat : Items.MovieItem :=
  {| Items.title := Some "Heat"%string; Items.year := None;
     Items.rating := Some 83%Z; Items.duration := Some 170%Z;
     Items.metascore := Some 76%Z |}.

Definition shawshank : Items.MovieItem :=
  {| Items.title := Some "The Shawshank Redemption"%string;
     Items.year := Some 1994%Z;
     Items.rating := Some 93%Z; Items.duration := Some 142%Z;
     Items.metascore := Some 82%Z |}.

Definition robbins : Items.ActorItem :=
  {| Items.movie_title := Some "The Shawshank Redemption"%string;
     Items.actor_name := Some "Tim Robbins"%string;
     Items.position_order := Some 1%Z |}.

Definition browser : FakeUseragent.UserAgent :=
  {| FakeUseragent.random := λ _, Ok "Mozilla/5.0 (X11; Linux x86_64)"%string |}.

End Tenths.

#[global] Existing Instance Tenths.py_float.
#[global] Existing Instance Tenths.pg_types.

(** ** More of the project: the detail page, the factory, runs *)

Module Builtins.

(** The pattern [\d{4}] tried at the start of [s]. *)
Definition digits4_here (s : string) : option string :=
  match s with
  | String a (String b (String c (String d _))) =>
      if is_digit a && is_digit b && is_digit c && is_digit d
      then Some (String a (String b (String c (String d EmptyString))))
      else None
  | _ => None
  end.

(** [re.search(r"\d{4}", s)]: the first four digits in a row, from the
    left; the result is [m.group(0)]. *)
Fixpoint re_search_4digits (s : string) : option string :=
  match digits4_here s with
  | Some m => Some m
  | None =>
      match s with
      | String _ s' => re_search_4digits s'
      | EmptyString => None
      end
  end.

(** Four digits in a row in [s]: [s = pre ++ d ++ post]. *)
Definition window (s pre d post : string) : Prop :=
  s = String.append pre (String.append d post)
  /\ String.length d = 4%nat /\ all_digits d = true.

(** The leftmost of them. *)
Definition first_window (s pre d post : string) : Prop :=
  window s pre d post
  /\ forall pre' d' post',
       window s pre' d' post' ->
       (String.length pre <= String.length pre')%nat.

Definition no_window (s : string) : Prop :=
  forall pre d post, ~ window s pre d post.

Fixpoint has_digit (s : string) : bool :=
  match s with
  | EmptyString => false
  | String c s' => is_digit c || has_digit s'
  end.

(** The digits of a decimal literal in which single underscores may
    separate digits; [after_digit] tells that a digit was just read. *)
Fixpoint grouped_digits (after_digit : bool) (s : string) : option string :=
  match s with
  | EmptyString => if after_digit then Some EmptyString else None
  | String c r =>
      if is_digit c then String c <$> grouped_digits true r
      else if Ascii.eqb c "_" && after_digit then
        match r with
        | String c' _ => if is_digit c' then grouped_digits false r else None
        | EmptyString => None
        end
      else None
  end.

(** [int(s)] for any string: white space around, an optional sign, then
    digits; anything else is a [ValueError], and so are more digits
    than the limit. *)
Definition int_of_str (s : string) : result Z :=
  let literal := strip s in
  let '(negative, body) :=
    match literal with
    | String "-" r => (true, r)
    | String "+" r => (false, r)
    | _ => (false, literal)
    end in
  match grouped_digits false body with
  | Some digits =>
      n ← int_of_digits digits;
      Ok (if negative : bool then - n else n)%Z
  | None => Raise ValueError
  end.

(** [s.rsplit(".", 1)] when [s] has a dot: what is before the last dot
    and what is after it. *)
Fixpoint rsplit_dot (s : string) : option (string * string) :=
  match s with
  | EmptyString => None
  | String c s' =>
      match rsplit_dot s' with
      | Some (before, after) => Some (String c before, after)
      | None => if Ascii.eqb c "." then Some (EmptyString, s') else None
      end
  end.

Fixpoint has_dot (s : string) : bool :=
  match s with
  | EmptyString => false
  | String c s' => Ascii.eqb c "." || has_dot s'
  end.

End Builtins.

(** The detail page of a movie, [parse_movie] and [_extract_year] of the
    spider. *)
Module DetailPage.

(** The further answers of the document of a detail page: the text
    ([get_text(strip=True)]) of its first
    [<li data-testid="title-details-releasedate">] and the [.text] of its
    first [<span class="metacritic-score-box">], if it has them. *)
Record Regions : Set := {
  releasedate : option string;
  metacritic_score_box : option string;
}.

(** [_extract_year]: the year from the release date.  The four digits
    matched are below the limit of [int], which gives their value. *)
Definition _extract_year (soup : Regions) : option Z :=
  match releasedate soup with
  | None => None
  | Some text =>
      match Builtins.re_search_4digits text with
      | Some m => Some (int m)
      | None => None
      end
  end.

Section WithFloat.
Context `{PyFloat}.

(** What running the generator [parse_movie] to its end gives: the items
    yielded, in order, or the exception raised (all the exceptions come
    before the first item).  The fields of the items have the types that
    [items.py] declares; a [meta] with a title that is no string or a
    rating that is no float is left out. *)
Inductive Outcome : Type :=
  | Yielded (items : list Items.Item)
  | Raised (exc : exn)
  | Untyped.

(** [_iso_to_minutes] on an entry of [meta]: a value that is false gives
    no duration, another value that is no string is a [TypeError] of
    [re.search]. *)
Definition duration_of (v : value) : result (option Z) :=
  match v with
  | VStr s => ImdbTopBsSpider._iso_to_minutes (Some s)
  | _ => if truthy v then Raise TypeError else Ok None
  end.

(** The [ActorItem] made of the dict of an actor. *)
Definition actor_item (actor : ImdbTopBsSpider.actor) : Items.Item :=
  Items.Actor
    {| Items.movie_title := Some (ImdbTopBsSpider.movie_title actor);
       Items.actor_name := Some (ImdbTopBsSpider.actor_name actor);
       Items.position_order := Some (ImdbTopBsSpider.position_order actor) |}.

(** [parse_movie]: the detail of a movie and its actors. *)
Definition parse_movie (response : Scrapy.Response) (regions : Regions)
  : Outcome :=
  let meta := Scrapy.response_meta response in
  let year := _extract_year regions in
  match
    match metacritic_score_box regions with
    | Some text => Some <$> Builtins.int_of_str (strip text)
    | None => Ok None
    end
  with
  | Raise exc => Raised exc
  | Ok metascore =>
      match meta !! "title" with
      | None => Raised (KeyError "title")
      | Some (VStr title) =>
          let actors :=
            ImdbTopBsSpider._extract_actors (Scrapy.soup response) title in
          match meta !! "duration_iso" with
          | None => Raised (KeyError "duration_iso")
          | Some duration_iso =>
              match duration_of duration_iso with
              | Raise exc => Raised exc
              | Ok duration_min =>
                  match meta !! "rating" with
                  | None => Raised (KeyError "rating")
                  | Some rating =>
                      match
                        match rating with
                        | VNone => Some None
                        | VFloat f => Some (Some f)
                        | _ => None
                        end
                      with
                      | None => Untyped
                      | Some rating =>
                          Yielded
                            (Items.Movie
                               {| Items.title := Some title;
                                  Items.year := year;
                                  Items.rating := rating;
                                  Items.duration := duration_min;
                                  Items.metascore := metascore |}
                             :: (actor_item <$> actors))
                      end
                  end
              end
          end
      | Some _ => Untyped
      end
  end.

End WithFloat.
End DetailPage.

(** [factories.py] *)
Module SpiderFactory.

Definition _registry : gmap string string :=
  {[ "imdb_top_bs" := "imdb_scraper.spiders.imdb_top_bs.ImdbTopBsSpider" ]}%string.

(** [create], up to the import: the module to import and the class that
    is instantiated, for the registry given ([_registry] in the
    project).  A name that is not registered is a [ValueError]; so is a
    path without dot, which does not unpack. *)
Definition create (registry : gmap string string) (name : string)
  : result (string * string) :=
  match registry !! name with
  | None => Raise ValueError
  | Some path =>
      match Builtins.rsplit_dot path with
      | Some (module_path, class_name) => Ok (module_path, class_name)
      | None => Raise ValueError
      end
  end.

End SpiderFactory.

(** Runs: the framework hands the items of a crawl to [process_item] one
    after the other, and a request that is blocked again and again to
    [process_response] each time. *)
Module Runs.
Section WithTypes.
Context `{Postgresql.Types}.

(** The file sink given the items in order; an exception ends the run. *)
Fixpoint csv_items (self : CsvExportPipeline.t) (items : list Items.Item)
  : result CsvExportPipeline.t :=
  match items with
  | [] => Ok self
  | item :: items' =>
      self' ← CsvExportPipeline.process_item self item;
      csv_items self' items'
  end.

(** The relational sink given the items in order, with what it reports. *)
Fixpoint pg_items (self : PostgresPipeline.t) (items : list Items.Item)
  : PostgresPipeline.t * list Logging.Event :=
  match items with
  | [] => (self, [])
  | item :: items' =>
      let '(self', events) := PostgresPipeline.process_item self item in
      let '(self'', events') := pg_items self' items' in
      (self'', events ++ events')
  end.

(** A request whose responses are [n] times in a row the response
    given: what the middleware passes on in the end. *)
Fixpoint blocked_times (self : MixedProxyMiddleware.t)
    (response : Scrapy.Response) (n : nat) (request : Scrapy.Request)
  : result (Scrapy.Request + Scrapy.Response) :=
  match n with
  | O => Ok (inl request)
  | S n' =>
      passed ← MixedProxyMiddleware.process_response self request response;
      match passed with
      | inl request' => blocked_times self response n' request'
      | inr response' => Ok (inr response')
      end
  end.

(** The row of a movie and the row of an actor in the two files. *)
Definition movie_cells (item : Items.MovieItem) : list CsvExportPipeline.cell :=
  [ CsvExportPipeline.cell_of CsvExportPipeline.CStr (Items.title item);
    CsvExportPipeline.cell_of CsvExportPipeline.CInt (Items.year item);
    CsvExportPipeline.cell_of CsvExportPipeline.CFloat (Items.rating item);
    CsvExportPipeline.cell_of CsvExportPipeline.CInt (Items.duration item);
    CsvExportPipeline.cell_of CsvExportPipeline.CInt (Items.metascore item) ].

Definition actor_cells (item : Items.ActorItem) : list CsvExportPipeline.cell :=
  [ CsvExportPipeline.cell_of CsvExportPipeline.CStr (Items.movie_title item);
    CsvExportPipeline.cell_of CsvExportPipeline.CStr (Items.actor_name item);
    CsvExportPipeline.cell_of CsvExportPipeline.CInt (Items.position_order item) ].

Definition movie_rows (items : list Items.Item)
  : list (list CsvExportPipeline.cell) :=
  omap (λ item, match item with
                | Items.Movie m => Some (movie_cells m)
                | Items.Actor _ => None
                end) items.

Definition actor_rows (items : list Items.Item)
  : list (list CsvExportPipeline.cell) :=
  omap (λ item, match item with
                | Items.Actor a => Some (actor_cells a)
                | Items.Movie _ => None
                end) items.

(** *** Invariants of the database *)

(** No two rows of [peliculas] collide on the unique constraint. *)
Definition unique_keys (db : PostgresPipeline.Database) : Prop :=
  forall (i j : nat) r r',
    PostgresPipeline.movies_table db !! i = Some r ->
    PostgresPipeline.movies_table db !! j = Some r' ->
    peliculas.same_key r r' = true -> i = j.

(** The [id]s of a table are distinct and were drawn from its sequence. *)
Definition ids_drawn (self : PostgresPipeline.t)
    (db : PostgresPipeline.Database) : Prop :=
  Forall (λ r, (peliculas.id r < PostgresPipeline.peliculas_id_seq self)%Z)
    (PostgresPipeline.movies_table db)
  /\ Forall (λ a, (actores.id a < PostgresPipeline.actores_id_seq self)%Z)
       (PostgresPipeline.actors_table db)
  /\ NoDup (peliculas.id <$> PostgresPipeline.movies_table db)
  /\ NoDup (actores.id <$> PostgresPipeline.actors_table db).

(** Every actor refers to a movie of the table (the foreign key). *)
Definition references (db : PostgresPipeline.Database) : Prop :=
  forall a, a ∈ PostgresPipeline.actors_table db ->
    exists r, r ∈ PostgresPipeline.movies_table db
              /\ actores.pelicula_id a = Some (peliculas.id r).

End WithTypes.
End Runs.

(** More inputs for examples, over the instance [Tenths]. *)
Module Samples.

(** The response to the request for the detail of the second movie of
    [Tenths.chart]. *)
Definition detail_response : Scrapy.Response :=
  {| Scrapy.response_url := "https://www.imdb.com/title/tt2/";
     Scrapy.status := 200;
     Scrapy.soup := Tenths.unnamed_second;
     Scrapy.response_meta :=
       <["title" := VStr "Movie 2"]>
         (<["rating" := VFloat 93%Z]>
            (<["duration_iso" := VStr "PT2H22M"]> ∅)) |}.

Definition regions : DetailPage.Regions :=
  {| DetailPage.releasedate :=
       Some "Release dateOctober 14, 1994 (United States)"%string;
     DetailPage.metacritic_score_box := Some " 82 "%string |}.

(** A page whose metascore box shows no number. *)
Definition regions_tbd : DetailPage.Regions :=
  {| DetailPage.releasedate := Some "Release date1994"%string;
     DetailPage.metacritic_score_box := Some "tbd"%string |}.

Definition regions_bare : DetailPage.Regions :=
  {| DetailPage.releasedate := None;
     DetailPage.metacritic_score_box := None |}.

Definition no_proxies : Scrapy.Settings :=
  {| Scrapy.RETRY_TIMES := 5;
     Scrapy.RETRY_PRIORITY_ADJUST := -1;
     Scrapy.PROXIES := [] |}.

(** A request that has no proxy yet. *)
Definition fresh_request : Scrapy.Request :=
  {| Scrapy.url := "https://www.imdb.com/title/tt0111161/";
     Scrapy.callback := Scrapy.parse_movie_cb;
     Scrapy.meta := ∅;
     Scrapy.headers := ∅;
     Scrapy.priority := 0;
     Scrapy.dont_filter := false |}.

(** A movie without title. *)
Definition untitled : Items.MovieItem :=
  {| Items.title := None; Items.year := Some 1995%Z;
     Items.rating := None; Items.duration := None;
     Items.metascore := None |}.

(** A movie without title whose year does not fit an [INTEGER]. *)
Definition untitled_late : Items.MovieItem :=
  {| Items.title := None; Items.year := Some 3000000000%Z;
     Items.rating := None; Items.duration := None;
     Items.metascore := None |}.

(** Duration tokens with a digit more than [int] accepts: ["PT"],
    4301 times ["9"] and ["H"]; ["PT1H"], 4301 times ["9"] and ["M"]. *)
Definition long_hours : string :=
  "PT" +:+ str_mul "9" (Z.to_nat 4301) +:+ "H".

Definition long_minutes : string :=
  "PT1H" +:+ str_mul "9" (Z.to_nat 4301) +:+ "M".

(** The response to a request of [Tenths.chart] as the framework hands
    it to [parse_movie]: the [meta] of the request and what the
    downloader added to it. *)
Definition downloaded_response : Scrapy.Response :=
  {| Scrapy.response_url := "https://www.imdb.com/title/tt2/";
     Scrapy.status := 200;
     Scrapy.soup := Tenths.unnamed_second;
     Scrapy.response_meta :=
       <["title" := VStr "Movie 2"]>
         (<["rating" := VFloat 93%Z]>
            (<["duration_iso" := VStr "PT2H22M"]>
               (<["download_timeout" := VFloat 1800%Z]>
                  (<["download_slot" := VStr "www.imdb.com"]>
                     (<["depth" := VInt 1]> ∅))))) |}.

(** A pool of which one entry is the empty string. *)
Definition with_blank : Scrapy.Settings :=
  {| Scrapy.RETRY_TIMES := 5;
     Scrapy.RETRY_PRIORITY_ADJUST := -1;
     Scrapy.PROXIES := [Tenths.proxy_1; EmptyString] |}.

End Samples.

(** * Properties *)

(** ** Regular-expression search: the executable search meets its
       declarative reading *)

Section ReSearch.

Variable X : ascii.
Hypothesis X_not_digit : Py.is_digit X = false.

Lemma digits_run_app s :
  let '(d, r) := Py.digits_run s in
  s = String.append d r /\ Py.all_digits d = true
  /\ match r with
     | String c _ => Py.is_digit c = false
     | EmptyString => True
     end.
Proof.
  induction s as [|c s IH]; simpl; [done|].
  destruct (Py.is_digit c) eqn:Hc.
  - destruct (Py.digits_run s) as [d r]. destruct IH as (-> & Hd & Hr).
    simpl. rewrite Hc, Hd. done.
  - simpl. by rewrite Hc.
Qed.

Lemma digits_run_digits g post :
  Py.all_digits g = true ->
  Py.digits_run (String.append g (String X post)) = (g, String X post).
Proof.
  induction g as [|c g IH]; simpl; intros Hg.
  - by rewrite X_not_digit.
  - apply andb_true_iff in Hg as [Hc Hg]. by rewrite Hc, IH.
Qed.

Lemma match_here_sound s g :
  Py.match_here X s = Some g ->
  exists post, Py.matches_at X s EmptyString g post.
Proof.
  unfold Py.match_here. pose proof (digits_run_app s) as H.
  destruct (Py.digits_run s) as [d r]. destruct H as (-> & Hd & _).
  destruct d as [|d ds]; [done|]. destruct r as [|c r]; [done|].
  destruct (Ascii.eqb c X) eqn:Hc; [|done].
  apply Ascii.eqb_eq in Hc as ->. intros [= <-].
  exists r. by repeat split.
Qed.

Lemma match_here_complete s g post :
  Py.matches_at X s EmptyString g post -> Py.match_here X s = Some g.
Proof.
  intros (-> & Hne & Hg). unfold Py.match_here.
  change (String.append EmptyString ?x) with x.
  rewrite (digits_run_digits g post Hg).
  destruct g as [|d ds]; [done|]. by rewrite Ascii.eqb_refl.
Qed.

Lemma matches_at_cons a s pre g post :
  Py.matches_at X (String a s) (String a pre) g post <->
  Py.matches_at X s pre g post.
Proof.
  unfold Py.matches_at. simpl. split.
  - intros ([= ->] & ? & ?). done.
  - intros (-> & ? & ?). done.
Qed.

Lemma re_search_digits_sound s :
  match Py.re_search_digits X s with
  | Some g => Py.leftmost_match X s g
  | None => Py.no_match X s
  end.
Proof.
  induction s as [|a s IH].
  - simpl. intros pre g post (H & Hne & _).
    destruct pre; [destruct g|]; done.
  - cbn [Py.re_search_digits].
    destruct (Py.match_here X (String a s)) as [g|] eqn:Hm.
    + destruct (match_here_sound _ _ Hm) as [post Hpost].
      exists EmptyString, post. split; [done|].
      intros [|b pre'] g' post' H'; [right|left; simpl; lia].
      split; [done|].
      apply match_here_complete in H'. rewrite Hm in H'.
      by injection H' as ->.
    + assert (Hhead : forall g' post',
                 ~ Py.matches_at X (String a s) EmptyString g' post').
      { intros g' post' H'. apply match_here_complete in H'. congruence. }
      assert (Hshape : forall pre' g' post',
                 Py.matches_at X (String a s) pre' g' post' ->
                 exists pre'', pre' = String a pre''
                               /\ Py.matches_at X s pre'' g' post').
      { intros [|b pre''] g' post' H'; [by apply Hhead in H'|].
        assert (b = a) as -> by (destruct H' as ([= ->] & _); done).
        exists pre''. split; [done|]. by apply (matches_at_cons a). }
      destruct (Py.re_search_digits X s) as [g|].
      * destruct IH as (pre & post & Hmatch & Hleft).
        exists (String a pre), post. split; [by apply (matches_at_cons a)|].
        intros pre' g' post' H'.
        destruct (Hshape _ _ _ H') as (pre'' & -> & H'').
        destruct (Hleft _ _ _ H'') as [?|[? ?]]; simpl; [left; lia|right].
        split; [congruence|done].
      * intros pre' g' post' H'.
        destruct (Hshape _ _ _ H') as (pre'' & -> & H'').
        by apply IH in H''.
Qed.

End ReSearch.

Lemma string_append_inj_length p p' r r' :
  String.length p = String.length p' ->
  String.append p r = String.append p' r' -> p = p' /\ r = r'.
Proof.
  revert p'. induction p as [|a p IH]; intros [|a' p']; simpl; try done.
  intros [= Hlen] [= -> Happ]. destruct (IH _ Hlen Happ) as [-> ->]. done.
Qed.

Lemma leftmost_match_unique X s g g' :
  Py.leftmost_match X s g -> Py.leftmost_match X s g' -> g = g'.
Proof.
  intros (pre & post & Hm & Hleft) (pre' & post' & Hm' & Hleft').
  destruct (Hleft _ _ _ Hm') as [Hlt|[Hpre Hle]];
    destruct (Hleft' _ _ _ Hm) as [Hlt'|[Hpre' Hle']]; try lia.
  destruct Hm as (Hs & _), Hm' as (Hs' & _). rewrite Hs in Hs'.
  apply string_append_inj_length in Hs' as [_ Hs']; [|done].
  apply string_append_inj_length in Hs' as [? _]; [done|lia].
Qed.

Lemma component_functional X s n n' :
  Py.component X s n -> Py.component X s n' -> n = n'.
Proof.
  intros [(g & Hg & ->)|[Hno ->]] [(g' & Hg' & ->)|[Hno' ->]].
  - by rewrite (leftmost_match_unique _ _ _ _ Hg Hg').
  - destruct Hg as (pre & post & Hm & _). by apply Hno' in Hm.
  - destruct Hg' as (pre & post & Hm & _). by apply Hno in Hm.
  - done.
Qed.

Lemma contribution_component X s :
  Py.is_digit X = false -> Py.component X s (Py.contribution X s).
Proof.
  intros HX. unfold Py.contribution.
  pose proof (re_search_digits_sound X HX s) as H.
  destruct (Py.re_search_digits X s) as [g|]; [left|right]; eauto.
Qed.

Lemma int_acc_nonneg g acc :
  Py.all_digits g = true -> (0 <= acc)%Z -> (0 <= Py.int_acc acc g)%Z.
Proof.
  revert acc. induction g as [|c g IH]; simpl; intros acc Hg Hacc; [done|].
  apply andb_true_iff in Hg as [Hc Hg]. apply IH; [done|].
  unfold Py.is_digit in Hc. apply andb_true_iff in Hc as [Hlo _].
  apply Nat.leb_le in Hlo. unfold Py.digit_value. lia.
Qed.

Lemma contribution_nonneg X s :
  Py.is_digit X = false -> (0 <= Py.contribution X s)%Z.
Proof.
  intros HX. unfold Py.contribution.
  pose proof (re_search_digits_sound X HX s) as H.
  destruct (Py.re_search_digits X s) as [g|]; [|done].
  destruct H as (pre & post & (_ & _ & Hg) & _). by apply int_acc_nonneg.
Qed.

Lemma re_search_digits_complete X s g :
  Py.is_digit X = false -> Py.leftmost_match X s g ->
  Py.re_search_digits X s = Some g.
Proof.
  intros HX Hg. pose proof (re_search_digits_sound X HX s) as H.
  destruct (Py.re_search_digits X s) as [g'|].
  - f_equal. by eapply leftmost_match_unique.
  - destruct Hg as (pre & post & Hm & _). by apply H in Hm.
Qed.

(** Within the limit of [int] a component is converted to its value;
    beyond it the conversion raises. *)
Lemma converted_within X s :
  Py.is_digit X = false ->
  (forall g, Py.leftmost_match X s g ->
             (Z.of_nat (String.length g) <= Py.max_str_digits)%Z) ->
  Py.converted X s = Ok (Py.contribution X s).
Proof.
  intros HX Hlimit. unfold Py.converted, Py.contribution.
  pose proof (re_search_digits_sound X HX s) as H.
  destruct (Py.re_search_digits X s) as [g|]; [|done].
  unfold Py.int_of_digits.
  by rewrite (proj2 (Z.leb_le _ _) (Hlimit g H)).
Qed.

Lemma converted_beyond X s g :
  Py.is_digit X = false -> Py.leftmost_match X s g ->
  (Py.max_str_digits < Z.of_nat (String.length g))%Z ->
  Py.converted X s = Raise ValueError.
Proof.
  intros HX Hg Hlong. unfold Py.converted, Py.int_of_digits.
  rewrite (re_search_digits_complete X s g HX Hg).
  by rewrite (proj2 (Z.leb_gt _ _) Hlong).
Qed.

Lemma converted_cases X s :
  Py.is_digit X = false ->
  Py.converted X s = Ok (Py.contribution X s)
  \/ (Py.converted X s = Raise ValueError
      /\ exists g, Py.leftmost_match X s g
                   /\ (Py.max_str_digits < Z.of_nat (String.length g))%Z).
Proof.
  intros HX. unfold Py.converted, Py.contribution, Py.int_of_digits.
  pose proof (re_search_digits_sound X HX s) as H.
  destruct (Py.re_search_digits X s) as [g|]; [|by left].
  destruct (Z.leb_spec (Z.of_nat (String.length g)) Py.max_str_digits);
    [by left|right]. split; [done|]. by exists g.
Qed.

Lemma iso_to_minutes_total s :
  ImdbTopBsSpider._iso_to_minutes (Some s) =
  hours ← Py.converted "H" s;
  minutes ← Py.converted "M" s;
  let total := (hours * 60 + minutes)%Z in
  Ok (if (total =? 0)%Z then None else Some total).
Proof.
  unfold ImdbTopBsSpider._iso_to_minutes, Py.converted.
  destruct s as [|a s]; [done|].
  destruct (Py.re_search_digits "H" _) as [g|];
    [destruct (Py.int_of_digits g) as [h|]; [|done]|];
    (destruct (Py.re_search_digits "M" _) as [g'|];
     [destruct (Py.int_of_digits g') as [m|]; [|done]|]);
    cbn [mbind result_bind]; cbv zeta; do 2 f_equal;
    rewrite ?Z.add_0_l, ?Z.add_0_r; done.
Qed.

(** C1, as the code has it: [_iso_to_minutes] gives 142 on "PT2H22M", 45
    on "PT45M", nothing on an absent input and on "PT0H0M"; for every
    string in which the digits matched before [H] and before [M] are no
    more than [int] accepts (4300 digits), it returns
    hours * 60 + minutes, where each of the two numbers is the value of
    the digits matched before [H] (resp. [M]) by the leftmost match, or 0
    when that component is not matched, and a zero total gives nothing;
    no other token makes it fail: when the digits matched before [H] or
    before [M] are more than [int] accepts, it raises [ValueError]. *)
Theorem iso_to_minutes_spec :
  ImdbTopBsSpider._iso_to_minutes (Some "PT2H22M"%string) = Ok (Some 142%Z)
  /\ ImdbTopBsSpider._iso_to_minutes (Some "PT45M"%string) = Ok (Some 45%Z)
  /\ ImdbTopBsSpider._iso_to_minutes None = Ok None
  /\ ImdbTopBsSpider._iso_to_minutes (Some "PT0H0M"%string) = Ok None
  /\ (forall s : string,
        (forall g, Py.leftmost_match "H" s g \/ Py.leftmost_match "M" s g ->
                   (Z.of_nat (String.length g) <= Py.max_str_digits)%Z) ->
        exists hours minutes : Z,
          Py.component "H" s hours /\ Py.component "M" s minutes
          /\ ImdbTopBsSpider._iso_to_minutes (Some s) =
             Ok (if (hours * 60 + minutes =? 0)%Z then None
                 else Some (hours * 60 + minutes)%Z))
  /\ (forall s g : string,
        Py.leftmost_match "H" s g \/ Py.leftmost_match "M" s g ->
        (Py.max_str_digits < Z.of_nat (String.length g))%Z ->
        ImdbTopBsSpider._iso_to_minutes (Some s) = Raise ValueError).
Proof.
  do 4 (split; [reflexivity|]). split.
  - intros s Hlimit.
    exists (Py.contribution "H" s), (Py.contribution "M" s).
    split; [by apply contribution_component|].
    split; [by apply contribution_component|].
    rewrite iso_to_minutes_total.
    rewrite !converted_within by (try done; intros g Hg; apply Hlimit; auto).
    done.
  - intros s g Hg Hlong. rewrite iso_to_minutes_total.
    destruct Hg as [Hg|Hg].
    + by rewrite (converted_beyond "H" s g eq_refl Hg Hlong).
    + rewrite (converted_beyond "M" s g eq_refl Hg Hlong).
      destruct (converted_cases "H" s eq_refl) as [->|[-> _]]; reflexivity.
Qed.

Lemma iso_to_minutes_spec_witness :
  ImdbTopBsSpider._iso_to_minutes (Some "PT1H30M"%string) = Ok (Some 90%Z).
Proof.
  destruct iso_to_minutes_spec as (_ & _ & _ & _ & Hgeneral & _).
  destruct (Hgeneral "PT1H30M"%string) as (hours & minutes & Hh & Hm & ->).
  - intros g [Hg|Hg];
      apply re_search_digits_complete in Hg; try reflexivity;
      injection Hg as <-; by vm_compute.
  - rewrite (component_functional _ _ _ _ Hh
               (contribution_component "H" "PT1H30M" eq_refl)).
    rewrite (component_functional _ _ _ _ Hm
               (contribution_component "M" "PT1H30M" eq_refl)).
    reflexivity.
Defined.

Lemma long_hours_matched :
  Py.re_search_digits "H" Samples.long_hours
  = Some (Py.str_mul "9" (Z.to_nat 4301)).
Proof. by vm_compute. Qed.

Lemma long_hours_raises :
  ImdbTopBsSpider._iso_to_minutes (Some Samples.long_hours)
  = Raise ValueError.
Proof.
  rewrite iso_to_minutes_total.
  assert (Py.converted "H" Samples.long_hours = Raise ValueError) as ->;
    [|reflexivity].
  unfold Py.converted. rewrite long_hours_matched. by vm_compute.
Qed.

(** C1, as stated, fails: on the token made of "PT", 4301 digits and
    "H", whose hours component is matched, the function raises
    [ValueError]; its result is not hours * 60 + minutes. *)
Lemma iso_to_minutes_digit_limit :
  String.length Samples.long_hours = 4304%nat
  /\ Py.re_search_digits "H" Samples.long_hours
     = Some (Py.str_mul "9" (Z.to_nat 4301))
  /\ ImdbTopBsSpider._iso_to_minutes (Some Samples.long_hours)
     = Raise ValueError
  /\ ~ exists hours minutes : Z,
        ImdbTopBsSpider._iso_to_minutes (Some Samples.long_hours) =
        Ok (if (hours * 60 + minutes =? 0)%Z then None
            else Some (hours * 60 + minutes)%Z).
Proof.
  split; [by vm_compute|]. split; [exact long_hours_matched|].
  split; [exact long_hours_raises|].
  intros (hours & minutes & H). rewrite long_hours_raises in H. done.
Qed.

(** C10, as the code has it: [_iso_to_minutes] never returns 0: when it
    returns, the result is nothing or a strictly positive integer; it
    does return when the digits matched before [H] and before [M] are no
    more than [int] accepts (4300 digits), and raises [ValueError]
    otherwise; the empty string is treated like an absent input. *)
Theorem iso_to_minutes_never_zero :
  (forall iso_val : option string,
     ImdbTopBsSpider._iso_to_minutes iso_val <> Ok (Some 0%Z))
  /\ (forall (iso_val : option string) (r : option Z),
        ImdbTopBsSpider._iso_to_minutes iso_val = Ok r ->
        r = None \/ exists n : Z, r = Some n /\ (0 < n)%Z)
  /\ (forall s : string,
        (forall g, Py.leftmost_match "H" s g \/ Py.leftmost_match "M" s g ->
                   (Z.of_nat (String.length g) <= Py.max_str_digits)%Z) ->
        ImdbTopBsSpider._iso_to_minutes (Some s) = Ok None
        \/ exists n : Z,
             ImdbTopBsSpider._iso_to_minutes (Some s) = Ok (Some n)
             /\ (0 < n)%Z)
  /\ (forall (iso_val : option string) (exc : exn),
        ImdbTopBsSpider._iso_to_minutes iso_val = Raise exc ->
        exc = ValueError
        /\ exists s g : string,
             iso_val = Some s
             /\ (Py.leftmost_match "H" s g \/ Py.leftmost_match "M" s g)
             /\ (Py.max_str_digits < Z.of_nat (String.length g))%Z)
  /\ ImdbTopBsSpider._iso_to_minutes (Some EmptyString) = Ok None
  /\ ImdbTopBsSpider._iso_to_minutes (Some EmptyString)
     = ImdbTopBsSpider._iso_to_minutes None.
Proof.
  assert (Hreturns : forall (iso_val : option string) (r : option Z),
            ImdbTopBsSpider._iso_to_minutes iso_val = Ok r ->
            r = None \/ exists n : Z, r = Some n /\ (0 < n)%Z).
  { intros [s|] r; [|intros [= <-]; by left].
    rewrite iso_to_minutes_total.
    pose proof (contribution_nonneg "H" s eq_refl).
    pose proof (contribution_nonneg "M" s eq_refl).
    destruct (converted_cases "H" s eq_refl) as [->|[-> _]]; [|done].
    destruct (converted_cases "M" s eq_refl) as [->|[-> _]]; [|done].
    cbn [mbind result_bind]. cbv zeta.
    destruct (Z.eqb_spec
                (Py.contribution "H" s * 60 + Py.contribution "M" s) 0);
      intros [= <-]; [by left|right].
    eexists. split; [done|lia]. }
  split; [|split; [exact Hreturns|split; [|split; [|done]]]].
  - intros iso_val H0. destruct (Hreturns _ _ H0) as [?|(n & [= <-] & ?)];
      [done|lia].
  - intros s Hlimit.
    destruct (ImdbTopBsSpider._iso_to_minutes (Some s)) as [r|exc] eqn:Hr.
    + destruct (Hreturns _ _ Hr) as [->|(n & -> & ?)]; [by left|right].
      by exists n.
    + rewrite iso_to_minutes_total in Hr.
      rewrite !converted_within in Hr
        by (try done; intros g Hg; apply Hlimit; auto).
      done.
  - intros [s|] exc; [|done]. rewrite iso_to_minutes_total.
    destruct (converted_cases "H" s eq_refl) as [->|[-> (g & Hg & Hlong)]].
    + destruct (converted_cases "M" s eq_refl)
        as [->|[-> (g & Hg & Hlong)]]; [done|].
      intros [= <-]. split; [done|]. exists s, g. auto.
    + intros [= <-]. split; [done|]. exists s, g. auto.
Qed.

Lemma iso_to_minutes_never_zero_witness :
  ImdbTopBsSpider._iso_to_minutes (Some "PT0H45M"%string) = Ok None
  \/ exists n : Z,
       ImdbTopBsSpider._iso_to_minutes (Some "PT0H45M"%string) = Ok (Some n)
       /\ (0 < n)%Z.
Proof.
  destruct iso_to_minutes_never_zero as (_ & _ & Hwithin & _).
  apply Hwithin.
  intros g [Hg|Hg];
    apply re_search_digits_complete in Hg; try reflexivity;
    injection Hg as <-; by vm_compute.
Defined.

(** C10, as stated, fails: on the token made of "PT1H", 4301 digits and
    "M" the function has no result, neither nothing nor a positive
    integer: it raises [ValueError]. *)
Lemma iso_to_minutes_no_result :
  ImdbTopBsSpider._iso_to_minutes (Some Samples.long_minutes)
  = Raise ValueError
  /\ ~ (ImdbTopBsSpider._iso_to_minutes (Some Samples.long_minutes) = Ok None
        \/ exists n : Z,
             ImdbTopBsSpider._iso_to_minutes (Some Samples.long_minutes)
             = Ok (Some n) /\ (0 < n)%Z).
Proof.
  assert (Hraise : ImdbTopBsSpider._iso_to_minutes (Some Samples.long_minutes)
                   = Raise ValueError) by (by vm_compute).
  split; [exact Hraise|]. rewrite Hraise. intros [?|(n & ? & _)]; done.
Qed.

(** ** The cast of a movie *)

Section ExtractActors.

Variable movie_title : string.

Let entry (numbered : Z * Bs4.CastItem) : option ImdbTopBsSpider.actor :=
  (λ a_text,
     {| ImdbTopBsSpider.movie_title := movie_title;
        ImdbTopBsSpider.actor_name := strip a_text;
        ImdbTopBsSpider.position_order := numbered.1 |})
    <$> Bs4.actor_link numbered.2.

Lemma omap_entry_cons pos div numbered :
  omap entry ((pos, div) :: numbered)
  = match Bs4.actor_link div with
    | Some a_text =>
        {| ImdbTopBsSpider.movie_title := movie_title;
           ImdbTopBsSpider.actor_name := strip a_text;
           ImdbTopBsSpider.position_order := pos |} :: omap entry numbered
    | None => omap entry numbered
    end.
Proof.
  cbn [omap list_omap]. unfold entry at 1. simpl.
  by destruct (Bs4.actor_link div).
Qed.

Lemma extract_actors_loop numbered actors :
  foldl
    (fun actors '(pos, div) =>
       match Bs4.actor_link div with
       | Some a_text =>
           actors ++ [ {| ImdbTopBsSpider.movie_title := movie_title;
                          ImdbTopBsSpider.actor_name := strip a_text;
                          ImdbTopBsSpider.position_order := pos |} ]
       | None => actors
       end) actors numbered
  = actors ++ omap entry numbered.
Proof.
  revert actors.
  induction numbered as [|[pos div] numbered IH]; intros actors.
  - simpl. by rewrite app_nil_r.
  - cbn [foldl]. rewrite IH, omap_entry_cons.
    destruct (Bs4.actor_link div); simpl; [|done].
    by rewrite <- app_assoc.
Qed.

Lemma extract_actors_omap soup :
  ImdbTopBsSpider._extract_actors soup movie_title
  = omap entry (enumerate 1 (take 3 (default [] (Bs4.title_cast soup)))).
Proof.
  unfold ImdbTopBsSpider._extract_actors.
  destruct (Bs4.title_cast soup) as [items|]; [|done].
  by rewrite extract_actors_loop.
Qed.

Lemma enumerate_length {A} start (l : list A) :
  length (enumerate start l) = length l.
Proof. revert start. induction l; intros; simpl; auto. Qed.

Lemma enumerate_lookup {A} start (l : list A) i :
  enumerate start l !! i = (λ x, ((start + Z.of_nat i)%Z, x)) <$> l !! i.
Proof.
  revert start i. induction l as [|x l IH]; intros start [|i]; simpl; try done.
  - by rewrite Z.add_0_r.
  - rewrite IH. destruct (l !! i); simpl; [|done].
    do 2 f_equal. lia.
Qed.

Lemma omap_entry_length numbered :
  (length (omap entry numbered) <= length numbered)%nat.
Proof.
  induction numbered as [|[pos div] l IH]; [done|].
  rewrite omap_entry_cons. destruct (Bs4.actor_link div); simpl; lia.
Qed.

Lemma positions_sorted start items :
  let positions :=
    ImdbTopBsSpider.position_order <$> omap entry (enumerate start items) in
  StronglySorted Z.lt positions
  /\ Forall (λ p, (start <= p < start + Z.of_nat (length items))%Z) positions.
Proof.
  revert start. induction items as [|div items IH]; intros start.
  - split; constructor.
  - destruct (IH (start + 1)%Z) as [Hsorted Hbounds].
    cbn [enumerate length]. rewrite omap_entry_cons.
    assert (Hbounds' :
      Forall (λ p, (start + 1 <= p
                    < start + Z.of_nat (S (length items)))%Z)
        (ImdbTopBsSpider.position_order
           <$> omap entry (enumerate (start + 1) items))).
    { eapply Forall_impl; [exact Hbounds|]. simpl. intros; lia. }
    destruct (Bs4.actor_link div); simpl.
    + split.
      * constructor; [done|].
        eapply Forall_impl; [exact Hbounds'|]. simpl. intros; lia.
      * constructor; [lia|].
        eapply Forall_impl; [exact Hbounds'|]. simpl. intros; lia.
    + split; [done|].
      eapply Forall_impl; [exact Hbounds'|]. simpl. intros; lia.
Qed.

Lemma positions_all_named start items :
  Forall (λ div, is_Some (Bs4.actor_link div)) items ->
  ImdbTopBsSpider.position_order <$> omap entry (enumerate start items)
  = (λ i, (start + Z.of_nat i)%Z) <$> seq 0 (length items).
Proof.
  revert start. induction items as [|div items IH]; intros start Hall;
    [done|].
  apply Forall_cons in Hall as [[a Ha] Hall].
  cbn [enumerate length seq]. rewrite omap_entry_cons, Ha. simpl.
  rewrite IH by done. f_equal; [lia|].
  rewrite <- (fmap_S_seq 0), <- list_fmap_compose.
  apply list_fmap_ext. intros _ i _. simpl. lia.
Qed.

Lemma entry_origin start items a :
  a ∈ omap entry (enumerate start items) ->
  exists (i : nat) div a_text,
    items !! i = Some div /\ Bs4.actor_link div = Some a_text
    /\ a = {| ImdbTopBsSpider.movie_title := movie_title;
              ImdbTopBsSpider.actor_name := strip a_text;
              ImdbTopBsSpider.position_order := (start + Z.of_nat i)%Z |}.
Proof.
  intros Ha. apply list_elem_of_omap in Ha as ([pos div] & Hin & Hentry).
  apply list_elem_of_lookup in Hin as [i Hi].
  rewrite enumerate_lookup in Hi.
  destruct (items !! i) as [div'|] eqn:Hdiv; simpl in Hi; [|done].
  injection Hi as <- <-. unfold entry in Hentry. simpl in Hentry.
  destruct (Bs4.actor_link div') as [a_text|] eqn:Hlink; simpl in Hentry;
    [|done].
  injection Hentry as <-. by exists i, div', a_text.
Qed.

Lemma entry_found start items (i : nat) div a_text :
  items !! i = Some div -> Bs4.actor_link div = Some a_text ->
  {| ImdbTopBsSpider.movie_title := movie_title;
     ImdbTopBsSpider.actor_name := strip a_text;
     ImdbTopBsSpider.position_order := (start + Z.of_nat i)%Z |}
    ∈ omap entry (enumerate start items).
Proof.
  intros Hdiv Hlink. apply list_elem_of_omap.
  exists ((start + Z.of_nat i)%Z, div). split.
  - apply list_elem_of_lookup. exists i.
    by rewrite enumerate_lookup, Hdiv.
  - unfold entry. simpl. by rewrite Hlink.
Qed.

(** As many entries as items with an actor link. *)
Lemma positions_count start items :
  length (omap entry (enumerate start items))
  = length (filter (λ div, is_Some (Bs4.actor_link div)) items).
Proof.
  revert start. induction items as [|div items IH]; intros start; [done|].
  cbn [enumerate]. rewrite omap_entry_cons, filter_cons.
  destruct (Bs4.actor_link div) as [a_text|].
  - rewrite decide_True by (by eexists). simpl. by rewrite IH.
  - rewrite decide_False by (by intros [? ?]). by rewrite IH.
Qed.

Lemma positions_none start items :
  omap entry (enumerate start items) = []
  <-> Forall (λ div, Bs4.actor_link div = None) items.
Proof.
  revert start. induction items as [|div items IH]; intros start; [done|].
  cbn [enumerate]. rewrite omap_entry_cons, Forall_cons.
  destruct (Bs4.actor_link div) as [a_text|].
  - split; [done|]. by intros [? _].
  - rewrite IH. split; [by intros ?|by intros [_ ?]].
Qed.

Lemma seq_shift_from (start : Z) (n : nat) :
  (λ i : nat, (start + Z.of_nat i)%Z) <$> seq 1 n
  = (λ i : nat, (start + 1 + Z.of_nat i)%Z) <$> seq 0 n.
Proof.
  rewrite <- (fmap_S_seq 0), <- list_fmap_compose.
  apply list_fmap_ext. intros _ i _. simpl. lia.
Qed.

(** The positions are the numbers from [start] on, without a gap,
    exactly when no item with an actor link comes after one without. *)
Lemma positions_contiguous start items :
  ImdbTopBsSpider.position_order <$> omap entry (enumerate start items)
  = (λ i : nat, (start + Z.of_nat i)%Z)
      <$> seq 0 (length (omap entry (enumerate start items)))
  <-> forall (i j : nat) div,
        (i < j)%nat -> items !! j = Some div ->
        is_Some (Bs4.actor_link div) ->
        exists div', items !! i = Some div'
                     /\ is_Some (Bs4.actor_link div').
Proof.
  revert start. induction items as [|div items IH]; intros start.
  { split; [|done]. intros _ i j d _ Hj. by rewrite lookup_nil in Hj. }
  cbn [enumerate]. rewrite omap_entry_cons.
  destruct (Bs4.actor_link div) as [a_text|] eqn:Hlink.
  - cbn [length seq]. rewrite !fmap_cons, seq_shift_from.
    cbn [ImdbTopBsSpider.position_order]. split.
    + intros [= _ Heq]. pose proof (proj1 (IH _) Heq) as Hrest.
      intros [|i] [|j] d Hij Hj Hnamed; try lia.
      * exists div. split; [done|]. by rewrite Hlink.
      * simpl in Hj. destruct (Hrest i j d) as (div' & ? & ?); [lia|done..|].
        by exists div'.
    + intros Hprefix. f_equal; [lia|]. apply (proj2 (IH _)).
      intros i j d Hij Hj Hnamed.
      destruct (Hprefix (S i) (S j) d) as (div' & ? & ?); [lia|done..|].
      by exists div'.
  - pose proof (positions_sorted (start + 1) items) as [_ Hbounds].
    pose proof (positions_none (start + 1) items) as Hnone.
    destruct (omap entry (enumerate (start + 1) items)) as [|a l] eqn:Hl.
    + split; [|done]. intros _ i [|j] d Hij Hj Hnamed; [lia|].
      simpl in Hj. destruct Hnamed as [a Ha].
      assert (Hall : Forall (λ div, Bs4.actor_link div = None) items)
        by (by apply Hnone).
      rewrite Forall_forall in Hall.
      rewrite (Hall d) in Ha by (by eapply list_elem_of_lookup_2). done.
    + split.
      * cbn [length seq]. rewrite !fmap_cons. intros [= Hhead _].
        apply Forall_cons in Hbounds as [Hbound _]. lia.
      * intros Hprefix. exfalso.
        assert (Hsome : ~ Forall (λ div, Bs4.actor_link div = None) items)
          by (intros Hall; by apply Hnone in Hall).
        apply Hsome, Forall_forall. intros d [j Hj]%list_elem_of_lookup.
        destruct (Bs4.actor_link d) as [a_text|] eqn:Hd; [|done].
        destruct (Hprefix 0%nat (S j) d) as (div' & [= <-] & [? Hnamed]);
          [lia|done|by rewrite Hd|].
        congruence.
Qed.

End ExtractActors.

(** C2, as the code has it: [_extract_actors] returns at most 3 entries;
    its entries are exactly those of the first 3 cast items that have an
    actor link, one for each of them and none for the others, in the
    order of the page: each carries the title given, the stripped text
    of the link, and as [position_order] the 1-based index of its cast
    item (an item without link is skipped and the items after it keep
    their index), so the positions increase strictly along the list;
    they are exactly 1..len if and only if, among the first 3 cast
    items, none with an actor link comes after one without. *)
Theorem extract_actors_positions soup movie_title :
  let actors := ImdbTopBsSpider._extract_actors soup movie_title in
  let cast_items := default [] (Bs4.title_cast soup) in
  (length actors <= 3)%nat
  /\ (forall a, a ∈ actors <->
        exists (i : nat) div a_text,
          (i < 3)%nat /\ cast_items !! i = Some div
          /\ Bs4.actor_link div = Some a_text
          /\ a = {| ImdbTopBsSpider.movie_title := movie_title;
                    ImdbTopBsSpider.actor_name := strip a_text;
                    ImdbTopBsSpider.position_order := Z.of_nat (S i) |})
  /\ StronglySorted Z.lt (ImdbTopBsSpider.position_order <$> actors)
  /\ length actors
     = length (filter (λ div, is_Some (Bs4.actor_link div))
                 (take 3 cast_items))
  /\ (ImdbTopBsSpider.position_order <$> actors
      = Z.of_nat <$> seq 1 (length actors)
      <-> forall (i j : nat) div,
            (i < j < 3)%nat -> cast_items !! j = Some div ->
            is_Some (Bs4.actor_link div) ->
            exists div', cast_items !! i = Some div'
                         /\ is_Some (Bs4.actor_link div')).
Proof.
  intros actors cast_items. subst actors. rewrite extract_actors_omap.
  fold cast_items.
  split; [|split; [|split; [|split]]].
  - etrans; [apply omap_entry_length|].
    rewrite enumerate_length, length_take. lia.
  - intros a. split.
    + intros Ha.
      apply entry_origin in Ha as (i & div & a_text & Hi & Hlink & ->).
      apply lookup_take_Some in Hi as [Hi Hlt].
      exists i, div, a_text. repeat split; try done.
      do 2 f_equal. lia.
    + intros (i & div & a_text & Hlt & Hi & Hlink & ->).
      replace (Z.of_nat (S i)) with (1 + Z.of_nat i)%Z by lia.
      apply (entry_found movie_title 1 _ i div a_text); [|done].
      by rewrite lookup_take_lt.
  - apply positions_sorted.
  - apply positions_count.
  - assert (Hseq : forall n,
              Z.of_nat <$> seq 1 n
              = (λ i : nat, (1 + Z.of_nat i)%Z) <$> seq 0 n).
    { intros n. rewrite <- (fmap_S_seq 0), <- list_fmap_compose.
      apply list_fmap_ext. intros; simpl; lia. }
    rewrite Hseq.
    etrans; [apply (positions_contiguous movie_title 1 (take 3 cast_items))|].
    split.
    + intros Hprefix i j div [Hij Hj] Hdiv Hnamed.
      destruct (Hprefix i j div) as (div' & Hi & ?); [done| |done|].
      { by rewrite lookup_take_lt. }
      apply lookup_take_Some in Hi as [Hi _]. by exists div'.
    + intros Hprefix i j div Hij Hdiv Hnamed.
      apply lookup_take_Some in Hdiv as [Hdiv Hj].
      destruct (Hprefix i j div) as (div' & Hi & ?); [lia|done..|].
      exists div'. split; [|done]. rewrite lookup_take_lt; [done|lia].
Qed.

Lemma extract_actors_positions_witness :
  ImdbTopBsSpider.position_order
    <$> ImdbTopBsSpider._extract_actors Tenths.all_named "The Shawshank Redemption"
  = [1; 2; 3]%Z
  /\ {| ImdbTopBsSpider.movie_title := "The Shawshank Redemption";
        ImdbTopBsSpider.actor_name := "Bob Gunton";
        ImdbTopBsSpider.position_order := 3 |}
       ∈ ImdbTopBsSpider._extract_actors Tenths.unnamed_second
           "The Shawshank Redemption"
  /\ ~ (forall (i j : nat) div,
          (i < j < 3)%nat ->
          default [] (Bs4.title_cast Tenths.unnamed_second) !! j = Some div ->
          is_Some (Bs4.actor_link div) ->
          exists div',
            default [] (Bs4.title_cast Tenths.unnamed_second) !! i = Some div'
            /\ is_Some (Bs4.actor_link div')).
Proof.
  split; [|split].
  - pose proof (extract_actors_positions Tenths.all_named
                  "The Shawshank Redemption") as (_ & _ & _ & _ & H).
    etrans; [apply H|reflexivity].
    intros i j div Hij Hj Hnamed.
    destruct i as [|[|[|i]]]; try lia; eexists; (split; [reflexivity|]);
      by eexists.
  - pose proof (extract_actors_positions Tenths.unnamed_second
                  "The Shawshank Redemption") as (_ & H & _).
    apply H.
    exists 2%nat, {| Bs4.actor_link := Some "Bob Gunton"%string |},
      "Bob Gunton"%string.
    split; [lia|]. split; [reflexivity|]. split; reflexivity.
  - pose proof (extract_actors_positions Tenths.unnamed_second
                  "The Shawshank Redemption") as (_ & _ & _ & _ & H).
    intros Hprefix. apply H in Hprefix. discriminate Hprefix.
Defined.

(** C2, as stated, fails: with three or more cast items of which the
    second has no actor link, the positions returned are 1 and 3, not
    1..2. *)
Lemma extract_actors_positions_gap :
  let actors :=
    ImdbTopBsSpider._extract_actors Tenths.unnamed_second "The Shawshank Redemption" in
  (3 <= length (default [] (Bs4.title_cast Tenths.unnamed_second)))%nat
  /\ ImdbTopBsSpider.position_order <$> actors = [1; 3]%Z
  /\ ImdbTopBsSpider.position_order <$> actors
     <> Z.of_nat <$> seq 1 (length actors).
Proof. simpl. repeat split; [lia|done]. Qed.

(** ** The list of movies *)

Section Parse.
Context `{PyFloat}.
Variable json_loads : string -> option value.
Variable urljoin : string -> string -> result string.
Variable response : Scrapy.Response.
Variable user_agent : nat -> result FakeUseragent.UserAgent.
Variable draw : nat -> nat.

Let turn (i : nat) (elem : value) : result Scrapy.Request :=
  ImdbTopBsSpider.detail_request urljoin response elem
    (user_agent i) (draw i).

(** What a request for a detail page is made of, read off the entry
    of the listing it was built from. *)
Lemma detail_request_entry elem outcome d request :
  ImdbTopBsSpider.detail_request urljoin response elem outcome d
  = Ok request ->
  exists (movie : gmap string value) title rating movie_url u ua agent,
    getitem elem "item" = Ok (VDict movie)
    /\ movie !! "name" = Some title
    /\ movie !! "url" = Some movie_url
    /\ Scrapy.url_text movie_url = Ok u
    /\ urljoin (Scrapy.response_url response) u = Ok (Scrapy.url request)
    /\ match movie !! "aggregateRating" with
       | None => rating = VNone
       | Some aggregate =>
           exists rating_value f,
             getitem aggregate "ratingValue" = Ok rating_value
             /\ to_float rating_value = Ok f /\ rating = VFloat f
       end
    /\ outcome = Ok ua /\ FakeUseragent.random ua d = Ok agent
    /\ Scrapy.meta request
       = <["title" := title]>
           (<["rating" := rating]>
              (<["duration_iso" := default VNone (movie !! "duration")]> ∅))
    /\ Scrapy.headers request = <["User-Agent" := agent]> ∅
    /\ Scrapy.callback request = Scrapy.parse_movie_cb
    /\ Scrapy.priority request = 0%Z
    /\ Scrapy.dont_filter request = false.
Proof.
  unfold ImdbTopBsSpider.detail_request. intros Hreq.
  destruct (getitem elem "item") as [item|] eqn:Hitem; [|done].
  cbn [mbind result_bind] in Hreq.
  destruct item as [| | | | | |movie]; try done.
  cbn [getitem contains get] in Hreq.
  destruct (movie !! "name") as [title|] eqn:Hname; [|done].
  cbn [mbind result_bind] in Hreq.
  destruct (if bool_decide (is_Some (movie !! "aggregateRating")) then _
            else _) as [rating|] eqn:Hrating; [|done].
  cbn [mbind result_bind] in Hreq.
  destruct (movie !! "url") as [movie_url|] eqn:Hurl; [|done].
  cbn [mbind result_bind] in Hreq.
  destruct outcome as [ua|]; [|done].
  cbn [mbind result_bind] in Hreq.
  destruct (FakeUseragent.random ua d) as [agent|] eqn:Hagent; [|done].
  cbn [mbind result_bind] in Hreq.
  unfold Scrapy.follow in Hreq.
  destruct (Scrapy.url_text movie_url) as [u|] eqn:Hu; [|done].
  cbn [mbind result_bind] in Hreq.
  destruct (urljoin _ u) as [target|] eqn:Htarget; [|done].
  cbn [mbind result_bind] in Hreq. injection Hreq as <-.
  exists movie, title, rating, movie_url, u, ua, agent.
  do 5 (split; [done|]). split; [|done].
  destruct (movie !! "aggregateRating") as [aggregate|].
  - rewrite bool_decide_eq_true_2 in Hrating by (by eexists).
    cbn [mbind result_bind] in Hrating.
    destruct (getitem aggregate "ratingValue") as [rating_value|] eqn:Hvalue;
      [|done].
    cbn [mbind result_bind] in Hrating.
    destruct (to_float rating_value) as [f|] eqn:Hf; [|done].
    cbn [mbind result_bind] in Hrating.
    injection Hrating as <-. by exists rating_value, f.
  - rewrite bool_decide_eq_false_2 in Hrating by (by intros [? ?]).
    by injection Hrating as <-.
Qed.

Lemma detail_requests_in_order items : forall i rs e,
  ImdbTopBsSpider.detail_requests urljoin response user_agent draw i items
  = (rs, e) ->
  (forall j r, rs !! j = Some r ->
     exists elem, items !! j = Some elem /\ turn (i + j) elem = Ok r)
  /\ (length rs <= length items)%nat
  /\ (e = None -> length rs = length items)
  /\ (forall exc, e = Some exc ->
        exists elem, items !! length rs = Some elem
                     /\ turn (i + length rs) elem = Raise exc).
Proof.
  induction items as [|elem items IH]; intros i rs e; simpl.
  - intros [= <- <-]. repeat split; done.
  - destruct (ImdbTopBsSpider.detail_request _ _ elem _ _)
      as [request|exc] eqn:Hturn.
    + destruct (ImdbTopBsSpider.detail_requests _ _ _ _ (S i) items)
        as [rs' e'] eqn:Hrest.
      intros [= <- <-].
      destruct (IH _ _ _ Hrest) as (Horder & Hle & Hall & Hstop).
      repeat split.
      * intros [|j] r Hr; simpl in Hr.
        -- injection Hr as <-. exists elem. rewrite Nat.add_0_r. done.
        -- destruct (Horder _ _ Hr) as (elem' & ? & ?).
           exists elem'. split; [done|].
           by replace (i + S j)%nat with (S i + j)%nat by lia.
      * simpl. lia.
      * intros He. simpl. by rewrite Hall.
      * intros exc He. destruct (Hstop _ He) as (elem' & ? & ?).
        exists elem'. split; [done|]. simpl.
        by replace (i + S (length rs'))%nat
          with (S i + length rs')%nat by lia.
    + intros [= <- <-]. repeat split; try done; simpl; try lia.
      intros exc' [= <-]. exists elem. by rewrite Nat.add_0_r.
Qed.

Lemma find_none_Forall {A} (f : A -> bool) l :
  Forall (λ x, f x = false) l -> List.find f l = None.
Proof.
  induction 1 as [|x l Hx _ IH]; simpl; [done|]. by rewrite Hx.
Qed.

End Parse.

(** C7: when no script element of the index page is a JSON-LD block that
    mentions ItemList, and when the text of the block found is not JSON,
    [parse] reports one error, yields no request (so no detail page is
    fetched) and ends without an exception, so nothing is tried again;
    a block that is JSON but holds no list under "itemListElement" ends
    [parse] with an exception, before any request. *)
Theorem parse_without_listing `{PyFloat}
    (json_loads : string -> option value)
    (urljoin : string -> string -> result string)
    (response : Scrapy.Response)
    (user_agent : nat -> result FakeUseragent.UserAgent) (draw : nat -> nat) :
  let crawl :=
    ImdbTopBsSpider.parse json_loads urljoin response user_agent draw in
  let found :=
    List.find ImdbTopBsSpider.is_item_list
      (Bs4.scripts (Scrapy.soup response)) in
  (Forall (λ tag, ImdbTopBsSpider.is_item_list tag = false)
     (Bs4.scripts (Scrapy.soup response)) ->
   crawl = {| ImdbTopBsSpider.requests := [];
              ImdbTopBsSpider.logged := [Logging.ItemListNotFound];
              ImdbTopBsSpider.raised := None |})
  /\ (forall tag text,
        found = Some tag -> Bs4.script_string tag = Some text ->
        json_loads text = None ->
        crawl = {| ImdbTopBsSpider.requests := [];
                   ImdbTopBsSpider.logged := [Logging.InvalidJsonLd];
                   ImdbTopBsSpider.raised := None |})
  /\ (forall tag text document,
        found = Some tag -> Bs4.script_string tag = Some text ->
        json_loads text = Some document ->
        (forall l, getitem document "itemListElement" <> Ok (VList l)) ->
        (forall s, getitem document "itemListElement" <> Ok (VStr s)) ->
        ImdbTopBsSpider.requests crawl = []
        /\ is_Some (ImdbTopBsSpider.raised crawl))
  /\ Logging.level Logging.ItemListNotFound = Logging.ERROR
  /\ Logging.level Logging.InvalidJsonLd = Logging.ERROR.
Proof.
  intros crawl found. subst crawl found. unfold ImdbTopBsSpider.parse.
  split; [|split; [|split; [|done]]].
  - intros Hnone. by rewrite (find_none_Forall _ _ Hnone).
  - intros tag text -> -> ->. done.
  - intros tag text document -> -> -> Hlist Hstr.
    destruct (getitem document "itemListElement") as [[]|]; simpl;
      try done.
    + by destruct (Hstr s).
    + by destruct (Hlist l).
Qed.

Lemma parse_without_listing_witness :
  ImdbTopBsSpider.requests
    (ImdbTopBsSpider.parse Tenths.json_loads Tenths.urljoin Tenths.bare_page
       (λ _, Ok Tenths.browser) (λ _, 0%nat)) = []
  /\ ImdbTopBsSpider.parse Tenths.json_loads Tenths.urljoin
       (Tenths.index_page "{ItemList") (λ _, Ok Tenths.browser) (λ _, 0%nat)
     = {| ImdbTopBsSpider.requests := [];
          ImdbTopBsSpider.logged := [Logging.InvalidJsonLd];
          ImdbTopBsSpider.raised := None |}
  /\ ImdbTopBsSpider.requests
       (ImdbTopBsSpider.parse Tenths.json_loads Tenths.urljoin
          (Tenths.index_page "ItemList none") (λ _, Ok Tenths.browser)
          (λ _, 0%nat)) = [].
Proof.
  split; [|split].
  - pose proof (parse_without_listing Tenths.json_loads Tenths.urljoin
                  Tenths.bare_page (λ _, Ok Tenths.browser) (λ _, 0%nat))
      as (Hmissing & _).
    rewrite Hmissing; [reflexivity|]. repeat constructor.
  - pose proof (parse_without_listing Tenths.json_loads Tenths.urljoin
                  (Tenths.index_page "{ItemList") (λ _, Ok Tenths.browser)
                  (λ _, 0%nat)) as (_ & Hinvalid & _).
    eapply Hinvalid; reflexivity.
  - pose proof (parse_without_listing Tenths.json_loads Tenths.urljoin
                  (Tenths.index_page "ItemList none")
                  (λ _, Ok Tenths.browser) (λ _, 0%nat))
      as (_ & _ & Hshape & _).
    eapply Hshape; try reflexivity; intros ?; discriminate.
Defined.

Section ParseListing.
Context `{PyFloat}.
Variable json_loads : string -> option value.
Variable urljoin : string -> string -> result string.
Variable response : Scrapy.Response.



End ParseListing.




(** ** The identity of a request *)

Lemma random_choice_elem_of {A} draw (seq : list A) :
  seq <> [] -> exists x, random_choice draw seq = Ok x /\ x ∈ seq.
Proof.
  intros Hne. unfold random_choice.
  assert (Hlt : (draw `mod` length seq < length seq)%nat).
  { apply Nat.mod_upper_bound. by destruct seq. }
  destruct (lookup_lt_is_Some_2 _ _ Hlt) as [x Hx].
  exists x. rewrite Hx. split; [done|]. by eapply list_elem_of_lookup_2.
Qed.

(** When [UserAgent()] fails, the middleware takes the identity from its
    basic list and does not fail. *)
Lemma random_user_agent_fallback `{PyFloat} exc request draw :
  let self := (RandomUserAgentMiddleware.__init__ (Raise exc)).1 in
  exists agent,
    agent ∈ RandomUserAgentMiddleware.basic_list
    /\ RandomUserAgentMiddleware.process_request self request draw
       = Ok (RandomUserAgentMiddleware.setdefault_header "User-Agent"
               agent request).
Proof.
  simpl. unfold RandomUserAgentMiddleware.process_request. simpl.
  destruct (random_choice_elem_of draw RandomUserAgentMiddleware.basic_list)
    as (agent & Hagent & Hin); [done|].
  exists agent. by rewrite Hagent.
Qed.

(** In [parse] the same failure ends the loop at its first turn. *)
Lemma parse_identity_failure `{PyFloat}
    (json_loads : string -> option value)
    (urljoin : string -> string -> result string)
    (response : Scrapy.Response)
    (user_agent : nat -> result FakeUseragent.UserAgent) (draw : nat -> nat)
    tag text document elem entries exc :
  List.find ImdbTopBsSpider.is_item_list (Bs4.scripts (Scrapy.soup response))
  = Some tag ->
  Bs4.script_string tag = Some text ->
  json_loads text = Some document ->
  getitem document "itemListElement" = Ok (VList (elem :: entries)) ->
  ImdbTopBsSpider.listed urljoin response elem ->
  user_agent 0%nat = Raise exc ->
  ImdbTopBsSpider.parse json_loads urljoin response user_agent draw
  = {| ImdbTopBsSpider.requests := []; ImdbTopBsSpider.logged := [];
       ImdbTopBsSpider.raised := Some exc |}.
Proof.
  intros Hfind Hstring Hjson Hlist
    (movie & Hitem & [title Hname] & (u & target & Hurl & _) & Hrating) Hua.
  unfold ImdbTopBsSpider.parse. rewrite Hfind, Hstring, Hjson, Hlist.
  cbn [mbind result_bind slice_to elements take ImdbTopBsSpider.detail_requests].
  assert (ImdbTopBsSpider.detail_request urljoin response elem
            (user_agent 0%nat) (draw 0%nat) = Raise exc) as ->; [|done].
  unfold ImdbTopBsSpider.detail_request.
  rewrite Hitem, Hua. simpl. rewrite Hname, Hurl. simpl.
  destruct (movie !! "aggregateRating") as [aggregate|] eqn:Hagg.
  - destruct (Hrating _ eq_refl) as (rating_value & f & Hrv & Hf).
    rewrite bool_decide_eq_true_2 by eauto. simpl.
    rewrite Hrv. simpl. by rewrite Hf.
  - by rewrite bool_decide_eq_false_2 by (by intros [? ?]).
Qed.

(** C9, on the code: with the primary source of identities failing, the
    middleware falls back on its basic list, whereas [parse], which draws
    an identity for each detail request, is ended by the exception before
    it yields any request. *)
Theorem identity_failure_ends_parse :
  (forall request draw, exists agent,
      agent ∈ RandomUserAgentMiddleware.basic_list
      /\ RandomUserAgentMiddleware.process_request
           (RandomUserAgentMiddleware.__init__ (Raise FakeUserAgentError)).1
           request draw
         = Ok (RandomUserAgentMiddleware.setdefault_header "User-Agent"
                 agent request))
  /\ ImdbTopBsSpider.parse Tenths.json_loads Tenths.urljoin
       (Tenths.index_page "ItemList 2") (λ _, Raise FakeUserAgentError)
       (λ _, 0%nat)
     = {| ImdbTopBsSpider.requests := []; ImdbTopBsSpider.logged := [];
          ImdbTopBsSpider.raised := Some FakeUserAgentError |}.
Proof.
  split; [|by vm_compute].
  intros request draw. apply random_user_agent_fallback.
Qed.

(** ** Blocked responses *)

Section Blocked.
Context `{PyFloat}.

(** A request sent again after a block keeps the whole [meta] of the
    blocked one but its count of retries. *)
Lemma retry_keeps_meta (self : MixedProxyMiddleware.t) request response
    request' key :
  MixedProxyMiddleware.process_response self request response
  = Ok (inl request') ->
  key <> "retry_times"%string ->
  Scrapy.meta request' !! key = Scrapy.meta request !! key.
Proof.
  unfold MixedProxyMiddleware.process_response,
    MixedProxyMiddleware._retry, Scrapy.get_retry_request.
  intros Hresp Hkey. case_bool_decide; [|done].
  destruct (Scrapy.meta_int request "retry_times" _); [|done].
  cbn [mbind result_bind] in Hresp.
  destruct (Scrapy.meta_or_setting request "max_retry_times" _); [|done].
  cbn [mbind result_bind] in Hresp. case_match; [|done].
  destruct (Scrapy.meta_or_setting request "priority_adjust" _); [|done].
  cbn [mbind result_bind] in Hresp.
  injection Hresp as <-. simpl. by rewrite lookup_insert_ne.
Qed.

(** So a request that had a proxy is sent again through the same
    proxy: [process_request] assigns none to it. *)
Lemma retry_keeps_proxy (self : MixedProxyMiddleware.t) request response
    request' draw public_ip :
  MixedProxyMiddleware.process_response self request response
  = Ok (inl request') ->
  is_Some (Scrapy.meta request !! "proxy") ->
  MixedProxyMiddleware.process_request self request' draw public_ip
  = Ok (self, request', [])
  /\ MixedProxyMiddleware.meta_proxy request'
     = MixedProxyMiddleware.meta_proxy request.
Proof.
  intros Hresp [p Hp].
  pose proof (retry_keeps_meta _ _ _ _ "proxy" Hresp) as Hmeta.
  unfold MixedProxyMiddleware.process_request,
    MixedProxyMiddleware.meta_proxy.
  rewrite Hmeta by done. by rewrite Hp.
Qed.

(** While the budget lasts, a response with status 403 or 429 has the
    request sent again. *)
Lemma blocked_response_retried (self : MixedProxyMiddleware.t) request
    response :
  Scrapy.status response = 403%Z \/ Scrapy.status response = 429%Z ->
  Scrapy.meta request !! "retry_times" = None ->
  Scrapy.meta request !! "max_retry_times" = None ->
  Scrapy.meta request !! "priority_adjust" = None ->
  (1 <= MixedProxyMiddleware.max_retry_times self)%Z ->
  exists request',
    MixedProxyMiddleware.process_response self request response
    = Ok (inl request')
    /\ Scrapy.meta request' !! "retry_times" = Some (VInt 1).
Proof.
  intros Hstatus Htimes Hmax Hadjust Hbudget.
  unfold MixedProxyMiddleware.process_response,
    MixedProxyMiddleware._retry, Scrapy.get_retry_request,
    Scrapy.meta_or_setting, Scrapy.meta_int.
  rewrite bool_decide_eq_true_2 by done.
  rewrite Htimes, Hmax, Hadjust. cbn [mbind result_bind].
  change (0 + 1)%Z with 1%Z.
  rewrite (proj2 (Z.leb_le 1 _) Hbudget).
  eexists. split; [done|]. cbn [Scrapy.meta]. by rewrite lookup_insert_eq.
Qed.

End Blocked.

(** C6, on the code: a request that went out through a proxy and got
    status 403 (or 429) is sent again, and the request sent again keeps
    the proxy of the blocked attempt whatever the generator would draw:
    [process_request] leaves it alone and the middleware draws no proxy;
    after a failure of the connection, [process_exception] does draw a
    proxy for the request it returns. *)
Theorem blocked_retry_keeps_route :
  let self := (MixedProxyMiddleware.__init__ Tenths.settings).1 in
  forall code, code = 403%Z \/ code = 429%Z ->
  exists again,
    MixedProxyMiddleware.process_response self Tenths.routed_request
      (Tenths.blocked code) = Ok (inl again)
    /\ Scrapy.meta again !! "retry_times" = Some (VInt 1)
    /\ MixedProxyMiddleware.meta_proxy again = Some Tenths.proxy_1
    /\ (forall draw public_ip,
          MixedProxyMiddleware.process_request self again draw public_ip
          = Ok (self, again, []))
    /\ exists self' again' events,
         MixedProxyMiddleware.process_exception self Tenths.routed_request
           TimeoutError 1 (Raise ConnectionLost)
         = Ok (self', Some again', events)
         /\ MixedProxyMiddleware.meta_proxy again' = Some Tenths.proxy_2
         /\ MixedProxyMiddleware.current_proxy self' = Some Tenths.proxy_2.
Proof.
  intros self code Hcode.
  destruct (blocked_response_retried self Tenths.routed_request
              (Tenths.blocked code)) as (again & Hagain & Htimes);
    try done.
  exists again. split; [done|]. split; [done|].
  assert (Hproxy : is_Some (Scrapy.meta Tenths.routed_request !! "proxy"))
    by (by eexists).
  split; [|split].
  - by destruct (retry_keeps_proxy self _ _ _ 0%nat (Raise ConnectionLost)
                   Hagain Hproxy) as [_ ->].
  - intros draw public_ip.
    by destruct (retry_keeps_proxy self _ _ _ draw public_ip Hagain Hproxy).
  - by eexists _, _, _.
Qed.

Lemma blocked_retry_keeps_route_witness :
  exists again,
    MixedProxyMiddleware.process_response
      (MixedProxyMiddleware.__init__ Tenths.settings).1 Tenths.routed_request
      (Tenths.blocked 403) = Ok (inl again)
    /\ MixedProxyMiddleware.meta_proxy again = Some Tenths.proxy_1.
Proof.
  destruct (blocked_retry_keeps_route 403%Z) as (again & H1 & _ & H2 & _);
    [by left|].
  by exists again.
Defined.

(** ** The relational sink *)

Section Relational.
Context `{Postgresql.Types}.

(** The conversion of the values does not depend on the [id] drawn. *)
Lemma movie_row_id item id id' :
  PostgresPipeline.movie_row item id'
  = match PostgresPipeline.movie_row item id with
    | Ok r =>
        Ok {| peliculas.id := id';
              peliculas.titulo := peliculas.titulo r;
              peliculas.anio := peliculas.anio r;
              peliculas.calificacion := peliculas.calificacion r;
              peliculas.duracion := peliculas.duracion r;
              peliculas.metascore := peliculas.metascore r |}
    | Raise exc => Raise exc
    end.
Proof.
  unfold PostgresPipeline.movie_row.
  destruct (PostgresPipeline.movie_values item)
    as [[[[[titulo anio] calificacion] duracion] metascore]|]; [|done].
  cbn [mbind result_bind]. by destruct (Postgresql.not_null titulo).
Qed.

Lemma movie_values_anio item titulo anio calificacion duracion metascore :
  PostgresPipeline.movie_values item
  = Ok (titulo, anio, calificacion, duracion, metascore) ->
  anio = Items.year item.
Proof.
  unfold PostgresPipeline.movie_values.
  destruct (Postgresql.nullable _ (Items.title item)); [|done].
  cbn [mbind result_bind].
  assert (Hyear : forall anio',
            Postgresql.nullable Postgresql.integer (Items.year item)
            = Ok anio' -> anio' = Items.year item).
  { destruct (Items.year item) as [y|]; simpl; [|by intros ? [= <-]].
    unfold Postgresql.integer. case_match; [|done]. by intros ? [= <-]. }
  destruct (Postgresql.nullable _ (Items.year item)) as [anio'|]; [|done].
  cbn [mbind result_bind].
  destruct (Postgresql.nullable _ (Items.rating item)); [|done].
  cbn [mbind result_bind].
  destruct (Postgresql.nullable _ (Items.duration item)); [|done].
  cbn [mbind result_bind].
  destruct (Postgresql.nullable _ (Items.metascore item)); [|done].
  cbn [mbind result_bind]. intros [= _ <- _ _ _]. by apply Hyear.
Qed.

(** A year that is present is stored as it is, when it is stored. *)
Lemma movie_row_anio item id r :
  PostgresPipeline.movie_row item id = Ok r ->
  peliculas.anio r = Items.year item.
Proof.
  unfold PostgresPipeline.movie_row.
  destruct (PostgresPipeline.movie_values item)
    as [[[[[titulo anio] calificacion] duracion] metascore]|] eqn:Hvalues;
    [|done].
  cbn [mbind result_bind]. destruct (Postgresql.not_null titulo); [|done].
  cbn [mbind result_bind]. intros [= <-]. simpl.
  by eapply movie_values_anio.
Qed.

(** A row is made only of values that were converted. *)
Lemma movie_row_values item id r :
  PostgresPipeline.movie_row item id = Ok r ->
  exists values, PostgresPipeline.movie_values item = Ok values.
Proof.
  unfold PostgresPipeline.movie_row.
  destruct (PostgresPipeline.movie_values item) as [values|]; [|done].
  by exists values.
Qed.

Lemma movie_values_titulo item titulo anio calificacion duracion metascore :
  PostgresPipeline.movie_values item
  = Ok (titulo, anio, calificacion, duracion, metascore) ->
  Postgresql.nullable Postgresql.varchar_255 (Items.title item) = Ok titulo.
Proof.
  unfold PostgresPipeline.movie_values.
  destruct (Postgresql.nullable _ (Items.title item)); [|done].
  cbn [mbind result_bind].
  destruct (Postgresql.nullable _ (Items.year item)); [|done].
  cbn [mbind result_bind].
  destruct (Postgresql.nullable _ (Items.rating item)); [|done].
  cbn [mbind result_bind].
  destruct (Postgresql.nullable _ (Items.duration item)); [|done].
  cbn [mbind result_bind].
  destruct (Postgresql.nullable _ (Items.metascore item)); [|done].
  cbn [mbind result_bind]. by intros [= <- _ _ _ _].
Qed.

(** A movie without title is refused: by the type of a column when
    another of its values does not fit, by the constraint on [titulo]
    otherwise. *)
Lemma movie_row_untitled item id :
  Items.title item = None ->
  PostgresPipeline.movie_row item id
  = match PostgresPipeline.movie_values item with
    | Ok _ => Raise IntegrityError
    | Raise exc => Raise exc
    end.
Proof.
  intros Htitle. unfold PostgresPipeline.movie_row.
  destruct (PostgresPipeline.movie_values item)
    as [[[[[titulo anio] calificacion] duracion] metascore]|] eqn:Hvalues;
    [|done].
  apply movie_values_titulo in Hvalues. rewrite Htitle in Hvalues.
  by injection Hvalues as <-.
Qed.

Lemma same_key_refl_keyed (r r' : peliculas.row) :
  peliculas.titulo r' = peliculas.titulo r ->
  peliculas.anio r' = peliculas.anio r ->
  is_Some (peliculas.anio r) ->
  peliculas.same_key r' r = true.
Proof.
  intros Ht Ha [y Hy]. unfold peliculas.same_key.
  rewrite Ht, Ha, Hy, String.eqb_refl, Z.eqb_refl. done.
Qed.

(** The three ways [_insert_movie] ends. *)
Lemma insert_movie_result (self : PostgresPipeline.t) item :
  PostgresPipeline._insert_movie self item
  = match PostgresPipeline.movie_row item
            (PostgresPipeline.peliculas_id_seq self) with
    | Raise exc =>
        (* the [id] is drawn once the values are converted *)
        ({| PostgresPipeline.committed := PostgresPipeline.committed self;
            PostgresPipeline.session := PostgresPipeline.committed self;
            PostgresPipeline.peliculas_id_seq :=
              PostgresPipeline.peliculas_id_seq self
              + (if PostgresPipeline.movie_values item is Ok _ then 1 else 0);
            PostgresPipeline.actores_id_seq :=
              PostgresPipeline.actores_id_seq self |},
         [Logging.MovieInsertError exc])
    | Ok new =>
        ({| PostgresPipeline.committed := PostgresPipeline.committed self;
            PostgresPipeline.session :=
              if existsb (peliculas.same_key new)
                   (PostgresPipeline.movies_table
                      (PostgresPipeline.session self))
              then PostgresPipeline.session self
              else
                {| PostgresPipeline.movies_table :=
                     PostgresPipeline.movies_table
                       (PostgresPipeline.session self) ++ [new];
                   PostgresPipeline.actors_table :=
                     PostgresPipeline.actors_table
                       (PostgresPipeline.session self) |};
            PostgresPipeline.peliculas_id_seq :=
              PostgresPipeline.peliculas_id_seq self + 1;
            PostgresPipeline.actores_id_seq :=
              PostgresPipeline.actores_id_seq self |}, [])
    end.
Proof.
  unfold PostgresPipeline._insert_movie, PostgresPipeline.insert_movie.
  destruct (PostgresPipeline.movie_row _ _) as [new|exc] eqn:Hrow.
  - destruct (movie_row_values _ _ _ Hrow) as [values ->].
    by destruct (existsb _ _).
  - destruct (PostgresPipeline.movie_values item) as [values|exc'] eqn:Hvalues;
      [done|].
    unfold PostgresPipeline.movie_row in Hrow. rewrite Hvalues in Hrow.
    injection Hrow as <-. unfold PostgresPipeline.rollback.
    by rewrite Z.add_0_r.
Qed.

(** Writing a movie whose year is present a second time changes
    neither what the session sees nor what is committed. *)
Lemma insert_movie_idempotent (self : PostgresPipeline.t) item :
  is_Some (Items.year item) ->
  let once := (PostgresPipeline._insert_movie self item).1 in
  let twice := (PostgresPipeline._insert_movie once item).1 in
  PostgresPipeline.session twice = PostgresPipeline.session once
  /\ PostgresPipeline.committed twice = PostgresPipeline.committed once.
Proof.
  intros Hyear once twice. subst twice.
  rewrite (insert_movie_result once). subst once.
  rewrite (insert_movie_result self).
  destruct (PostgresPipeline.movie_row item
              (PostgresPipeline.peliculas_id_seq self)) as [new|exc] eqn:Hrow.
  - pose proof (movie_row_anio _ _ _ Hrow) as Hanio.
    assert (Hkeyed : is_Some (peliculas.anio new)) by by rewrite Hanio.
    cbn [fst PostgresPipeline.peliculas_id_seq PostgresPipeline.session
         PostgresPipeline.committed].
    rewrite (movie_row_id item (PostgresPipeline.peliculas_id_seq self)),
      Hrow.
    cbn [fst PostgresPipeline.session PostgresPipeline.committed].
    split; [|done].
    set (again := {| peliculas.id := _ |}).
    assert (Hsame : forall r,
              peliculas.same_key again r = peliculas.same_key new r)
      by done.
    destruct (existsb (peliculas.same_key new) _) eqn:Hconflict.
    + assert (existsb (peliculas.same_key again)
                (PostgresPipeline.movies_table
                   (PostgresPipeline.session self)) = true) as ->; [|done].
      apply existsb_exists in Hconflict as (r & Hin & Hr).
      apply existsb_exists. exists r. by rewrite Hsame.
    + cbn [PostgresPipeline.movies_table].
      rewrite existsb_app. cbn [existsb].
      rewrite Hsame, (same_key_refl_keyed new) by done.
      by rewrite orb_true_r.
  - cbn [fst PostgresPipeline.peliculas_id_seq].
    rewrite (movie_row_id item (PostgresPipeline.peliculas_id_seq self)),
      Hrow.
    done.
Qed.

Lemma same_key_has_key (new r : peliculas.row) t y :
  peliculas.titulo new = t -> peliculas.anio new = Some y ->
  peliculas.same_key new r = PostgresPipeline.has_key (Some t) (Some y) r.
Proof.
  intros Ht Hy. unfold peliculas.same_key, PostgresPipeline.has_key.
  rewrite Ht, Hy.
  destruct (String.eqb_spec t (peliculas.titulo r)) as [<-|Hne]; simpl.
  - destruct (peliculas.anio r) as [y'|].
    + destruct (Z.eqb_spec y y') as [<-|Hne].
      * by rewrite bool_decide_eq_true_2.
      * rewrite bool_decide_eq_false_2; [done|]. intros [_ [= ?]]. done.
    + rewrite bool_decide_eq_false_2; [done|]. by intros [_ ?].
  - rewrite bool_decide_eq_false_2; [done|]. intros [[= ?] _]. done.
Qed.

Lemma existsb_false_filter {A} (f : A -> bool) l :
  existsb f l = false <-> List.filter f l = [].
Proof.
  induction l as [|x l IH]; simpl; [done|].
  destruct (f x); simpl; [split; done|exact IH].
Qed.

(** With its year present and its values stored as they are, a movie
    written twice has one row under its key, the one that was there
    after the first write, provided the key was not already there more
    than once. *)
Lemma insert_movie_twice_one_row (self : PostgresPipeline.t) item t y new :
  Items.title item = Some t -> Items.year item = Some y ->
  PostgresPipeline.movie_row item (PostgresPipeline.peliculas_id_seq self)
  = Ok new ->
  peliculas.titulo new = t ->
  (length (PostgresPipeline.rows_with_key (Some t) (Some y) self) <= 1)%nat ->
  let once := (PostgresPipeline._insert_movie self item).1 in
  let twice := (PostgresPipeline._insert_movie once item).1 in
  length (PostgresPipeline.rows_with_key (Some t) (Some y) twice) = 1%nat
  /\ PostgresPipeline.rows_with_key (Some t) (Some y) twice
     = PostgresPipeline.rows_with_key (Some t) (Some y) once.
Proof.
  intros Htitle Hyear Hrow Hstored Hunique once twice.
  destruct (insert_movie_idempotent self item) as [Hsession _];
    [by rewrite Hyear|].
  fold once in Hsession. fold twice in Hsession.
  unfold PostgresPipeline.rows_with_key in *. rewrite Hsession.
  split; [|done]. subst once.
  rewrite insert_movie_result, Hrow. cbn [fst PostgresPipeline.session].
  pose proof (movie_row_anio _ _ _ Hrow) as Hanio. rewrite Hyear in Hanio.
  pose proof (λ r, same_key_has_key new r t y Hstored Hanio) as Hkey.
  destruct (existsb (peliculas.same_key new) _) eqn:Hconflict.
  - assert (List.filter (PostgresPipeline.has_key (Some t) (Some y))
              (PostgresPipeline.movies_table (PostgresPipeline.session self))
            <> []) as Hne.
    { intros Hnil. rewrite <- (List.filter_ext _ _ Hkey) in Hnil.
      apply existsb_false_filter in Hnil. congruence. }
    destruct (List.filter _ _) as [|r [|r' l]]; simpl in *; [done|done|lia].
  - apply existsb_false_filter in Hconflict.
    rewrite (List.filter_ext _ _ Hkey) in Hconflict.
    cbn [PostgresPipeline.movies_table].
    rewrite List.filter_app, Hconflict. cbn [List.filter app].
    rewrite <- Hkey, (same_key_refl_keyed new) by (by rewrite ?Hanio).
    done.
Qed.

(** A cast entry whose title is the [titulo] of no row is not written:
    the pipeline is left as it was and a warning is reported. *)
Lemma insert_actor_orphan (self : PostgresPipeline.t) item :
  (forall r,
     r ∈ PostgresPipeline.movies_table (PostgresPipeline.session self) ->
     Some (peliculas.titulo r) <> Items.movie_title item) ->
  PostgresPipeline._insert_actor self item
  = (self, [Logging.MovieNotFound (Items.movie_title item)]).
Proof.
  intros Hnone. unfold PostgresPipeline._insert_actor.
  assert (PostgresPipeline.select_movie_id (Items.movie_title item) self
          = None) as ->; [|done].
  unfold PostgresPipeline.select_movie_id.
  destruct (Items.movie_title item) as [t|]; [|done].
  assert (List.filter (λ r, String.eqb (peliculas.titulo r) t)
            (PostgresPipeline.movies_table (PostgresPipeline.session self))
          = []) as ->; [|done].
  apply existsb_false_filter.
  destruct (existsb _ _) eqn:Hsome; [|done].
  apply existsb_exists in Hsome as (r & Hin & Heq).
  apply String.eqb_eq in Heq. apply list_elem_of_In in Hin.
  by destruct (Hnone r Hin); rewrite Heq.
Qed.

End Relational.

(** C3, on the code: a movie whose year is absent, written twice, has
    two rows under its key (title, no year): the second write is not
    taken for a conflict and nothing is reported. *)
Theorem insert_movie_twice_null_year :
  let once := PostgresPipeline._insert_movie Tenths.empty Tenths.heat in
  let twice := PostgresPipeline._insert_movie once.1 Tenths.heat in
  peliculas.id <$> PostgresPipeline.rows_with_key (Some "Heat"%string) None once.1
  = [1%Z]
  /\ peliculas.id <$> PostgresPipeline.rows_with_key (Some "Heat"%string) None twice.1
     = [1%Z; 2%Z]
  /\ once.2 = [] /\ twice.2 = [].
Proof. by vm_compute. Qed.

(** C5: a cast entry whose title is the title of no row of the catalog
    is not written: [_insert_actor] returns without an exception and
    leaves the pipeline, its session and the database as they were, a
    warning is reported, and the writes that follow go as if the entry
    had not been there. *)
Theorem insert_actor_without_movie `{Postgresql.Types}
    (self : PostgresPipeline.t) (item : Items.ActorItem) :
  (forall r,
     r ∈ PostgresPipeline.movies_table (PostgresPipeline.session self) ->
     Some (peliculas.titulo r) <> Items.movie_title item) ->
  PostgresPipeline.process_item self (Items.Actor item)
  = (self, [Logging.MovieNotFound (Items.movie_title item)])
  /\ Logging.level (Logging.MovieNotFound (Items.movie_title item))
     = Logging.WARNING
  /\ forall next,
       PostgresPipeline.process_item
         (PostgresPipeline.process_item self (Items.Actor item)).1 next
       = PostgresPipeline.process_item self next.
Proof.
  intros Hnone. cbn [PostgresPipeline.process_item].
  rewrite (insert_actor_orphan self item Hnone). done.
Qed.

Lemma insert_actor_without_movie_witness :
  PostgresPipeline.process_item Tenths.empty (Items.Actor Tenths.robbins)
  = (Tenths.empty,
     [Logging.MovieNotFound (Some "The Shawshank Redemption"%string)]).
Proof.
  refine (proj1 (insert_actor_without_movie Tenths.empty Tenths.robbins _)).
  intros r Hr. simpl in Hr. by apply elem_of_nil in Hr.
Defined.

(** ** The file sink *)

Section FileSink.
Context `{PyFloat}.

Lemma writerow_appends writer rowdict file file' :
  CsvExportPipeline.writerow writer rowdict file = Ok file' ->
  exists f,
    file = Some f
    /\ let row := (λ k, default (CsvExportPipeline.CStr EmptyString)
                          (CsvExportPipeline.rowdict_get rowdict k))
                    <$> CsvExportPipeline.fieldnames writer in
       file' = Some {| CsvExportPipeline.rows :=
                         CsvExportPipeline.rows f ++ [row];
                       CsvExportPipeline.closed := false |}
       /\ CsvExportPipeline.writerow writer rowdict file'
          = Ok (Some {| CsvExportPipeline.rows :=
                          (CsvExportPipeline.rows f ++ [row]) ++ [row];
                        CsvExportPipeline.closed := false |}).
Proof.
  unfold CsvExportPipeline.writerow.
  destruct file as [f|]; [|done].
  destruct (CsvExportPipeline.closed f); [done|].
  destruct (forallb _ rowdict) eqn:Hkeys; [|done].
  intros [= <-]. exists f. split; [done|]. cbv zeta. split; [done|].
  done.
Qed.

End FileSink.

(** C4, as the code has it: the relational sink leaves its tables, seen
    by the session and committed, the same when a movie whose year is
    present is consumed a second time; the file sink appends: each
    record consumed adds one row to the file of its kind, so that the
    same record consumed twice adds the same row twice. *)
Theorem sink_write_twice `{Postgresql.Types} :
  (forall (self : PostgresPipeline.t) (item : Items.MovieItem),
     is_Some (Items.year item) ->
     let once := (PostgresPipeline.process_item self (Items.Movie item)).1 in
     let twice := (PostgresPipeline.process_item once (Items.Movie item)).1 in
     PostgresPipeline.session twice = PostgresPipeline.session once
     /\ PostgresPipeline.committed twice = PostgresPipeline.committed once)
  /\ (forall (self : CsvExportPipeline.t) (item : Items.Item) once,
        is_Some (CsvExportPipeline.movie_writer self) ->
        is_Some (CsvExportPipeline.actor_writer self) ->
        CsvExportPipeline.process_item self item = Ok once ->
        exists twice row,
          CsvExportPipeline.process_item once item = Ok twice
          /\ let '(movies, actors) := CsvExportPipeline.persisted self in
             match item with
             | Items.Movie _ =>
                 CsvExportPipeline.persisted once = (movies ++ [row], actors)
                 /\ CsvExportPipeline.persisted twice
                    = ((movies ++ [row]) ++ [row], actors)
             | Items.Actor _ =>
                 CsvExportPipeline.persisted once = (movies, actors ++ [row])
                 /\ CsvExportPipeline.persisted twice
                    = (movies, (actors ++ [row]) ++ [row])
             end).
Proof.
  split.
  - intros self item Hyear. apply insert_movie_idempotent, Hyear.
  - intros self [item|item] once [mw Hmw] [aw Haw];
      unfold CsvExportPipeline.process_item; rewrite Hmw, ?Haw.
    + destruct (CsvExportPipeline.writerow mw _ _) as [file'|] eqn:Hrow;
        [|done].
      intros [= <-]. cbn [CsvExportPipeline.movie_writer mbind result_bind].
      apply writerow_appends in Hrow as (f & Hf & -> & Hagain).
      cbn [CsvExportPipeline.movie_file]. rewrite Hagain.
      eexists _, _. split; [done|].
      unfold CsvExportPipeline.persisted. rewrite Hf. done.
    + destruct (CsvExportPipeline.writerow aw _ _) as [file'|] eqn:Hrow;
        [|done].
      intros [= <-].
      cbn [CsvExportPipeline.movie_writer CsvExportPipeline.actor_writer
           mbind result_bind].
      apply writerow_appends in Hrow as (f & Hf & -> & Hagain).
      cbn [CsvExportPipeline.actor_file]. rewrite Hagain.
      eexists _, _. split; [done|].
      unfold CsvExportPipeline.persisted. rewrite Hf. done.
Qed.

Lemma sink_write_twice_witness :
  (let once :=
     (PostgresPipeline.process_item Tenths.empty
        (Items.Movie Tenths.shawshank)).1 in
   PostgresPipeline.session
     (PostgresPipeline.process_item once (Items.Movie Tenths.shawshank)).1
   = PostgresPipeline.session once)
  /\ exists once twice row,
       CsvExportPipeline.process_item
         (CsvExportPipeline.open_spider (CsvExportPipeline.__init__ "data"))
         (Items.Actor Tenths.robbins) = Ok once
       /\ CsvExportPipeline.process_item once (Items.Actor Tenths.robbins)
          = Ok twice
       /\ (CsvExportPipeline.persisted twice).2
          = [ CsvExportPipeline.CStr <$> CsvExportPipeline.actor_fields;
              row; row ].
Proof.
  destruct (@sink_write_twice Tenths.py_float Tenths.pg_types)
    as [Hrelational Hfile].
  split.
  - apply (Hrelational Tenths.empty Tenths.shawshank). by eexists.
  - assert (exists once,
              CsvExportPipeline.process_item
                (CsvExportPipeline.open_spider
                   (CsvExportPipeline.__init__ "data"))
                (Items.Actor Tenths.robbins) = Ok once) as [once Honce]
      by (eexists; reflexivity).
    destruct (Hfile
                (CsvExportPipeline.open_spider (CsvExportPipeline.__init__ "data"))
                (Items.Actor Tenths.robbins) once
                (ex_intro _ _ eq_refl) (ex_intro _ _ eq_refl) Honce)
      as (twice & row & Htwice & _ & Hpersisted).
    exists once, twice, row. split; [exact Honce|]. split; [exact Htwice|].
    by rewrite Hpersisted.
Defined.

(** C4, as stated, fails: the file sink, given the same movie twice,
    holds two rows for it, not what it holds after the first write. *)
Lemma csv_write_twice_differs :
  exists once twice,
    CsvExportPipeline.process_item
      (CsvExportPipeline.open_spider (CsvExportPipeline.__init__ "data"))
      (Items.Movie Tenths.shawshank) = Ok once
    /\ CsvExportPipeline.process_item once (Items.Movie Tenths.shawshank)
       = Ok twice
    /\ length (CsvExportPipeline.persisted once).1 = 2%nat
    /\ length (CsvExportPipeline.persisted twice).1 = 3%nat
    /\ CsvExportPipeline.persisted twice <> CsvExportPipeline.persisted once.
Proof.
  eexists _, _. repeat (split; [reflexivity|]).
  intros Heq. apply (f_equal (λ p, length p.1)) in Heq. discriminate.
Qed.

(** In the relational sink a cast entry is inserted each time it is
    consumed: nothing tells a second write from the first. *)
Lemma insert_actor_twice_two_rows :
  let stored :=
    (PostgresPipeline.process_item Tenths.empty
       (Items.Movie Tenths.shawshank)).1 in
  let once :=
    (PostgresPipeline.process_item stored (Items.Actor Tenths.robbins)).1 in
  let twice :=
    (PostgresPipeline.process_item once (Items.Actor Tenths.robbins)).1 in
  actores.id <$> PostgresPipeline.actors_table (PostgresPipeline.session once)
  = [1%Z]
  /\ actores.id <$> PostgresPipeline.actors_table (PostgresPipeline.session twice)
     = [1%Z; 2%Z].
Proof. by vm_compute. Qed.


(** * More properties of the code *)

(** ** The year of a movie *)

Lemma digits4_here_sound s m :
  Builtins.digits4_here s = Some m ->
  exists post, Builtins.window s EmptyString m post.
Proof.
  destruct s as [|a [|b [|c [|d post]]]]; simpl; try done.
  destruct (is_digit a && is_digit b && is_digit c && is_digit d) eqn:Hd;
    [|done].
  intros [= <-]. exists post.
  rewrite !andb_true_iff in Hd. destruct Hd as [[[Ha Hb] Hc] Hd].
  split; [done|]. split; [done|]. simpl. by rewrite Ha, Hb, Hc, Hd.
Qed.

Lemma digits4_here_complete s d post :
  Builtins.window s EmptyString d post -> Builtins.digits4_here s = Some d.
Proof.
  intros (-> & Hlen & Hd).
  destruct d as [|a [|b [|c [|d [|e r]]]]]; simpl in Hlen; try done.
  simpl in Hd. rewrite !andb_true_iff in Hd.
  destruct Hd as (Ha & Hb & Hc & Hd & _).
  simpl. by rewrite Ha, Hb, Hc, Hd.
Qed.

Lemma window_cons a s pre d post :
  Builtins.window (String a s) (String a pre) d post
  <-> Builtins.window s pre d post.
Proof.
  unfold Builtins.window. simpl. split.
  - intros ([= ->] & ? & ?). done.
  - intros (-> & ? & ?). done.
Qed.

Lemma re_search_4digits_sound s :
  match Builtins.re_search_4digits s with
  | Some m => exists pre post, Builtins.first_window s pre m post
  | None => Builtins.no_window s
  end.
Proof.
  induction s as [|a s IH].
  - simpl. intros pre d post (Hs & Hlen & _).
    destruct pre; [destruct d|]; done.
  - cbn [Builtins.re_search_4digits].
    destruct (Builtins.digits4_here (String a s)) as [m|] eqn:Hm.
    + destruct (digits4_here_sound _ _ Hm) as [post Hpost].
      exists EmptyString, post. split; [done|]. intros; simpl; lia.
    + assert (Hshape : forall pre' d' post',
                 Builtins.window (String a s) pre' d' post' ->
                 exists pre'', pre' = String a pre''
                               /\ Builtins.window s pre'' d' post').
      { intros [|b pre''] d' post' H'.
        - apply digits4_here_complete in H'. congruence.
        - assert (b = a) as -> by (destruct H' as ([= ->] & _); done).
          exists pre''. split; [done|]. by apply (window_cons a). }
      destruct (Builtins.re_search_4digits s) as [m|].
      * destruct IH as (pre & post & Hwin & Hleft).
        exists (String a pre), post. split; [by apply (window_cons a)|].
        intros pre' d' post' H'.
        destruct (Hshape _ _ _ H') as (pre'' & -> & H'').
        specialize (Hleft _ _ _ H''). simpl. lia.
      * intros pre' d' post' H'.
        destruct (Hshape _ _ _ H') as (pre'' & -> & H'').
        by apply IH in H''.
Qed.

Lemma digit_value_bounds c :
  is_digit c = true -> (0 <= digit_value c <= 9)%Z.
Proof.
  unfold is_digit, digit_value. intros Hc.
  apply andb_true_iff in Hc as [Hlo Hhi].
  apply Nat.leb_le in Hlo, Hhi. lia.
Qed.

Lemma int_four_digits d :
  String.length d = 4%nat -> all_digits d = true ->
  (0 <= int d <= 9999)%Z.
Proof.
  destruct d as [|a [|b [|c [|e [|f r]]]]]; simpl; try done.
  intros _ Hd. rewrite !andb_true_iff in Hd.
  destruct Hd as (Ha & Hb & Hc & He & _).
  unfold int. simpl.
  pose proof (digit_value_bounds a Ha). pose proof (digit_value_bounds b Hb).
  pose proof (digit_value_bounds c Hc). pose proof (digit_value_bounds e He).
  lia.
Qed.

(** X1: [_extract_year] gives the number written by the first four
    digits in a row of the text of the release date, a number from 0 to
    9999, and nothing when the page has no release date or its text has
    no four digits in a row. *)
Theorem extract_year_first_four_digits (soup : DetailPage.Regions) :
  match DetailPage._extract_year soup with
  | Some year =>
      exists text pre d post,
        DetailPage.releasedate soup = Some text
        /\ Builtins.first_window text pre d post
        /\ year = int d /\ (0 <= year <= 9999)%Z
  | None =>
      DetailPage.releasedate soup = None
      \/ exists text,
           DetailPage.releasedate soup = Some text
           /\ Builtins.no_window text
  end.
Proof.
  unfold DetailPage._extract_year.
  destruct (DetailPage.releasedate soup) as [text|]; [|by left].
  pose proof (re_search_4digits_sound text) as H.
  destruct (Builtins.re_search_4digits text) as [m|].
  - destruct H as (pre & post & Hwin). exists text, pre, m, post.
    split; [done|]. split; [done|]. split; [done|].
    destruct Hwin as [(_ & Hlen & Hd) _]. by apply int_four_digits.
  - right. by exists text.
Qed.

(** ** The names of the cast *)

Lemma rstrip_cons c s :
  rstrip (String c s)
  = match rstrip s with
    | EmptyString => if is_space c then EmptyString else String c EmptyString
    | r => String c r
    end.
Proof. done. Qed.

Lemma rstrip_idempotent s : rstrip (rstrip s) = rstrip s.
Proof.
  induction s as [|c s IH]; [done|]. rewrite rstrip_cons.
  destruct (rstrip s) as [|d r] eqn:Hr.
  - destruct (is_space c) eqn:Hc; [done|]. by rewrite rstrip_cons, Hc.
  - by rewrite rstrip_cons, IH.
Qed.

Lemma lstrip_head s :
  lstrip s = EmptyString
  \/ exists c r, lstrip s = String c r /\ is_space c = false.
Proof.
  induction s as [|c s IH]; simpl; [by left|].
  destruct (is_space c) eqn:Hc; [done|]. right. by exists c, s.
Qed.

Lemma strip_idempotent s : strip (strip s) = strip s.
Proof.
  unfold strip.
  assert (lstrip (rstrip (lstrip s)) = rstrip (lstrip s)) as ->;
    [|apply rstrip_idempotent].
  destruct (lstrip_head s) as [->|(c & r & -> & Hc)]; [done|].
  rewrite rstrip_cons. destruct (rstrip r); rewrite ?Hc; simpl; by rewrite Hc.
Qed.

(** X2: [_extract_actors] gives no entry for a page without cast
    section; each of the first 3 cast items that has an actor link gives
    an entry, at the index of the item, whatever the text of the link
    (a blank text gives an entry with an empty name); and the name of
    every entry is stripped of the white space around it. *)
Theorem extract_actors_complete soup movie_title :
  let actors := ImdbTopBsSpider._extract_actors soup movie_title in
  (Bs4.title_cast soup = None -> actors = [])
  /\ (forall cast_items (i : nat) div a_text,
        Bs4.title_cast soup = Some cast_items -> (i < 3)%nat ->
        cast_items !! i = Some div ->
        Bs4.actor_link div = Some a_text ->
        {| ImdbTopBsSpider.movie_title := movie_title;
           ImdbTopBsSpider.actor_name := strip a_text;
           ImdbTopBsSpider.position_order := Z.of_nat (S i) |} ∈ actors)
  /\ (forall a, a ∈ actors ->
        strip (ImdbTopBsSpider.actor_name a) = ImdbTopBsSpider.actor_name a).
Proof.
  intros actors. subst actors. split; [|split].
  - unfold ImdbTopBsSpider._extract_actors. by intros ->.
  - intros cast_items i div a_text Hcast Hi Hdiv Hlink.
    rewrite extract_actors_omap, Hcast. simpl.
    apply list_elem_of_omap. exists (Z.of_nat (S i), div). split.
    + apply list_elem_of_lookup. exists i.
      rewrite enumerate_lookup, lookup_take_lt by done. rewrite Hdiv. simpl.
      do 2 f_equal. lia.
    + simpl. by rewrite Hlink.
  - intros a Ha. rewrite extract_actors_omap in Ha.
    apply entry_origin in Ha as (i & div & a_text & _ & _ & ->).
    simpl. apply strip_idempotent.
Qed.

Lemma extract_actors_complete_witness :
  {| ImdbTopBsSpider.movie_title := "The Shawshank Redemption";
     ImdbTopBsSpider.actor_name := "Tim Robbins";
     ImdbTopBsSpider.position_order := 1 |}
    ∈ ImdbTopBsSpider._extract_actors Tenths.unnamed_second
        "The Shawshank Redemption"
  /\ ImdbTopBsSpider._extract_actors
       {| Bs4.scripts := []; Bs4.title_cast := None |} "Heat" = []
  /\ strip "Tim Robbins" = "Tim Robbins"%string.
Proof.
  split; [|split].
  - pose proof (extract_actors_complete Tenths.unnamed_second
                  "The Shawshank Redemption") as (_ & H & _).
    exact (H _ 0%nat _ " Tim Robbins "%string eq_refl
             ltac:(lia) eq_refl eq_refl).
  - by apply extract_actors_complete.
  - pose proof (extract_actors_complete Tenths.unnamed_second
                  "The Shawshank Redemption") as (_ & _ & H).
    apply (H {| ImdbTopBsSpider.movie_title := "The Shawshank Redemption";
                ImdbTopBsSpider.actor_name := "Tim Robbins";
                ImdbTopBsSpider.position_order := 1 |}).
    simpl. apply list_elem_of_In. left. reflexivity.
Defined.

(** ** The detail page *)

Lemma grouped_digits_has_digit after_digit s digits :
  Builtins.grouped_digits after_digit s = Some digits ->
  s = EmptyString \/ Builtins.has_digit s = true.
Proof.
  destruct s as [|c r]; [by left|]. simpl. intros Hg. right.
  destruct (is_digit c); [done|]. simpl.
  destruct (Ascii.eqb c "_" && after_digit); [|done].
  destruct r as [|c' r']; [done|]. simpl.
  by destruct (is_digit c').
Qed.

Lemma has_digit_lstrip s :
  Builtins.has_digit (lstrip s) = true -> Builtins.has_digit s = true.
Proof.
  induction s as [|c s IH]; simpl; [done|].
  destruct (is_space c); [|done]. intros Hs. rewrite (IH Hs).
  apply orb_true_r.
Qed.

Lemma has_digit_rstrip s :
  Builtins.has_digit (rstrip s) = true -> Builtins.has_digit s = true.
Proof.
  induction s as [|c s IH]; [done|]. rewrite rstrip_cons.
  destruct (rstrip s) as [|d r].
  - destruct (is_space c); [done|]. simpl. rewrite orb_false_r.
    intros ->. done.
  - cbn [Builtins.has_digit] in *. intros Hc.
    apply orb_true_iff in Hc as [->|Hr]; [done|].
    rewrite (IH Hr). apply orb_true_r.
Qed.

(** A text without any digit is refused by [int]. *)
Lemma int_of_str_no_digit s :
  Builtins.has_digit s = false -> Builtins.int_of_str s = Raise ValueError.
Proof.
  intros Hs. unfold Builtins.int_of_str.
  assert (Hstrip : Builtins.has_digit (strip s) = false).
  { destruct (Builtins.has_digit (strip s)) eqn:Hd; [|done].
    apply has_digit_rstrip, has_digit_lstrip in Hd. congruence. }
  assert (Hbody : forall negative body,
            Builtins.has_digit body = false ->
            match Builtins.grouped_digits false body with
            | Some digits =>
                n ← int_of_digits digits;
                Ok (if negative : bool then - n else n)%Z
            | None => Raise ValueError
            end = Raise ValueError).
  { intros negative body Hb.
    destruct (Builtins.grouped_digits false body) as [digits|] eqn:Hg;
      [|done].
    destruct (grouped_digits_has_digit _ _ _ Hg) as [->|Hd];
      [done|congruence]. }
  destruct (strip s) as [|c r]; [by apply (Hbody false)|].
  simpl in Hstrip. apply orb_false_iff in Hstrip as [Hc Hr].
  destruct (Ascii.eqb_spec c "-") as [->|Hminus]; [exact (Hbody true r Hr)|].
  destruct (Ascii.eqb_spec c "+") as [->|Hplus]; [exact (Hbody false r Hr)|].
  assert (Builtins.has_digit (String c r) = false) as Hcr
    by (simpl; by rewrite Hc, Hr).
  pose proof (Hbody false (String c r) Hcr) as Hgoal.
  destruct c as [[] [] [] [] [] [] [] []]; try exact Hgoal; done.
Qed.

Section ParseMovie.
Context `{PyFloat}.

Lemma extract_actors_length soup movie_title :
  (length (ImdbTopBsSpider._extract_actors soup movie_title) <= 3)%nat.
Proof.
  rewrite extract_actors_omap.
  etrans; [apply omap_entry_length|].
  rewrite enumerate_length, length_take. lia.
Qed.

Lemma extract_actors_title soup movie_title a :
  a ∈ ImdbTopBsSpider._extract_actors soup movie_title ->
  ImdbTopBsSpider.movie_title a = movie_title.
Proof.
  rewrite extract_actors_omap. intros Ha.
  by apply entry_origin in Ha as (i & div & a_text & _ & _ & ->).
Qed.

End ParseMovie.

Section ParseMovieFacts.
Context `{PyFloat}.

(** X3: when [parse_movie] yields, it yields the movie first and then at
    most 3 actors, each with the title of the movie, the title being the
    one that came with the request and the year the one of the release
    date; an exception leaves it before the first item. *)
Theorem parse_movie_yields response regions items :
  DetailPage.parse_movie response regions = DetailPage.Yielded items ->
  exists title movie cast,
    Scrapy.response_meta response !! "title" = Some (VStr title)
    /\ items = Items.Movie movie :: (Items.Actor <$> cast)
    /\ (length cast <= 3)%nat
    /\ Items.title movie = Some title
    /\ Items.year movie = DetailPage._extract_year regions
    /\ Forall (λ a, Items.movie_title a = Some title
                    /\ exists p, Items.position_order a = Some p
                                 /\ (1 <= p <= 3)%Z) cast.
Proof.
  unfold DetailPage.parse_movie. intros Hyield.
  destruct (match DetailPage.metacritic_score_box regions with
            | Some text => Some <$> Builtins.int_of_str (strip text)
            | None => Ok None
            end) as [metascore|]; [|done].
  destruct (Scrapy.response_meta response !! "title") as [[]|]; try done.
  rename s into title.
  destruct (Scrapy.response_meta response !! "duration_iso") as [dur|];
    [|done].
  destruct (DetailPage.duration_of dur) as [duration_min|]; [|done].
  destruct (Scrapy.response_meta response !! "rating") as [rating|]; [|done].
  destruct (match rating with
            | VNone => Some None
            | VFloat f => Some (Some f)
            | _ => None
            end) as [r|]; [|done].
  injection Hyield as <-.
  eexists title, _,
    ((λ actor,
        {| Items.movie_title := Some (ImdbTopBsSpider.movie_title actor);
           Items.actor_name := Some (ImdbTopBsSpider.actor_name actor);
           Items.position_order :=
             Some (ImdbTopBsSpider.position_order actor) |})
       <$> ImdbTopBsSpider._extract_actors (Scrapy.soup response) title).
  split; [done|]. split.
  { f_equal. rewrite <- list_fmap_compose. done. }
  split; [rewrite length_fmap; apply extract_actors_length|].
  split; [done|]. split; [done|].
  apply Forall_fmap, Forall_forall. intros a Ha. simpl. split.
  - by rewrite (extract_actors_title _ _ _ Ha).
  - eexists. split; [done|].
    rewrite extract_actors_omap in Ha.
    apply entry_origin in Ha as (i & div & a_text & Hi & _ & ->). simpl.
    apply lookup_take_Some in Hi as [_ Hi]. lia.
Qed.

(** X4: when the metascore box of the page shows a text without any
    digit, [parse_movie] raises [ValueError] whatever came with the
    request: no item is yielded, not even the movie. *)
Theorem parse_movie_bad_metascore response regions text :
  DetailPage.metacritic_score_box regions = Some text ->
  Builtins.has_digit text = false ->
  DetailPage.parse_movie response regions = DetailPage.Raised ValueError.
Proof.
  intros Hbox Hdigit. unfold DetailPage.parse_movie. rewrite Hbox.
  rewrite int_of_str_no_digit; [done|].
  destruct (Builtins.has_digit (strip text)) eqn:Hd; [|done].
  apply has_digit_rstrip, has_digit_lstrip in Hd. congruence.
Qed.

End ParseMovieFacts.

Lemma parse_movie_yields_witness :
  exists items title movie cast,
    DetailPage.parse_movie Samples.detail_response Samples.regions
    = DetailPage.Yielded items
    /\ Scrapy.response_meta Samples.detail_response !! "title"
       = Some (VStr title)
    /\ items = Items.Movie movie :: (Items.Actor <$> cast)
    /\ (length cast <= 3)%nat
    /\ Items.title movie = Some title.
Proof.
  eexists.
  destruct (parse_movie_yields Samples.detail_response Samples.regions _
              eq_refl)
    as (title & movie & cast & Htitle & Hitems & Hlen & Hmovie & _).
  exists title, movie, cast. split; [reflexivity|]. by repeat split.
Defined.

Lemma parse_movie_bad_metascore_witness :
  DetailPage.parse_movie Samples.detail_response Samples.regions_tbd
  = DetailPage.Raised ValueError.
Proof.
  by apply (parse_movie_bad_metascore Samples.detail_response
              Samples.regions_tbd "tbd").
Defined.

(** ** From the list to the detail *)

Section Requests.
Context `{PyFloat}.
Variable json_loads : string -> option value.
Variable urljoin : string -> string -> result string.

(** What a request for a detail page is made of. *)
Lemma detail_request_inv response elem user_agent draw request :
  ImdbTopBsSpider.detail_request urljoin response elem user_agent draw
  = Ok request ->
  exists movie title rating duration_iso agent,
    getitem elem "item" = Ok movie
    /\ getitem movie "name" = Ok title
    /\ get movie "duration" = Ok duration_iso
    /\ (rating = VNone \/ exists f, rating = VFloat f)
    /\ Scrapy.meta request
       = <["title" := title]>
           (<["rating" := rating]> (<["duration_iso" := duration_iso]> ∅))
    /\ Scrapy.headers request = <["User-Agent" := agent]> ∅
    /\ Scrapy.callback request = Scrapy.parse_movie_cb
    /\ Scrapy.priority request = 0%Z
    /\ Scrapy.dont_filter request = false.
Proof.
  intros Hreq.
  apply detail_request_entry in Hreq
    as (movie & title & rating & movie_url & u & ua' & agent & Hitem & Hname
        & Hurl & Hu & Htarget & Hrating & _ & Hagent & Hmeta & Hheaders
        & Hcallback & Hpriority & Hfilter).
  exists (VDict movie), title, rating, (default VNone (movie !! "duration")),
    agent.
  split; [done|]. split; [simpl; by rewrite Hname|]. split; [done|].
  split; [|done].
  destruct (movie !! "aggregateRating") as [aggregate|]; [right|by left].
  destruct Hrating as (rating_value & f & _ & _ & ->). by exists f.
Qed.

(** Every request that [parse] yields was built by a turn of its loop. *)
Lemma parse_request_origin response user_agent draw request :
  request ∈ ImdbTopBsSpider.requests
              (ImdbTopBsSpider.parse json_loads urljoin response
                 user_agent draw) ->
  exists elem (i : nat),
    ImdbTopBsSpider.detail_request urljoin response elem (user_agent i)
      (draw i) = Ok request.
Proof.
  unfold ImdbTopBsSpider.parse.
  destruct (List.find _ _) as [tag|]; [|by intros ?%elem_of_nil].
  destruct (Bs4.script_string tag) as [text|]; [|by intros ?%elem_of_nil].
  destruct (json_loads text) as [document|]; [|by intros ?%elem_of_nil].
  destruct (getitem document "itemListElement" ≫= slice_to 50)
    as [items|]; [|by intros ?%elem_of_nil].
  pose proof (detail_requests_in_order urljoin response user_agent draw
                (elements items) 0) as Horder.
  destruct (ImdbTopBsSpider.detail_requests _ _ _ _ 0 (elements items))
    as [rs e].
  destruct (Horder _ _ eq_refl) as (Hith & _). simpl.
  intros [j Hj]%list_elem_of_lookup.
  destruct (Hith _ _ Hj) as (elem & _ & Hturn). by exists elem, j.
Qed.

(** X5: every request that [parse] yields goes to [parse_movie], carries
    in its [meta] the three entries that [parse_movie] reads and no
    other, the rating being a float or [None], has its User-Agent
    header set, and has priority 0. *)
Theorem parse_requests_shape response user_agent draw :
  Forall
    (λ request,
       Scrapy.callback request = Scrapy.parse_movie_cb
       /\ dom (Scrapy.meta request)
          = ({[ "title"; "rating"; "duration_iso" ]} : gset string)
       /\ (Scrapy.meta request !! "rating" = Some VNone
           \/ exists f, Scrapy.meta request !! "rating" = Some (VFloat f))
       /\ is_Some (Scrapy.headers request !! "User-Agent")
       /\ Scrapy.priority request = 0%Z
       /\ Scrapy.dont_filter request = false)
    (ImdbTopBsSpider.requests
       (ImdbTopBsSpider.parse json_loads urljoin response user_agent draw)).
Proof.
  apply Forall_forall. intros request Hin.
  apply parse_request_origin in Hin as (elem & i & Hturn).
  apply detail_request_inv in Hturn
    as (movie & title & rating & duration_iso & agent & _ & _ & _
        & Hrating & -> & -> & -> & -> & ->).
  split; [done|]. split.
  { rewrite !dom_insert_L, dom_empty_L. set_solver. }
  split.
  { rewrite lookup_insert_ne, lookup_insert_eq by done.
    destruct Hrating as [->|[f ->]]; [by left|right; by exists f]. }
  split; [|done]. rewrite lookup_insert_eq. by eexists.
Qed.

(** X6: the identity that [parse] gave to a request is not changed by
    [RandomUserAgentMiddleware]: with its basic list, and with its
    primary source when that gives an identity, [process_request]
    returns the request as it is. *)
Theorem parse_identity_kept response user_agent draw request :
  request ∈ ImdbTopBsSpider.requests
              (ImdbTopBsSpider.parse json_loads urljoin response
                 user_agent draw) ->
  (forall exc draw',
     RandomUserAgentMiddleware.process_request
       (RandomUserAgentMiddleware.__init__ (Raise exc)).1 request draw'
     = Ok request)
  /\ (forall ua draw' agent,
        FakeUseragent.random ua draw' = Ok agent ->
        RandomUserAgentMiddleware.process_request
          (RandomUserAgentMiddleware.__init__ (Ok ua)).1 request draw'
        = Ok request).
Proof.
  intros Hin. apply parse_request_origin in Hin as (elem & i & Hturn).
  apply detail_request_inv in Hturn
    as (_ & _ & _ & _ & agent0 & _ & _ & _ & _ & _ & Hheaders & _).
  assert (Hkept : forall agent,
            RandomUserAgentMiddleware.setdefault_header "User-Agent"
              agent request = request).
  { intros agent. unfold RandomUserAgentMiddleware.setdefault_header.
    by rewrite Hheaders, lookup_insert_eq. }
  split.
  - intros exc draw'.
    destruct (random_user_agent_fallback exc request draw')
      as (agent & _ & ->).
    by rewrite Hkept.
  - intros ua draw' agent Hagent.
    unfold RandomUserAgentMiddleware.process_request. simpl.
    rewrite Hagent. simpl. by rewrite Hkept.
Qed.

End Requests.

Section ListToDetail.
Context `{PyFloat}.
Variable json_loads : string -> option value.
Variable urljoin : string -> string -> result string.

(** X7: [parse_movie], run on a response whose [meta] has the title,
    the rating and the duration that [parse] put on the request (and
    whatever else), finds in [meta] all that it reads: when the name of
    the movie in the listing is a string, its duration a string or
    absent, and the metascore box is absent or shows an integer, it
    yields the movie with the title and the rating of the listing and
    the duration in minutes, then the cast of the page, or raises what
    the conversion of the duration raises. *)
Theorem parse_then_parse_movie response user_agent draw request
    response' regions title duration_iso :
  request ∈ ImdbTopBsSpider.requests
              (ImdbTopBsSpider.parse json_loads urljoin response
                 user_agent draw) ->
  (forall key : string,
     key = "title"%string \/ key = "rating"%string
     \/ key = "duration_iso"%string ->
     Scrapy.response_meta response' !! key = Scrapy.meta request !! key) ->
  Scrapy.meta request !! "title" = Some (VStr title) ->
  Scrapy.meta request !! "duration_iso" = Some duration_iso ->
  (duration_iso = VNone \/ exists s, duration_iso = VStr s) ->
  (DetailPage.metacritic_score_box regions = None
   \/ exists text n,
        DetailPage.metacritic_score_box regions = Some text
        /\ Builtins.int_of_str (strip text) = Ok n) ->
  match
    ImdbTopBsSpider._iso_to_minutes
      match duration_iso with
      | VStr s => Some s
      | _ => None
      end
  with
  | Ok duration =>
      exists movie,
        DetailPage.parse_movie response' regions
        = DetailPage.Yielded
            (Items.Movie movie
             :: (DetailPage.actor_item
                   <$> ImdbTopBsSpider._extract_actors (Scrapy.soup response')
                         title))
        /\ Items.title movie = Some title
        /\ Items.year movie = DetailPage._extract_year regions
        /\ Items.rating movie
           = match Scrapy.meta request !! "rating" with
             | Some (VFloat f) => Some f
             | _ => None
             end
        /\ Items.duration movie = duration
  | Raise exc => DetailPage.parse_movie response' regions = DetailPage.Raised exc
  end.
Proof.
  intros Hin Hmeta Htitle Hdur Hdur_type Hbox.
  assert (Hrating : Scrapy.meta request !! "rating" = Some VNone
                    \/ exists f,
                         Scrapy.meta request !! "rating" = Some (VFloat f)).
  { apply parse_request_origin in Hin as (elem & i & Hturn).
    apply detail_request_inv in Hturn
      as (movie & title' & rating & duration_iso' & agent & _ & _ & _
          & Hrating & -> & _).
    rewrite lookup_insert_ne, lookup_insert_eq by done.
    destruct Hrating as [->|[f ->]]; [by left|right; by exists f]. }
  unfold DetailPage.parse_movie.
  rewrite (Hmeta "title"), (Hmeta "duration_iso"), (Hmeta "rating") by auto.
  rewrite Htitle, Hdur.
  assert (exists metascore,
            match DetailPage.metacritic_score_box regions with
            | Some text => Some <$> Builtins.int_of_str (strip text)
            | None => Ok None
            end = Ok metascore) as [metascore ->].
  { destruct Hbox as [->|(text & n & -> & ->)]; by eexists. }
  assert (DetailPage.duration_of duration_iso
          = ImdbTopBsSpider._iso_to_minutes
              match duration_iso with
              | VStr s => Some s
              | _ => None
              end) as ->
    by (by destruct Hdur_type as [->|[s ->]]).
  destruct (ImdbTopBsSpider._iso_to_minutes _) as [duration|exc]; [|done].
  destruct Hrating as [->|[f ->]]; eexists; by repeat split.
Qed.

End ListToDetail.

Lemma parse_identity_kept_witness :
  exists request,
    ImdbTopBsSpider.requests
      (ImdbTopBsSpider.parse Tenths.json_loads Tenths.urljoin
         (Tenths.index_page "ItemList 2") (λ _, Ok Tenths.browser)
         (λ _, 0%nat)) !! 1%nat = Some request
    /\ RandomUserAgentMiddleware.process_request
         (RandomUserAgentMiddleware.__init__ (Raise FakeUserAgentError)).1
         request 3 = Ok request
    /\ RandomUserAgentMiddleware.process_request
         (RandomUserAgentMiddleware.__init__ (Ok Tenths.browser)).1
         request 3 = Ok request.
Proof.
  eexists. split; [reflexivity|].
  match goal with
  | |- RandomUserAgentMiddleware.process_request _ ?request _ = _ /\ _ =>
      destruct (parse_identity_kept Tenths.json_loads Tenths.urljoin
                  (Tenths.index_page "ItemList 2") (λ _, Ok Tenths.browser)
                  (λ _, 0%nat) request) as [Hfallback Hprimary]
  end.
  { apply list_elem_of_lookup. exists 1%nat. reflexivity. }
  split; [apply Hfallback|]. by eapply Hprimary.
Defined.

Lemma parse_then_parse_movie_witness :
  exists request movie,
    ImdbTopBsSpider.requests
      (ImdbTopBsSpider.parse Tenths.json_loads Tenths.urljoin
         (Tenths.index_page "ItemList 2") (λ _, Ok Tenths.browser)
         (λ _, 0%nat)) !! 1%nat = Some request
    /\ Scrapy.response_meta Samples.downloaded_response <> Scrapy.meta request
    /\ DetailPage.parse_movie Samples.downloaded_response Samples.regions
       = DetailPage.Yielded
           (Items.Movie movie
            :: (DetailPage.actor_item
                  <$> ImdbTopBsSpider._extract_actors Tenths.unnamed_second
                        "Movie 2"))
    /\ Items.duration movie = Some 142%Z.
Proof.
  refine (ex_intro _ ?[request] _).
  pose proof (parse_then_parse_movie Tenths.json_loads Tenths.urljoin
                (Tenths.index_page "ItemList 2") (λ _, Ok Tenths.browser)
                (λ _, 0%nat) ?request Samples.downloaded_response
                Samples.regions "Movie 2" (VStr "PT2H22M")) as Hyield.
  destruct Hyield as (movie & Hyield & _ & _ & _ & Hduration).
  - apply list_elem_of_lookup. exists 1%nat. reflexivity.
  - intros key [-> | [-> | ->]]; reflexivity.
  - reflexivity.
  - reflexivity.
  - right. by eexists.
  - right. by exists " 82 "%string, 82%Z.
  - exists movie. split; [reflexivity|]. split.
    + intros Heq. apply (f_equal (λ m, m !! "depth")) in Heq.
      discriminate Heq.
    + split; [exact Hyield|]. exact Hduration.
Defined.

(** ** The rotation of proxies *)

Section Proxies.
Context `{PyFloat}.

(** What [_set_proxy] does: nothing, or a proxy of the pool is put on
    the request and becomes the current one. *)
Lemma set_proxy_cases (self : MixedProxyMiddleware.t) request draw public_ip :
  exists self' request' events,
    MixedProxyMiddleware._set_proxy self request draw public_ip
    = Ok (self', request', events)
    /\ MixedProxyMiddleware.proxies self' = MixedProxyMiddleware.proxies self
    /\ MixedProxyMiddleware.max_retry_times self'
       = MixedProxyMiddleware.max_retry_times self
    /\ MixedProxyMiddleware.priority_adjust self'
       = MixedProxyMiddleware.priority_adjust self
    /\ ((self' = self /\ request' = request /\ events = []
         /\ (MixedProxyMiddleware.proxies self = []
             \/ EmptyString ∈ MixedProxyMiddleware.proxies self))
        \/ exists p,
             MixedProxyMiddleware.proxies self
               !! (draw `mod` length (MixedProxyMiddleware.proxies self))%nat
             = Some p
             /\ p <> EmptyString
             /\ request' = MixedProxyMiddleware.set_meta "proxy" (VStr p) request
             /\ MixedProxyMiddleware.current_proxy self' = Some p).
Proof.
  unfold MixedProxyMiddleware._set_proxy, MixedProxyMiddleware._choose_proxy.
  destruct (MixedProxyMiddleware.proxies self) as [|p0 pool] eqn:Hpool.
  { simpl. exists self, request, []. rewrite ?Hpool. repeat split.
    left. repeat split. by left. }
  destruct (random_choice_elem_of draw (p0 :: pool)) as (p & Hchoice & Hin);
    [done|].
  rewrite Hchoice. simpl.
  assert (Hlookup : (p0 :: pool) !! (draw `mod` length (p0 :: pool))%nat
                    = Some p).
  { unfold random_choice in Hchoice.
    destruct ((p0 :: pool) !! _) as [x|]; [|done]. by injection Hchoice as ->. }
  destruct (String.eqb_spec p EmptyString) as [->|Hne].
  { exists self, request, []. rewrite ?Hpool. repeat split.
    left. repeat split. by right. }
  case_bool_decide as Hcurrent.
  - eexists self, _, _. split; [done|]. rewrite ?Hpool. repeat split.
    right. exists p. by repeat split.
  - eexists _, _, _. split; [done|]. simpl. rewrite ?Hpool. repeat split.
    right. exists p. by repeat split.
Qed.

Lemma set_meta_other key key' v request :
  key' <> key ->
  Scrapy.meta (MixedProxyMiddleware.set_meta key v request) !! key'
  = Scrapy.meta request !! key'.
Proof. intros Hne. simpl. by rewrite lookup_insert_ne. Qed.

(** What [_set_proxy] does with the proxy drawn. *)
Lemma set_proxy_drawn (self : MixedProxyMiddleware.t) request draw public_ip p :
  MixedProxyMiddleware.proxies self
    !! (draw `mod` length (MixedProxyMiddleware.proxies self))%nat = Some p ->
  MixedProxyMiddleware._set_proxy self request draw public_ip
  = if String.eqb p EmptyString then Ok (self, request, [])
    else
      let request' := MixedProxyMiddleware.set_meta "proxy" (VStr p) request in
      if bool_decide (Some p = MixedProxyMiddleware.current_proxy self)
      then Ok (self, request', [Logging.AssigningProxy p])
      else
        Ok ({| MixedProxyMiddleware.max_retry_times :=
                 MixedProxyMiddleware.max_retry_times self;
               MixedProxyMiddleware.priority_adjust :=
                 MixedProxyMiddleware.priority_adjust self;
               MixedProxyMiddleware.proxies := MixedProxyMiddleware.proxies self;
               MixedProxyMiddleware.current_proxy := Some p |},
            request',
            [ Logging.AssigningProxy p;
              match public_ip with
              | Ok ip => Logging.NewPublicIp ip p
              | Raise _ => Logging.ProxyChanged p
              end ]).
Proof.
  intros Hp.
  unfold MixedProxyMiddleware._set_proxy, MixedProxyMiddleware._choose_proxy,
    random_choice.
  destruct (MixedProxyMiddleware.proxies self) as [|p0 pool] eqn:Hpool;
    [by rewrite lookup_nil in Hp|].
  by rewrite Hp.
Qed.

(** X8: [process_request] never raises, and changes no entry of [meta]
    but the proxy.  It leaves a request that has a proxy, and the
    middleware, as they are, and so it does when the pool is empty; for
    a request without proxy the entry of the pool at the place drawn is
    put on the request and becomes the current proxy, unless it is the
    empty string, for which nothing is done; so with a pool that is not
    empty and holds no empty string, every request without proxy gets a
    proxy of the pool. *)
Theorem process_request_assigns_from_pool (self : MixedProxyMiddleware.t)
    request draw public_ip :
  (is_Some (Scrapy.meta request !! "proxy") ->
   MixedProxyMiddleware.process_request self request draw public_ip
   = Ok (self, request, []))
  /\ (MixedProxyMiddleware.proxies self = [] ->
      MixedProxyMiddleware.process_request self request draw public_ip
      = Ok (self, request, []))
  /\ (forall p,
        Scrapy.meta request !! "proxy" = None ->
        MixedProxyMiddleware.proxies self
          !! (draw `mod` length (MixedProxyMiddleware.proxies self))%nat
        = Some p ->
        if String.eqb p EmptyString
        then MixedProxyMiddleware.process_request self request draw public_ip
             = Ok (self, request, [])
        else exists self' events,
               MixedProxyMiddleware.process_request self request draw public_ip
               = Ok (self', MixedProxyMiddleware.set_meta "proxy" (VStr p) request,
                     events)
               /\ MixedProxyMiddleware.current_proxy self' = Some p
               /\ MixedProxyMiddleware.proxies self'
                  = MixedProxyMiddleware.proxies self
               /\ MixedProxyMiddleware.max_retry_times self'
                  = MixedProxyMiddleware.max_retry_times self
               /\ MixedProxyMiddleware.priority_adjust self'
                  = MixedProxyMiddleware.priority_adjust self
               /\ head events = Some (Logging.AssigningProxy p))
  /\ (Scrapy.meta request !! "proxy" = None ->
      MixedProxyMiddleware.proxies self <> [] ->
      EmptyString ∉ MixedProxyMiddleware.proxies self ->
      exists self' request' events p,
        MixedProxyMiddleware.process_request self request draw public_ip
        = Ok (self', request', events)
        /\ p ∈ MixedProxyMiddleware.proxies self
        /\ Scrapy.meta request' !! "proxy" = Some (VStr p)
        /\ MixedProxyMiddleware.current_proxy self' = Some p)
  /\ (exists self' request' events,
        MixedProxyMiddleware.process_request self request draw public_ip
        = Ok (self', request', events)
        /\ (forall key, key <> "proxy"%string ->
              Scrapy.meta request' !! key = Scrapy.meta request !! key)
        /\ Scrapy.url request' = Scrapy.url request
        /\ Scrapy.headers request' = Scrapy.headers request
        /\ Scrapy.callback request' = Scrapy.callback request).
Proof.
  assert (Hdrawn : forall p,
    Scrapy.meta request !! "proxy" = None ->
    MixedProxyMiddleware.proxies self
      !! (draw `mod` length (MixedProxyMiddleware.proxies self))%nat
    = Some p ->
    if String.eqb p EmptyString
    then MixedProxyMiddleware.process_request self request draw public_ip
         = Ok (self, request, [])
    else exists self' events,
           MixedProxyMiddleware.process_request self request draw public_ip
           = Ok (self', MixedProxyMiddleware.set_meta "proxy" (VStr p) request,
                 events)
           /\ MixedProxyMiddleware.current_proxy self' = Some p
           /\ MixedProxyMiddleware.proxies self'
              = MixedProxyMiddleware.proxies self
           /\ MixedProxyMiddleware.max_retry_times self'
              = MixedProxyMiddleware.max_retry_times self
           /\ MixedProxyMiddleware.priority_adjust self'
              = MixedProxyMiddleware.priority_adjust self
           /\ head events = Some (Logging.AssigningProxy p)).
  { intros p Hnone Hp. unfold MixedProxyMiddleware.process_request.
    rewrite Hnone, (set_proxy_drawn self request draw public_ip p Hp).
    destruct (String.eqb p EmptyString); [done|]. cbv zeta.
    case_bool_decide as Hcurrent; eexists _, _; (split; [done|]);
      by repeat split. }
  split; [|split; [|split; [exact Hdrawn|split]]].
  - intros [v Hv]. unfold MixedProxyMiddleware.process_request.
    by rewrite Hv.
  - intros Hpool. unfold MixedProxyMiddleware.process_request,
      MixedProxyMiddleware._set_proxy, MixedProxyMiddleware._choose_proxy.
    rewrite Hpool. by destruct (Scrapy.meta request !! "proxy").
  - intros Hnone Hpool Hblank.
    destruct (random_choice_elem_of draw (MixedProxyMiddleware.proxies self)
                Hpool) as (p & Hchoice & Hin).
    assert (Hp : MixedProxyMiddleware.proxies self
                   !! (draw `mod` length (MixedProxyMiddleware.proxies self))%nat
                 = Some p).
    { unfold random_choice in Hchoice.
      destruct (MixedProxyMiddleware.proxies self !! _) as [x|] eqn:Hx;
        rewrite ?Hx in Hchoice; congruence. }
    specialize (Hdrawn p Hnone Hp).
    destruct (String.eqb p EmptyString) eqn:Hp_blank.
    { apply String.eqb_eq in Hp_blank. by subst p. }
    rewrite ?Hp_blank in Hdrawn.
    destruct Hdrawn as (self' & events & Heq & Hcurrent & _).
    eexists self', _, events, p. split; [exact Heq|]. split; [done|].
    split; [|done]. simpl. by rewrite lookup_insert_eq.
  - unfold MixedProxyMiddleware.process_request.
    destruct (Scrapy.meta request !! "proxy") as [v|] eqn:Hproxy;
      [by eexists _, _, _|].
    destruct (set_proxy_cases self request draw public_ip)
      as (self' & request' & events & -> & _ & _ & _ & Hcases).
    exists self', request', events. split; [done|].
    destruct Hcases as [(_ & -> & _)|(p & _ & _ & -> & _)]; [done|].
    split; [|done]. intros key Hkey. by apply set_meta_other.
Qed.

(** X9: the current proxy is always a proxy of the pool: none after
    [__init__], and [process_request] and [process_exception] keep it
    so. *)
Theorem current_proxy_in_pool :
  let in_pool (self : MixedProxyMiddleware.t) : Prop :=
    MixedProxyMiddleware.current_proxy self = None
    \/ exists p, MixedProxyMiddleware.current_proxy self = Some p
                 /\ p ∈ MixedProxyMiddleware.proxies self in
  (forall settings, in_pool (MixedProxyMiddleware.__init__ settings).1)
  /\ (forall self request draw public_ip self' request' events,
        in_pool self ->
        MixedProxyMiddleware.process_request self request draw public_ip
        = Ok (self', request', events) ->
        in_pool self')
  /\ (forall self request exc draw public_ip self' request' events,
        in_pool self ->
        MixedProxyMiddleware.process_exception self request exc draw
          public_ip = Ok (self', request', events) ->
        in_pool self').
Proof.
  intros in_pool.
  assert (Hset : forall self request draw public_ip self' request' events,
            in_pool self ->
            MixedProxyMiddleware._set_proxy self request draw public_ip
            = Ok (self', request', events) ->
            in_pool self').
  { intros self request draw public_ip self' request' events Hinv Hset.
    destruct (set_proxy_cases self request draw public_ip)
      as (s & r & e & Heq & Hpool & _ & _ & Hcases).
    rewrite Heq in Hset. injection Hset as <- <- <-.
    destruct Hcases as [(-> & _)|(p & Hp & _ & _ & Hcur)]; [done|].
    right. exists p. split; [done|]. rewrite Hpool.
    by eapply list_elem_of_lookup_2. }
  split; [by left|]. split.
  - intros self request draw public_ip self' request' events Hinv.
    unfold MixedProxyMiddleware.process_request.
    destruct (Scrapy.meta request !! "proxy"); [by intros [= <- <- <-]|].
    by apply Hset.
  - intros self request exc draw public_ip self' request' events Hinv.
    unfold MixedProxyMiddleware.process_exception.
    destruct (MixedProxyMiddleware.is_connection_failure exc);
      [|by intros [= <- <- <-]].
    destruct (MixedProxyMiddleware._set_proxy self request draw public_ip)
      as [[[s r] e]|] eqn:Heq; [|done].
    simpl. intros [= <- <- <-]. by eapply Hset.
Qed.

End Proxies.

Section Failures.
Context `{PyFloat}.

(** X10: after a failure of the connection (time-out, refused),
    [process_exception] returns the request to be sent again with
    nothing changed but, possibly, its proxy: its count of retries and
    every other entry of [meta] are as before, so these failures do not
    use the budget of retries; any other exception is left to others. *)
Theorem process_exception_keeps_budget (self : MixedProxyMiddleware.t)
    request exc draw public_ip :
  (MixedProxyMiddleware.is_connection_failure exc = true ->
   exists self' request' events,
     MixedProxyMiddleware.process_exception self request exc draw public_ip
     = Ok (self', Some request',
           Logging.ProxyFailed (MixedProxyMiddleware.meta_proxy request) exc
             :: events)
     /\ (forall key, key <> "proxy"%string ->
           Scrapy.meta request' !! key = Scrapy.meta request !! key)
     /\ Scrapy.url request' = Scrapy.url request
     /\ Scrapy.headers request' = Scrapy.headers request
     /\ Scrapy.priority request' = Scrapy.priority request
     /\ Scrapy.dont_filter request' = Scrapy.dont_filter request
     /\ Scrapy.callback request' = Scrapy.callback request)
  /\ (MixedProxyMiddleware.is_connection_failure exc = false ->
      MixedProxyMiddleware.process_exception self request exc draw public_ip
      = Ok (self, None, [])).
Proof.
  unfold MixedProxyMiddleware.process_exception. split; intros ->; [|done].
  destruct (set_proxy_cases self request draw public_ip)
    as (self' & request' & events & -> & _ & _ & _ & Hcases).
  exists self', request', events. split; [done|].
  destruct Hcases as [(_ & -> & _)|(p & _ & _ & -> & _)]; [done|].
  split; [|done]. intros key Hkey. by apply set_meta_other.
Qed.

(** X11: the proxy that just failed is not set aside: for a request
    that failed through a proxy of the pool there is a draw with which
    [process_exception] sends it again through that same proxy. *)
Theorem failed_proxy_drawn_again (self : MixedProxyMiddleware.t) request exc p :
  MixedProxyMiddleware.is_connection_failure exc = true ->
  p ∈ MixedProxyMiddleware.proxies self -> p <> EmptyString ->
  MixedProxyMiddleware.meta_proxy request = Some p ->
  exists draw, forall public_ip,
    exists self' request' events,
      MixedProxyMiddleware.process_exception self request exc draw public_ip
      = Ok (self', Some request', events)
      /\ MixedProxyMiddleware.meta_proxy request' = Some p.
Proof.
  intros Hexc [i Hi]%list_elem_of_lookup Hne Hproxy. exists i.
  intros public_ip. unfold MixedProxyMiddleware.process_exception.
  rewrite Hexc.
  destruct (set_proxy_cases self request i public_ip)
    as (self' & request' & events & -> & _ & _ & _ & Hcases).
  eexists self', request', _. split; [done|].
  assert (Hmod : (i `mod` length (MixedProxyMiddleware.proxies self))%nat = i).
  { apply Nat.mod_small. by eapply lookup_lt_Some. }
  destruct Hcases as [(_ & -> & _)|(q & Hq & _ & -> & _)]; [done|].
  rewrite Hmod, Hi in Hq. injection Hq as <-.
  unfold MixedProxyMiddleware.meta_proxy. simpl. by rewrite lookup_insert_eq.
Qed.

(** One blocked response for a request that was sent again [count]
    times. *)
Lemma blocked_step (self : MixedProxyMiddleware.t) request response count :
  Scrapy.status response = 403%Z \/ Scrapy.status response = 429%Z ->
  Scrapy.meta request !! "max_retry_times" = None ->
  Scrapy.meta request !! "priority_adjust" = None ->
  Scrapy.meta_int request "retry_times" 0 = Ok count ->
  MixedProxyMiddleware.process_response self request response
  = if (count + 1 <=? MixedProxyMiddleware.max_retry_times self)%Z
    then
      Ok (inl {| Scrapy.url := Scrapy.url request;
                 Scrapy.callback := Scrapy.callback request;
                 Scrapy.meta :=
                   <["retry_times" := VInt (count + 1)]> (Scrapy.meta request);
                 Scrapy.headers := Scrapy.headers request;
                 Scrapy.priority :=
                   Scrapy.priority request
                   + MixedProxyMiddleware.priority_adjust self;
                 Scrapy.dont_filter := true |})
    else Ok (inr response).
Proof.
  intros Hstatus Hmax Hadjust Hcount.
  unfold MixedProxyMiddleware.process_response,
    MixedProxyMiddleware._retry, Scrapy.get_retry_request.
  rewrite bool_decide_eq_true_2 by done.
  assert (Hdefault : forall key dflt,
            Scrapy.meta request !! key = None ->
            Scrapy.meta_or_setting request key dflt = Ok dflt).
  { intros key dflt Hkey. unfold Scrapy.meta_or_setting. by rewrite Hkey. }
  rewrite (Hdefault _ _ Hmax), (Hdefault _ _ Hadjust).
  rewrite Hcount. cbn [mbind result_bind].
  by destruct (_ <=? _)%Z.
Qed.

End Failures.

Section Budget.
Context `{PyFloat}.
Variable self : MixedProxyMiddleware.t.
Variable request : Scrapy.Request.
Variable response : Scrapy.Response.
Hypothesis blocked :
  Scrapy.status response = 403%Z \/ Scrapy.status response = 429%Z.
Hypothesis first_attempt : Scrapy.meta request !! "retry_times" = None.
Hypothesis no_own_budget : Scrapy.meta request !! "max_retry_times" = None.
Hypothesis no_own_adjust : Scrapy.meta request !! "priority_adjust" = None.

(** The request as it is sent again for the [k]-th time. *)
Let again (k : Z) : Scrapy.Request :=
  {| Scrapy.url := Scrapy.url request;
     Scrapy.callback := Scrapy.callback request;
     Scrapy.meta := <["retry_times" := VInt k]> (Scrapy.meta request);
     Scrapy.headers := Scrapy.headers request;
     Scrapy.priority :=
       Scrapy.priority request + k * MixedProxyMiddleware.priority_adjust self;
     Scrapy.dont_filter := true |}.

Lemma blocked_first :
  MixedProxyMiddleware.process_response self request response
  = if (1 <=? MixedProxyMiddleware.max_retry_times self)%Z
    then Ok (inl (again 1)) else Ok (inr response).
Proof.
  rewrite (blocked_step self request response 0) by
    (try done; unfold Scrapy.meta_int; by rewrite first_attempt).
  change (0 + 1)%Z with 1%Z. destruct (_ <=? _)%Z; [|done].
  unfold again. do 3 f_equal. lia.
Qed.

Lemma blocked_again k :
  MixedProxyMiddleware.process_response self (again k) response
  = if (k + 1 <=? MixedProxyMiddleware.max_retry_times self)%Z
    then Ok (inl (again (k + 1))) else Ok (inr response).
Proof.
  rewrite (blocked_step self (again k) response k); try done.
  - destruct (_ <=? _)%Z; [|done]. unfold again. simpl.
    rewrite insert_insert_eq. do 3 f_equal. lia.
  - simpl. by rewrite lookup_insert_ne.
  - simpl. by rewrite lookup_insert_ne.
  - unfold Scrapy.meta_int. simpl. by rewrite lookup_insert_eq.
Qed.

Lemma blocked_times_again (m : nat) : forall k,
  (k <= MixedProxyMiddleware.max_retry_times self)%Z ->
  Runs.blocked_times self response m (again k)
  = if (k + Z.of_nat m <=? MixedProxyMiddleware.max_retry_times self)%Z
    then Ok (inl (again (k + Z.of_nat m))) else Ok (inr response).
Proof.
  induction m as [|m IH]; intros k Hk.
  - simpl. rewrite Z.add_0_r.
    by rewrite (proj2 (Z.leb_le _ _) Hk).
  - cbn [Runs.blocked_times]. rewrite blocked_again.
    destruct (Z.leb_spec (k + 1) (MixedProxyMiddleware.max_retry_times self))
      as [Hle|Hgt]; cbn [mbind result_bind].
    + rewrite IH by done.
      replace (k + 1 + Z.of_nat m)%Z with (k + Z.of_nat (S m))%Z by lia.
      done.
    + destruct (Z.leb_spec (k + Z.of_nat (S m))
                  (MixedProxyMiddleware.max_retry_times self)); [lia|done].
Qed.

Lemma blocked_times_fresh (n : nat) :
  Runs.blocked_times self response (S n) request
  = if (Z.of_nat (S n) <=? MixedProxyMiddleware.max_retry_times self)%Z
    then Ok (inl (again (Z.of_nat (S n)))) else Ok (inr response).
Proof.
  cbn [Runs.blocked_times]. rewrite blocked_first.
  destruct (Z.leb_spec 1 (MixedProxyMiddleware.max_retry_times self))
    as [Hle|Hgt]; cbn [mbind result_bind].
  - rewrite blocked_times_again by done.
    replace (1 + Z.of_nat n)%Z with (Z.of_nat (S n)) by lia. done.
  - destruct (Z.leb_spec (Z.of_nat (S n))
                (MixedProxyMiddleware.max_retry_times self)); [lia|done].
Qed.

End Budget.

(** X12: a request that is blocked (403 or 429) every time is sent
    again as many times as the budget of retries says and no more: for
    every n from 1 to the budget the n-th block gives the request again,
    with its count of retries at n, its priority adjusted n times and
    the duplicate filter off, the rest of [meta] (its proxy among it)
    untouched; the block after the budget is spent passes the response
    on. *)
Theorem retry_budget `{PyFloat} (self : MixedProxyMiddleware.t) request
    response :
  Scrapy.status response = 403%Z \/ Scrapy.status response = 429%Z ->
  Scrapy.meta request !! "retry_times" = None ->
  Scrapy.meta request !! "max_retry_times" = None ->
  Scrapy.meta request !! "priority_adjust" = None ->
  (0 <= MixedProxyMiddleware.max_retry_times self)%Z ->
  (forall n : nat,
     (1 <= Z.of_nat n <= MixedProxyMiddleware.max_retry_times self)%Z ->
     exists again,
       Runs.blocked_times self response n request = Ok (inl again)
       /\ Scrapy.meta again !! "retry_times" = Some (VInt (Z.of_nat n))
       /\ Scrapy.priority again
          = (Scrapy.priority request
             + Z.of_nat n * MixedProxyMiddleware.priority_adjust self)%Z
       /\ Scrapy.dont_filter again = true
       /\ forall key, key <> "retry_times"%string ->
            Scrapy.meta again !! key = Scrapy.meta request !! key)
  /\ Runs.blocked_times self response
       (S (Z.to_nat (MixedProxyMiddleware.max_retry_times self))) request
     = Ok (inr response).
Proof.
  intros Hblocked Hfirst Hmax Hadjust Hbudget. split.
  - intros [|n] Hn; [lia|].
    rewrite (blocked_times_fresh self request response) by done.
    rewrite (proj2 (Z.leb_le _ _) (proj2 Hn)).
    eexists. split; [done|]. simpl. rewrite lookup_insert_eq.
    repeat split. intros key Hkey. by rewrite lookup_insert_ne.
  - rewrite (blocked_times_fresh self request response) by done.
    destruct (Z.leb_spec
                (Z.of_nat (S (Z.to_nat (MixedProxyMiddleware.max_retry_times self))))
                (MixedProxyMiddleware.max_retry_times self)); [lia|done].
Qed.

Lemma retry_budget_witness :
  (exists again,
     Runs.blocked_times (MixedProxyMiddleware.__init__ Tenths.settings).1
       (Tenths.blocked 429) 5 Tenths.routed_request = Ok (inl again)
     /\ Scrapy.meta again !! "retry_times" = Some (VInt 5)
     /\ Scrapy.priority again = (-5)%Z
     /\ Scrapy.meta again !! "proxy" = Some (VStr Tenths.proxy_1))
  /\ Runs.blocked_times (MixedProxyMiddleware.__init__ Tenths.settings).1
       (Tenths.blocked 429) 6 Tenths.routed_request
     = Ok (inr (Tenths.blocked 429)).
Proof.
  destruct (retry_budget (MixedProxyMiddleware.__init__ Tenths.settings).1
              Tenths.routed_request (Tenths.blocked 429))
    as [Hn Hspent]; try done; [by right|].
  split; [|exact Hspent].
  destruct (Hn 5%nat) as (again & Hagain & Htimes & Hpriority & _ & Hmeta);
    [simpl; lia|].
  exists again. split; [exact Hagain|]. split; [exact Htimes|].
  split; [exact Hpriority|]. by rewrite Hmeta.
Defined.

Lemma current_proxy_in_pool_witness :
  exists self' request' events,
    MixedProxyMiddleware.process_exception
      (MixedProxyMiddleware.__init__ Tenths.settings).1 Tenths.routed_request
      ConnectionRefusedError 1 (Ok "203.0.113.7"%string)
    = Ok (self', request', events)
    /\ (MixedProxyMiddleware.current_proxy self' = None
        \/ exists p, MixedProxyMiddleware.current_proxy self' = Some p
                     /\ p ∈ MixedProxyMiddleware.proxies self')
    /\ exists self'' request'' events',
         MixedProxyMiddleware.process_request self' Samples.fresh_request 2
           (Raise ConnectionLost) = Ok (self'', request'', events')
         /\ (MixedProxyMiddleware.current_proxy self'' = None
             \/ exists p, MixedProxyMiddleware.current_proxy self'' = Some p
                          /\ p ∈ MixedProxyMiddleware.proxies self'').
Proof.
  destruct (@current_proxy_in_pool Tenths.py_float)
    as (Hinit & Hrequest & Hexception).
  eexists _, _, _. split; [reflexivity|].
  assert (Hfirst : forall self' request' events,
            MixedProxyMiddleware.process_exception
              (MixedProxyMiddleware.__init__ Tenths.settings).1
              Tenths.routed_request ConnectionRefusedError 1
              (Ok "203.0.113.7"%string) = Ok (self', request', events) ->
            MixedProxyMiddleware.current_proxy self' = None
            \/ exists p, MixedProxyMiddleware.current_proxy self' = Some p
                         /\ p ∈ MixedProxyMiddleware.proxies self').
  { intros self' request' events.
    apply (Hexception _ _ _ _ _ _ _ _ (Hinit Tenths.settings)). }
  split; [by eapply Hfirst|].
  eexists _, _, _. split; [reflexivity|].
  eapply (Hrequest _ Samples.fresh_request 2%nat (Raise ConnectionLost));
    [by eapply Hfirst|reflexivity].
Defined.

Lemma process_exception_keeps_budget_witness :
  (exists self' request' events,
     MixedProxyMiddleware.process_exception
       (MixedProxyMiddleware.__init__ Tenths.settings).1
       Tenths.routed_request TimeoutError 1 (Raise ConnectionLost)
     = Ok (self', Some request', events)
     /\ Scrapy.meta request' !! "retry_times"
        = Scrapy.meta Tenths.routed_request !! "retry_times")
  /\ MixedProxyMiddleware.process_exception
       (MixedProxyMiddleware.__init__ Tenths.settings).1
       Tenths.routed_request ValueError 1 (Raise ConnectionLost)
     = Ok ((MixedProxyMiddleware.__init__ Tenths.settings).1, None, []).
Proof.
  split.
  - destruct (process_exception_keeps_budget
                (MixedProxyMiddleware.__init__ Tenths.settings).1
                Tenths.routed_request TimeoutError 1 (Raise ConnectionLost))
      as [Hfailure _].
    destruct (Hfailure eq_refl) as (self' & request' & events & Heq & Hmeta & _).
    eexists self', request', _. split; [exact Heq|]. by apply Hmeta.
  - by apply process_exception_keeps_budget.
Defined.

Lemma failed_proxy_drawn_again_witness :
  exists draw self' request' events,
    MixedProxyMiddleware.process_exception
      (MixedProxyMiddleware.__init__ Tenths.settings).1
      Tenths.routed_request TCPTimedOutError draw (Raise ConnectionLost)
    = Ok (self', Some request', events)
    /\ MixedProxyMiddleware.meta_proxy request' = Some Tenths.proxy_1.
Proof.
  destruct (failed_proxy_drawn_again
              (MixedProxyMiddleware.__init__ Tenths.settings).1
              Tenths.routed_request TCPTimedOutError Tenths.proxy_1)
    as [draw Hdraw]; try done.
  { simpl. apply list_elem_of_In. by left. }
  exists draw. apply Hdraw.
Defined.

(** ** Runs of the file sink *)

Section FileRuns.
Context `{Postgresql.Types}.

(** The file sink between [open_spider] and [close_spider]. *)
Let opened (base : string) (movies actors : list (list CsvExportPipeline.cell))
  : CsvExportPipeline.t :=
  {| CsvExportPipeline.base_path := base;
     CsvExportPipeline.movie_file :=
       Some {| CsvExportPipeline.rows := movies;
               CsvExportPipeline.closed := false |};
     CsvExportPipeline.actor_file :=
       Some {| CsvExportPipeline.rows := actors;
               CsvExportPipeline.closed := false |};
     CsvExportPipeline.movie_writer :=
       Some {| CsvExportPipeline.fieldnames := CsvExportPipeline.movie_fields |};
     CsvExportPipeline.actor_writer :=
       Some {| CsvExportPipeline.fieldnames := CsvExportPipeline.actor_fields |}
  |}.

Lemma csv_items_opened items : forall base movies actors,
  Runs.csv_items (opened base movies actors) items
  = Ok (opened base (movies ++ Runs.movie_rows items)
          (actors ++ Runs.actor_rows items)).
Proof.
  induction items as [|[m|a] items IH]; intros base movies actors.
  - simpl. by rewrite !app_nil_r.
  - cbn [Runs.csv_items].
    assert (CsvExportPipeline.process_item (opened base movies actors)
              (Items.Movie m)
            = Ok (opened base (movies ++ [Runs.movie_cells m]) actors)) as ->
      by reflexivity.
    cbn [mbind result_bind]. rewrite IH.
    unfold Runs.movie_rows, Runs.actor_rows. cbn [omap list_omap].
    by rewrite <- app_assoc.
  - cbn [Runs.csv_items].
    assert (CsvExportPipeline.process_item (opened base movies actors)
              (Items.Actor a)
            = Ok (opened base movies (actors ++ [Runs.actor_cells a]))) as ->
      by reflexivity.
    cbn [mbind result_bind]. rewrite IH.
    unfold Runs.movie_rows, Runs.actor_rows. cbn [omap list_omap].
    by rewrite <- app_assoc.
Qed.




(** X14: the file sink writes only between [open_spider] and
    [close_spider]: before it is opened an item is passed on without a
    trace, and after it is closed, whatever was written in between, an
    item makes [process_item] raise [ValueError], the files being left
    as they were. *)
Theorem csv_only_while_open (self : CsvExportPipeline.t)
    (items : list Items.Item) (item : Items.Item) :
  CsvExportPipeline.process_item
    (CsvExportPipeline.__init__ (CsvExportPipeline.base_path self)) item
  = Ok (CsvExportPipeline.__init__ (CsvExportPipeline.base_path self))
  /\ forall final,
       Runs.csv_items (CsvExportPipeline.open_spider self) items = Ok final ->
       CsvExportPipeline.process_item (CsvExportPipeline.close_spider final)
         item = Raise ValueError
       /\ CsvExportPipeline.persisted (CsvExportPipeline.close_spider final)
          = CsvExportPipeline.persisted final.
Proof.
  split; [by destruct item|].
  intros final.
  change (CsvExportPipeline.open_spider self)
    with (opened (CsvExportPipeline.base_path self)
            [CsvExportPipeline.CStr <$> CsvExportPipeline.movie_fields]
            [CsvExportPipeline.CStr <$> CsvExportPipeline.actor_fields]).
  rewrite csv_items_opened. intros [= <-]. by destruct item.
Qed.

End FileRuns.

Lemma csv_only_while_open_witness :
  exists final,
    Runs.csv_items
      (CsvExportPipeline.open_spider (CsvExportPipeline.__init__ "data"))
      [Items.Movie Tenths.shawshank; Items.Actor Tenths.robbins] = Ok final
    /\ CsvExportPipeline.process_item (CsvExportPipeline.close_spider final)
         (Items.Movie Tenths.heat) = Raise ValueError.
Proof.
  eexists. split; [reflexivity|].
  by apply (csv_only_while_open (CsvExportPipeline.__init__ "data")
              [Items.Movie Tenths.shawshank; Items.Actor Tenths.robbins]).
Defined.

(** ** Runs of the relational sink *)

Section RelationalRuns.
Context `{Postgresql.Types}.

(** The ways [_insert_actor] ends. *)
Lemma insert_actor_result (self : PostgresPipeline.t) item :
  PostgresPipeline._insert_actor self item
  = match PostgresPipeline.select_movie_id (Items.movie_title item) self with
    | None => (self, [Logging.MovieNotFound (Items.movie_title item)])
    | Some pelicula_id =>
        match PostgresPipeline.actor_row pelicula_id item
                (PostgresPipeline.actores_id_seq self) with
        | Raise exc =>
            (* the [id] is drawn once the values are converted *)
            ({| PostgresPipeline.committed := PostgresPipeline.committed self;
                PostgresPipeline.session := PostgresPipeline.committed self;
                PostgresPipeline.peliculas_id_seq :=
                  PostgresPipeline.peliculas_id_seq self;
                PostgresPipeline.actores_id_seq :=
                  PostgresPipeline.actores_id_seq self
                  + (if PostgresPipeline.actor_values pelicula_id item
                       is Ok _ then 1 else 0) |},
             [Logging.ActorInsertError exc])
        | Ok new =>
            if existsb (λ r, (peliculas.id r =? pelicula_id)%Z)
                 (PostgresPipeline.movies_table (PostgresPipeline.session self))
            then
              ({| PostgresPipeline.committed := PostgresPipeline.committed self;
                  PostgresPipeline.session :=
                    {| PostgresPipeline.movies_table :=
                         PostgresPipeline.movies_table
                           (PostgresPipeline.session self);
                       PostgresPipeline.actors_table :=
                         PostgresPipeline.actors_table
                           (PostgresPipeline.session self) ++ [new] |};
                  PostgresPipeline.peliculas_id_seq :=
                    PostgresPipeline.peliculas_id_seq self;
                  PostgresPipeline.actores_id_seq :=
                    PostgresPipeline.actores_id_seq self + 1 |}, [])
            else
              ({| PostgresPipeline.committed := PostgresPipeline.committed self;
                  PostgresPipeline.session := PostgresPipeline.committed self;
                  PostgresPipeline.peliculas_id_seq :=
                    PostgresPipeline.peliculas_id_seq self;
                  PostgresPipeline.actores_id_seq :=
                    PostgresPipeline.actores_id_seq self + 1 |},
               [Logging.ActorInsertError IntegrityError])
        end
    end.
Proof.
  unfold PostgresPipeline._insert_actor, PostgresPipeline.insert_actor.
  destruct (PostgresPipeline.select_movie_id _ _) as [pelicula_id|]; [|done].
  unfold PostgresPipeline.actor_row.
  destruct (PostgresPipeline.actor_values pelicula_id item)
    as [[[pelicula nombre] posicion_orden]|exc];
    [|unfold PostgresPipeline.rollback; by rewrite Z.add_0_r].
  cbn [mbind result_bind].
  destruct (Postgresql.not_null nombre); [|done].
  cbn [mbind result_bind]. by destruct (existsb _ _).
Qed.

Lemma process_item_committed (self : PostgresPipeline.t) item :
  PostgresPipeline.committed (PostgresPipeline.process_item self item).1
  = PostgresPipeline.committed self.
Proof.
  destruct item as [m|a]; cbn [PostgresPipeline.process_item].
  - rewrite insert_movie_result.
    by destruct (PostgresPipeline.movie_row _ _).
  - rewrite insert_actor_result.
    destruct (PostgresPipeline.select_movie_id _ _); [|done].
    destruct (PostgresPipeline.actor_row _ _ _); [|done].
    by destruct (existsb _ _).
Qed.

Lemma pg_items_cons (self : PostgresPipeline.t) item items :
  Runs.pg_items self (item :: items)
  = ((Runs.pg_items (PostgresPipeline.process_item self item).1 items).1,
     (PostgresPipeline.process_item self item).2
       ++ (Runs.pg_items (PostgresPipeline.process_item self item).1 items).2).
Proof.
  cbn [Runs.pg_items].
  destruct (PostgresPipeline.process_item self item) as [self' events].
  cbn [fst snd]. by destruct (Runs.pg_items self' items).
Qed.

Lemma pg_items_app (self : PostgresPipeline.t) items items' :
  Runs.pg_items self (items ++ items')
  = ((Runs.pg_items (Runs.pg_items self items).1 items').1,
     (Runs.pg_items self items).2
       ++ (Runs.pg_items (Runs.pg_items self items).1 items').2).
Proof.
  revert self. induction items as [|item items IH]; intros self.
  - simpl. by destruct (Runs.pg_items self items').
  - rewrite <- app_comm_cons, !pg_items_cons, IH. simpl.
    by rewrite app_assoc.
Qed.

Lemma pg_items_committed (self : PostgresPipeline.t) items :
  PostgresPipeline.committed (Runs.pg_items self items).1
  = PostgresPipeline.committed self.
Proof.
  revert self. induction items as [|item items IH]; intros self; [done|].
  rewrite pg_items_cons. simpl. by rewrite IH, process_item_committed.
Qed.

(** X15: nothing is committed while items are consumed: whatever the
    items, what is committed is what was committed when the spider was
    opened; [close_spider] commits what the session sees then. *)
Theorem commit_only_at_close (self : PostgresPipeline.t)
    (items : list Items.Item) :
  let final := (Runs.pg_items (PostgresPipeline.open_spider self) items).1 in
  PostgresPipeline.committed final = PostgresPipeline.committed self
  /\ PostgresPipeline.committed (PostgresPipeline.close_spider final)
     = PostgresPipeline.session final
  /\ PostgresPipeline.session (PostgresPipeline.close_spider final)
     = PostgresPipeline.session final.
Proof. simpl. by rewrite pg_items_committed. Qed.

(** X16: a movie whose insert fails takes with it all that the session
    had written: after any items, a movie that is refused leaves the
    session with what was committed when the spider was opened, all the
    rows written since being rolled back, and the error is reported.  A
    movie without title is refused: by the type of a column, before an
    [id] is drawn, when another of its values does not fit it, and else
    by the column [titulo], which is not nullable, after the [id] was
    drawn. *)
Theorem failed_insert_rolls_back_run (self : PostgresPipeline.t)
    (items : list Items.Item) (bad : Items.MovieItem) :
  let run :=
    Runs.pg_items (PostgresPipeline.open_spider self)
      (items ++ [Items.Movie bad]) in
  (forall id exc,
     PostgresPipeline.movie_row bad id = Raise exc ->
     PostgresPipeline.session run.1 = PostgresPipeline.committed self
     /\ last run.2 = Some (Logging.MovieInsertError exc))
  /\ (Items.title bad = None ->
      PostgresPipeline.session run.1 = PostgresPipeline.committed self
      /\ last run.2
         = Some (Logging.MovieInsertError
                   match PostgresPipeline.movie_values bad with
                   | Ok _ => IntegrityError
                   | Raise exc => exc
                   end)
      /\ forall before : PostgresPipeline.t,
           PostgresPipeline.peliculas_id_seq
             (PostgresPipeline.process_item before (Items.Movie bad)).1
           = (PostgresPipeline.peliculas_id_seq before
              + match PostgresPipeline.movie_values bad with
                | Ok _ => 1
                | Raise _ => 0
                end)%Z).
Proof.
  intros run.
  assert (Hrefused : forall id exc,
            PostgresPipeline.movie_row bad id = Raise exc ->
            PostgresPipeline.session run.1 = PostgresPipeline.committed self
            /\ last run.2 = Some (Logging.MovieInsertError exc)).
  { intros id exc Hrow. subst run. rewrite pg_items_app.
    set (before := Runs.pg_items (PostgresPipeline.open_spider self) items).
    rewrite pg_items_cons. cbn [PostgresPipeline.process_item].
    rewrite insert_movie_result.
    rewrite (movie_row_id bad id), Hrow. simpl. split.
    - subst before. by rewrite pg_items_committed.
    - rewrite ?app_nil_r. apply last_snoc. }
  split; [exact Hrefused|].
  intros Htitle.
  assert (Hrow : forall id,
            PostgresPipeline.movie_row bad id
            = Raise match PostgresPipeline.movie_values bad with
                    | Ok _ => IntegrityError
                    | Raise exc => exc
                    end).
  { intros id. rewrite (movie_row_untitled bad id Htitle).
    by destruct (PostgresPipeline.movie_values bad). }
  destruct (Hrefused 0%Z _ (Hrow 0%Z)) as [Hsession Hlast].
  split; [exact Hsession|]. split; [exact Hlast|].
  intros before. cbn [PostgresPipeline.process_item].
  rewrite insert_movie_result, Hrow.
  cbn [fst PostgresPipeline.peliculas_id_seq].
  by destruct (PostgresPipeline.movie_values bad).
Qed.

End RelationalRuns.

Lemma failed_insert_rolls_back_run_witness :
  (let run :=
     Runs.pg_items (PostgresPipeline.open_spider Tenths.empty)
       ([Items.Movie Tenths.shawshank; Items.Actor Tenths.robbins]
          ++ [Items.Movie Samples.untitled]) in
   PostgresPipeline.session run.1 = PostgresPipeline.committed Tenths.empty
   /\ last run.2 = Some (Logging.MovieInsertError IntegrityError)
   /\ PostgresPipeline.peliculas_id_seq run.1 = 3%Z)
  /\ (let run :=
        Runs.pg_items (PostgresPipeline.open_spider Tenths.empty)
          ([Items.Movie Tenths.shawshank]
             ++ [Items.Movie Samples.untitled_late]) in
      PostgresPipeline.session run.1 = PostgresPipeline.committed Tenths.empty
      /\ last run.2 = Some (Logging.MovieInsertError DataError)
      /\ PostgresPipeline.peliculas_id_seq run.1 = 2%Z).
Proof.
  split.
  - destruct (failed_insert_rolls_back_run Tenths.empty
                [Items.Movie Tenths.shawshank; Items.Actor Tenths.robbins]
                Samples.untitled) as [_ Huntitled].
    destruct (Huntitled eq_refl) as (Hsession & Hlast & _).
    split; [exact Hsession|]. split; [exact Hlast|reflexivity].
  - destruct (failed_insert_rolls_back_run Tenths.empty
                [Items.Movie Tenths.shawshank] Samples.untitled_late)
      as [Hrefused _].
    destruct (Hrefused 0%Z DataError eq_refl) as [Hsession Hlast].
    split; [exact Hsession|]. split; [exact Hlast|reflexivity].
Defined.

Section Invariants.
Context `{Postgresql.Types}.

Lemma movie_row_drawn item id r :
  PostgresPipeline.movie_row item id = Ok r -> peliculas.id r = id.
Proof.
  intros Hrow. pose proof (movie_row_id item id id) as Hid.
  rewrite Hrow in Hid. by injection Hid as ->.
Qed.

Lemma actor_row_drawn pelicula_id item id a :
  PostgresPipeline.actor_row pelicula_id item id = Ok a ->
  actores.id a = id /\ actores.pelicula_id a = Some pelicula_id.
Proof.
  unfold PostgresPipeline.actor_row, PostgresPipeline.actor_values,
    Postgresql.integer.
  case_match; [|done]. cbn [mbind result_bind].
  destruct (Postgresql.nullable _ (Items.actor_name item)) as [nombre|];
    [|done].
  cbn [mbind result_bind].
  destruct (Postgresql.nullable _ (Items.position_order item)); [|done].
  cbn [mbind result_bind].
  destruct (Postgresql.not_null nombre); [|done]. cbn [mbind result_bind].
  by intros [= <-].
Qed.

Lemma drawn_snoc {A} (f : A -> Z) l x (seq : Z) :
  Forall (λ r, (f r < seq)%Z) l -> NoDup (f <$> l) -> f x = seq ->
  Forall (λ r, (f r < seq + 1)%Z) (l ++ [x]) /\ NoDup (f <$> (l ++ [x])).
Proof.
  intros Hbelow Hnodup Hx. split.
  - apply Forall_app. split.
    + eapply Forall_impl; [exact Hbelow|]. simpl. intros; lia.
    + constructor; [lia|constructor].
  - rewrite fmap_app. apply NoDup_app. split; [done|]. split.
    + intros y Hy Hy'. apply list_elem_of_fmap in Hy as (r & -> & Hr).
      rewrite Forall_forall in Hbelow. specialize (Hbelow r Hr).
      simpl in Hy'. apply list_elem_of_singleton in Hy'. lia.
    + simpl. apply NoDup_singleton.
Qed.

Lemma ids_drawn_later (self self' : PostgresPipeline.t) db :
  (PostgresPipeline.peliculas_id_seq self
   <= PostgresPipeline.peliculas_id_seq self')%Z ->
  (PostgresPipeline.actores_id_seq self
   <= PostgresPipeline.actores_id_seq self')%Z ->
  Runs.ids_drawn self db -> Runs.ids_drawn self' db.
Proof.
  intros Hm Ha (Hmovies & Hactors & ? & ?). repeat split; try done.
  - eapply Forall_impl; [exact Hmovies|]. simpl. intros; lia.
  - eapply Forall_impl; [exact Hactors|]. simpl. intros; lia.
Qed.

Lemma process_item_ids_drawn (self : PostgresPipeline.t) item :
  Runs.ids_drawn self (PostgresPipeline.session self) ->
  Runs.ids_drawn self (PostgresPipeline.committed self) ->
  let self' := (PostgresPipeline.process_item self item).1 in
  Runs.ids_drawn self' (PostgresPipeline.session self')
  /\ Runs.ids_drawn self' (PostgresPipeline.committed self').
Proof.
  intros Hsession Hcommitted self'. subst self'.
  destruct item as [m|a]; cbn [PostgresPipeline.process_item].
  - rewrite insert_movie_result.
    destruct (PostgresPipeline.movie_row m _) as [new|exc] eqn:Hrow.
    2:{ cbn [fst PostgresPipeline.session PostgresPipeline.committed].
        split; (eapply ids_drawn_later; [| |exact Hcommitted]); simpl;
          destruct (PostgresPipeline.movie_values m); lia. }
    apply movie_row_drawn in Hrow. cbn [fst].
    split; [|by eapply ids_drawn_later; [| |exact Hcommitted]; simpl; lia].
    destruct (existsb _ _);
      [by eapply ids_drawn_later; [| |exact Hsession]; simpl; lia|].
    destruct Hsession as (Hmovies & Hactors & Hnodup & Hnodup').
    destruct (drawn_snoc peliculas.id _ new _ Hmovies Hnodup Hrow).
    by repeat split.
  - rewrite insert_actor_result.
    destruct (PostgresPipeline.select_movie_id _ _) as [pelicula_id|];
      [|by split].
    destruct (PostgresPipeline.actor_row _ _ _) as [new|exc] eqn:Hrow.
    2:{ cbn [fst PostgresPipeline.session PostgresPipeline.committed].
        split; (eapply ids_drawn_later; [| |exact Hcommitted]); simpl;
          destruct (PostgresPipeline.actor_values pelicula_id a); lia. }
    apply actor_row_drawn in Hrow as [Hrow _]. cbn [fst].
    destruct (existsb _ _); cbn [fst];
      (split; [|by eapply ids_drawn_later; [| |exact Hcommitted]; simpl; lia]);
      [|by eapply ids_drawn_later; [| |exact Hcommitted]; simpl; lia].
    destruct Hsession as (Hmovies & Hactors & Hnodup & Hnodup').
    destruct (drawn_snoc actores.id _ new _ Hactors Hnodup' Hrow).
    by repeat split.
Qed.

(** X17: the [id]s stay distinct: when, in what the session sees and in
    what is committed, the [id]s of each table are distinct and below
    the next value of its sequence, this is still so after any items
    have been consumed, and after [close_spider]. *)
Theorem ids_stay_distinct (self : PostgresPipeline.t) :
  Runs.ids_drawn self (PostgresPipeline.session self) ->
  Runs.ids_drawn self (PostgresPipeline.committed self) ->
  forall items : list Items.Item,
    let final := (Runs.pg_items self items).1 in
    Runs.ids_drawn final (PostgresPipeline.session final)
    /\ Runs.ids_drawn final (PostgresPipeline.committed final)
    /\ Runs.ids_drawn (PostgresPipeline.close_spider final)
         (PostgresPipeline.committed (PostgresPipeline.close_spider final)).
Proof.
  intros Hsession Hcommitted items. revert self Hsession Hcommitted.
  induction items as [|item items IH]; intros self Hsession Hcommitted.
  - simpl. split; [done|]. split; [done|]. exact Hsession.
  - rewrite pg_items_cons. cbn [fst].
    destruct (process_item_ids_drawn self item Hsession Hcommitted).
    by apply IH.
Qed.

End Invariants.

Lemma ids_stay_distinct_witness :
  NoDup (peliculas.id
           <$> PostgresPipeline.movies_table
                 (PostgresPipeline.session
                    (Runs.pg_items Tenths.empty
                       [Items.Movie Tenths.heat; Items.Movie Tenths.shawshank;
                        Items.Movie Tenths.heat]).1)).
Proof.
  assert (Hempty : forall db, db = PostgresPipeline.session Tenths.empty ->
                              Runs.ids_drawn Tenths.empty db).
  { intros db ->. repeat split; simpl; constructor. }
  destruct (ids_stay_distinct Tenths.empty (Hempty _ eq_refl)
              (Hempty _ eq_refl)
              [Items.Movie Tenths.heat; Items.Movie Tenths.shawshank;
               Items.Movie Tenths.heat]) as ((_ & _ & Hnodup & _) & _).
  exact Hnodup.
Defined.

Section Integrity.
Context `{Postgresql.Types}.

Lemma same_key_sym (r r' : peliculas.row) :
  peliculas.same_key r r' = peliculas.same_key r' r.
Proof.
  unfold peliculas.same_key. rewrite (String.eqb_sym (peliculas.titulo r)).
  destruct (peliculas.anio r), (peliculas.anio r'); try done.
  by rewrite Z.eqb_sym.
Qed.

Lemma lookup_snoc_Some {A} (l : list A) x (i : nat) y :
  (l ++ [x]) !! i = Some y ->
  l !! i = Some y \/ (i = length l /\ y = x).
Proof.
  intros [?|[Hle Hlast]]%lookup_app_Some; [by left|right].
  destruct (i - length l)%nat as [|k] eqn:Hk; simpl in Hlast; [|done].
  injection Hlast as <-. split; [lia|done].
Qed.

Lemma unique_keys_snoc (db db' : PostgresPipeline.Database) new :
  Runs.unique_keys db ->
  existsb (peliculas.same_key new) (PostgresPipeline.movies_table db) = false ->
  PostgresPipeline.movies_table db'
  = PostgresPipeline.movies_table db ++ [new] ->
  Runs.unique_keys db'.
Proof.
  intros Hunique Hnew Hmovies i j r r'. rewrite Hmovies.
  assert (Hfresh : forall k x,
            PostgresPipeline.movies_table db !! k = Some x ->
            peliculas.same_key new x = false).
  { intros k x Hk. destruct (peliculas.same_key new x) eqn:Hsame; [|done].
    assert (existsb (peliculas.same_key new)
              (PostgresPipeline.movies_table db) = true); [|congruence].
    apply existsb_exists. exists x. split; [|done].
    apply list_elem_of_In. by eapply list_elem_of_lookup_2. }
  intros [Hi|[-> ->]]%lookup_snoc_Some [Hj|[-> ->]]%lookup_snoc_Some Hsame.
  - by eapply Hunique.
  - rewrite same_key_sym, (Hfresh _ _ Hi) in Hsame. done.
  - rewrite (Hfresh _ _ Hj) in Hsame. done.
  - done.
Qed.

Lemma process_item_unique_keys (self : PostgresPipeline.t) item :
  Runs.unique_keys (PostgresPipeline.session self) ->
  Runs.unique_keys (PostgresPipeline.committed self) ->
  let self' := (PostgresPipeline.process_item self item).1 in
  Runs.unique_keys (PostgresPipeline.session self')
  /\ Runs.unique_keys (PostgresPipeline.committed self').
Proof.
  intros Hsession Hcommitted self'. subst self'.
  rewrite process_item_committed. split; [|done].
  destruct item as [m|a]; cbn [PostgresPipeline.process_item].
  - rewrite insert_movie_result.
    destruct (PostgresPipeline.movie_row m _) as [new|exc]; [|done].
    cbn [fst PostgresPipeline.session].
    destruct (existsb _ _) eqn:Hconflict; [done|].
    by apply (unique_keys_snoc (PostgresPipeline.session self) _ new).
  - rewrite insert_actor_result.
    destruct (PostgresPipeline.select_movie_id _ _); [|done].
    destruct (PostgresPipeline.actor_row _ _ _); [|done].
    by destruct (existsb _ _).
Qed.

(** X18: the unique constraint holds throughout: when no two rows of
    [peliculas] have the same title and the same year (both present), in
    what the session sees and in what is committed, this is still so
    after any items have been consumed. *)
Theorem keys_stay_unique (self : PostgresPipeline.t) :
  Runs.unique_keys (PostgresPipeline.session self) ->
  Runs.unique_keys (PostgresPipeline.committed self) ->
  forall items : list Items.Item,
    let final := (Runs.pg_items self items).1 in
    Runs.unique_keys (PostgresPipeline.session final)
    /\ Runs.unique_keys (PostgresPipeline.committed final).
Proof.
  intros Hsession Hcommitted items. revert self Hsession Hcommitted.
  induction items as [|item items IH]; intros self Hsession Hcommitted;
    [done|].
  rewrite pg_items_cons. cbn [fst].
  destruct (process_item_unique_keys self item Hsession Hcommitted).
  by apply IH.
Qed.

Lemma process_item_references (self : PostgresPipeline.t) item :
  Runs.references (PostgresPipeline.session self) ->
  Runs.references (PostgresPipeline.committed self) ->
  let self' := (PostgresPipeline.process_item self item).1 in
  Runs.references (PostgresPipeline.session self')
  /\ Runs.references (PostgresPipeline.committed self').
Proof.
  intros Hsession Hcommitted self'. subst self'.
  rewrite process_item_committed. split; [|done].
  destruct item as [m|a]; cbn [PostgresPipeline.process_item].
  - rewrite insert_movie_result.
    destruct (PostgresPipeline.movie_row m _) as [new|exc]; [|done].
    cbn [fst PostgresPipeline.session].
    destruct (existsb _ _); [done|].
    intros actor Hactor. destruct (Hsession actor Hactor) as (r & Hr & Hid).
    exists r. split; [|done]. simpl. apply elem_of_app. by left.
  - rewrite insert_actor_result.
    destruct (PostgresPipeline.select_movie_id _ _) as [pelicula_id|];
      [|done].
    destruct (PostgresPipeline.actor_row _ _ _) as [new|exc] eqn:Hrow;
      [|done].
    apply actor_row_drawn in Hrow as [_ Hrow].
    destruct (existsb _ _) eqn:Hfk; [|done]. cbn [fst PostgresPipeline.session].
    intros actor [Hactor|Hactor%list_elem_of_singleton]%elem_of_app.
    + by apply Hsession.
    + subst actor. apply existsb_exists in Hfk as (r & Hr & Hid).
      exists r. split; [by apply list_elem_of_In|].
      apply Z.eqb_eq in Hid. by rewrite Hrow, Hid.
Qed.

(** X19: every actor keeps a movie: when each row of [actores] refers
    to a row of [peliculas], in what the session sees and in what is
    committed, this is still so after any items have been consumed. *)
Theorem references_stay_valid (self : PostgresPipeline.t) :
  Runs.references (PostgresPipeline.session self) ->
  Runs.references (PostgresPipeline.committed self) ->
  forall items : list Items.Item,
    let final := (Runs.pg_items self items).1 in
    Runs.references (PostgresPipeline.session final)
    /\ Runs.references (PostgresPipeline.committed final).
Proof.
  intros Hsession Hcommitted items. revert self Hsession Hcommitted.
  induction items as [|item items IH]; intros self Hsession Hcommitted;
    [done|].
  rewrite pg_items_cons. cbn [fst].
  destruct (process_item_references self item Hsession Hcommitted).
  by apply IH.
Qed.

End Integrity.

Lemma keys_stay_unique_witness :
  Runs.unique_keys
    (PostgresPipeline.session
       (Runs.pg_items Tenths.empty
          [Items.Movie Tenths.shawshank; Items.Movie Tenths.heat;
           Items.Movie Tenths.shawshank]).1).
Proof.
  apply (keys_stay_unique Tenths.empty); intros i j r r' Hi; simpl in Hi;
    by rewrite lookup_nil in Hi.
Defined.

Lemma references_stay_valid_witness :
  Runs.references
    (PostgresPipeline.session
       (Runs.pg_items Tenths.empty
          [Items.Movie Tenths.shawshank; Items.Actor Tenths.robbins]).1).
Proof.
  apply (references_stay_valid Tenths.empty); intros a Ha; simpl in Ha;
    by apply elem_of_nil in Ha.
Defined.

Section CastAfterMovie.
Context `{Postgresql.Types}.

Lemma first_elem_of {A} (id : A -> Z) (matched : list A) :
  matched <> [] ->
  exists r, Postgresql.first id matched = Some r /\ r ∈ matched.
Proof.
  intros Hne. unfold Postgresql.first.
  set (k := Postgresql.first_row (id <$> matched)).
  assert (Hlt : (k `mod` length matched < length matched)%nat).
  { apply Nat.mod_upper_bound. by destruct matched. }
  destruct (lookup_lt_is_Some_2 _ _ Hlt) as [r Hr].
  exists r. split; [done|]. by eapply list_elem_of_lookup_2.
Qed.

(** X20: a cast entry written after its movie finds it: once a movie
    whose title is stored as it is has been written, whether the row is
    new or was there, the lookup by title finds a row of that title
    (which one, when several rows have it, is up to the database), and
    a cast entry with that title whose values fit is inserted, with the
    [id] of the row found, nothing being reported. *)
Theorem cast_after_movie (self : PostgresPipeline.t) movie actor t new :
  Items.title movie = Some t ->
  PostgresPipeline.movie_row movie (PostgresPipeline.peliculas_id_seq self)
  = Ok new ->
  peliculas.titulo new = t ->
  Items.movie_title actor = Some t ->
  let stored := (PostgresPipeline._insert_movie self movie).1 in
  exists pelicula,
    pelicula ∈ PostgresPipeline.movies_table (PostgresPipeline.session stored)
    /\ peliculas.titulo pelicula = t
    /\ PostgresPipeline.select_movie_id (Some t) stored
       = Some (peliculas.id pelicula)
    /\ forall row,
         PostgresPipeline.actor_row (peliculas.id pelicula) actor
           (PostgresPipeline.actores_id_seq stored) = Ok row ->
         (PostgresPipeline._insert_actor stored actor).2 = []
         /\ PostgresPipeline.actors_table
              (PostgresPipeline.session
                 (PostgresPipeline._insert_actor stored actor).1)
            = PostgresPipeline.actors_table (PostgresPipeline.session stored)
                ++ [row]
         /\ actores.pelicula_id row = Some (peliculas.id pelicula).
Proof.
  intros Htitle Hrow Hstored Hactor stored.
  set (titled := List.filter (λ r, String.eqb (peliculas.titulo r) t)
                   (PostgresPipeline.movies_table
                      (PostgresPipeline.session stored))).
  assert (Hsome : titled <> []).
  { assert (exists r,
              In r (PostgresPipeline.movies_table
                      (PostgresPipeline.session stored))
              /\ String.eqb (peliculas.titulo r) t = true)
      as (r & Hin & Hr).
    { subst stored. rewrite insert_movie_result, Hrow.
      cbn [fst PostgresPipeline.session].
      destruct (existsb _ _) eqn:Hconflict.
      - apply existsb_exists in Hconflict as (r & Hr & Hsame).
        exists r. split; [done|].
        unfold peliculas.same_key in Hsame.
        apply andb_true_iff in Hsame as [Hsame _].
        apply String.eqb_eq in Hsame. rewrite Hstored in Hsame.
        rewrite <- Hsame. apply String.eqb_refl.
      - exists new. cbn [PostgresPipeline.movies_table]. split.
        + apply in_or_app. right. by left.
        + rewrite Hstored. apply String.eqb_refl. }
    intros Hnil.
    assert (In r titled) as Hin' by (apply List.filter_In; by split).
    rewrite Hnil in Hin'. done. }
  destruct (first_elem_of peliculas.id titled Hsome) as (pelicula & Hfirst & Hin).
  apply list_elem_of_In, List.filter_In in Hin as [Hin Heq].
  apply String.eqb_eq in Heq.
  exists pelicula. split; [by apply list_elem_of_In|]. split; [done|].
  assert (Hselect : PostgresPipeline.select_movie_id (Some t) stored
                    = Some (peliculas.id pelicula)).
  { unfold PostgresPipeline.select_movie_id. fold titled. by rewrite Hfirst. }
  split; [done|].
  intros row Hactor_row. rewrite insert_actor_result, Hactor, Hselect.
  rewrite Hactor_row.
  assert (existsb (λ r, (peliculas.id r =? peliculas.id pelicula)%Z)
            (PostgresPipeline.movies_table (PostgresPipeline.session stored))
          = true) as ->.
  { apply existsb_exists. exists pelicula. split; [done|]. apply Z.eqb_refl. }
  split; [done|]. split; [done|].
  by apply actor_row_drawn in Hactor_row as [_ ->].
Qed.

End CastAfterMovie.

Lemma cast_after_movie_witness :
  let stored :=
    (PostgresPipeline._insert_movie Tenths.empty Tenths.shawshank).1 in
  (PostgresPipeline._insert_actor stored Tenths.robbins).2 = []
  /\ length (PostgresPipeline.actors_table
               (PostgresPipeline.session
                  (PostgresPipeline._insert_actor stored Tenths.robbins).1))
     = 1%nat.
Proof.
  intros stored.
  destruct (cast_after_movie Tenths.empty Tenths.shawshank Tenths.robbins
              "The Shawshank Redemption" _ eq_refl eq_refl eq_refl eq_refl)
    as (pelicula & Hin & _ & _ & Hinsert).
  simpl in Hin. apply list_elem_of_singleton in Hin. subst pelicula.
  destruct (Hinsert _ eq_refl) as (Hevents & Hactors & _).
  split; [exact Hevents|]. fold stored in Hactors. by rewrite Hactors.
Defined.

(** ** The factory *)

Lemma rsplit_dot_none s :
  Builtins.rsplit_dot s = None <-> Builtins.has_dot s = false.
Proof.
  induction s as [|c s IH]; simpl; [done|].
  destruct (Builtins.rsplit_dot s) as [[before after]|].
  - split; [done|]. intros Hdot. apply orb_false_iff in Hdot as [_ Hdot].
    by apply IH in Hdot.
  - destruct (Ascii.eqb c "."); [done|]. simpl. split; [|done].
    intros _. by apply IH.
Qed.

Lemma rsplit_dot_some s before after :
  Builtins.rsplit_dot s = Some (before, after) ->
  s = String.append before (String "." after)
  /\ Builtins.has_dot after = false.
Proof.
  revert before. induction s as [|c s IH]; intros before; simpl; [done|].
  destruct (Builtins.rsplit_dot s) as [[before' after']|] eqn:Hs.
  - intros [= <- <-]. destruct (IH _ eq_refl) as [-> Hafter]. done.
  - destruct (Ascii.eqb_spec c ".") as [->|]; [|done].
    intros [= <- <-]. split; [done|]. by apply rsplit_dot_none.
Qed.

(** X21: [SpiderFactory.create] raises [ValueError] for a name that is
    not in the registry; for a registered name it imports the module
    named before the last dot of the registered path and instantiates
    the class named after it, a name without dot; with the registry of
    the project only "imdb_top_bs" is accepted, and gives
    [ImdbTopBsSpider] of [imdb_scraper.spiders.imdb_top_bs]. *)
Theorem create_resolves (registry : gmap string string) (name : string) :
  (registry !! name = None ->
   SpiderFactory.create registry name = Raise ValueError)
  /\ (forall module_path class_name,
        SpiderFactory.create registry name = Ok (module_path, class_name) ->
        registry !! name
        = Some (String.append module_path (String "." class_name))
        /\ Builtins.has_dot class_name = false)
  /\ (SpiderFactory.create SpiderFactory._registry name
      = if String.eqb name "imdb_top_bs"
        then Ok ("imdb_scraper.spiders.imdb_top_bs"%string,
                 "ImdbTopBsSpider"%string)
        else Raise ValueError).
Proof.
  unfold SpiderFactory.create. split; [by intros ->|]. split.
  - intros module_path class_name.
    destruct (registry !! name) as [path|]; [|done].
    destruct (Builtins.rsplit_dot path) as [[m c]|] eqn:Hsplit; [|done].
    intros [= <- <-]. by destruct (rsplit_dot_some _ _ _ Hsplit) as [-> ?].
  - unfold SpiderFactory._registry.
    destruct (String.eqb_spec name "imdb_top_bs") as [->|Hne].
    + by rewrite lookup_singleton_eq.
    + by rewrite lookup_singleton_ne by (intros ?; by apply Hne).
Qed.

Lemma create_resolves_witness :
  SpiderFactory.create SpiderFactory._registry "imdb_top" = Raise ValueError
  /\ (SpiderFactory._registry !! "imdb_top_bs"
      = Some (String.append "imdb_scraper.spiders.imdb_top_bs"
                (String "." "ImdbTopBsSpider"))
      /\ Builtins.has_dot "ImdbTopBsSpider" = false).
Proof.
  split.
  - apply (proj1 (create_resolves SpiderFactory._registry "imdb_top")).
    reflexivity.
  - destruct (create_resolves SpiderFactory._registry "imdb_top_bs")
      as (_ & Hresolved & Hproject).
    apply Hresolved. exact Hproject.
Defined.

Lemma insert_movie_twice_one_row_witness :
  let once :=
    (PostgresPipeline._insert_movie Tenths.empty Tenths.shawshank).1 in
  let twice := (PostgresPipeline._insert_movie once Tenths.shawshank).1 in
  length (PostgresPipeline.rows_with_key
            (Some "The Shawshank Redemption"%string) (Some 1994%Z) twice)
  = 1%nat.
Proof.
  refine (proj1 (insert_movie_twice_one_row Tenths.empty Tenths.shawshank
                   "The Shawshank Redemption" 1994 _ eq_refl eq_refl eq_refl
                   eq_refl _)).
  simpl. lia.
Defined.

Lemma process_request_assigns_from_pool_witness :
  (exists self' events,
     MixedProxyMiddleware.process_request
       (MixedProxyMiddleware.__init__ Tenths.settings).1 Samples.fresh_request
       3 (Raise ConnectionLost)
     = Ok (self',
           MixedProxyMiddleware.set_meta "proxy" (VStr Tenths.proxy_2)
             Samples.fresh_request, events)
     /\ MixedProxyMiddleware.current_proxy self' = Some Tenths.proxy_2)
  /\ MixedProxyMiddleware.process_request
       (MixedProxyMiddleware.__init__ Samples.with_blank).1
       Samples.fresh_request 1 (Raise ConnectionLost)
     = Ok ((MixedProxyMiddleware.__init__ Samples.with_blank).1,
           Samples.fresh_request, [])
  /\ MixedProxyMiddleware.process_request
       (MixedProxyMiddleware.__init__ Tenths.settings).1 Tenths.routed_request
       3 (Raise ConnectionLost)
     = Ok ((MixedProxyMiddleware.__init__ Tenths.settings).1,
           Tenths.routed_request, []).
Proof.
  split; [|split].
  - destruct (process_request_assigns_from_pool
                (MixedProxyMiddleware.__init__ Tenths.settings).1
                Samples.fresh_request 3 (Raise ConnectionLost))
      as (_ & _ & Hdrawn & _).
    destruct (Hdrawn Tenths.proxy_2 eq_refl eq_refl)
      as (self' & events & Heq & Hcurrent & _).
    by exists self', events.
  - destruct (process_request_assigns_from_pool
                (MixedProxyMiddleware.__init__ Samples.with_blank).1
                Samples.fresh_request 1 (Raise ConnectionLost))
      as (_ & _ & Hdrawn & _).
    exact (Hdrawn EmptyString eq_refl eq_refl).
  - destruct (process_request_assigns_from_pool
                (MixedProxyMiddleware.__init__ Tenths.settings).1
                Tenths.routed_request 3 (Raise ConnectionLost))
      as (Hkept & _).
    apply Hkept. by eexists.
Defined.
